(** * NetSports Fantasy: stats synchronisation, roster validation and scoring

    A shallow embedding of the stats/scoring core of the pool:
    - [services/nhlApi.js]  : [determineRound], [parseGameLogStats],
                              [updateAllPlayerStats];
    - [routes/rosters.js]   : the save ([PUT /:round]) and submit
                              ([POST /:round/submit]) handlers, in the two
                              versions the repository carries;
    - [schema.sql]          : the [leaderboard] view.

    Tables are lists of rows (or finite maps where the schema has a key the
    code relies on), handlers are functions from a database state to an HTTP
    outcome and a new database state. *)

From Stdlib Require Import ZArith List Bool Ascii String Lia.
From Stdlib Require Import Numbers.DecimalString Sorting.Sorted Sorting.Permutation.
From stdpp Require Import base option list gmap strings.

Local Open Scope string_scope.
Local Open Scope list_scope.
Local Open Scope Z_scope.

(** ** JavaScript primitives used by the code *)

Module Js.

(** The values a game identifier can take in the upstream JSON. Numbers are
    the integers (identifiers are ten-digit integers); [String] prints them
    in plain decimal, which is what JavaScript does below 1e21. *)
Inductive value :=
| Num (n : Z)
| Str (s : string)
| Bool (b : bool)
| Null
| Undefined.

(** [String(v)] *)
Definition String_ (v : value) : string :=
  match v with
  | Num n => NilEmpty.string_of_int (Z.to_int n)
  | Str s => s
  | Bool b => if b then "true" else "false"
  | Null => "null"
  | Undefined => "undefined"
  end.

(** [s.slice(start, end)]: negative indices count from the end, both are
    clamped to the string, an empty range gives the empty string. *)
Definition slice (s : string) (start end_ : Z) : string :=
  let len := Z.of_nat (String.length s) in
  let from := if start <? 0 then Z.max (len + start) 0 else Z.min start len in
  let to := if end_ <? 0 then Z.max (len + end_) 0 else Z.min end_ len in
  substring (Z.to_nat from) (Z.to_nat (Z.max (to - from) 0)) s.

Definition code (c : ascii) : Z := Z.of_N (N_of_ascii c).

(** White space and line terminators skipped by [parseInt] (code units up
    to 255: TAB, LF, VT, FF, CR, SP, NBSP). *)
Definition is_space (c : ascii) : bool :=
  let n := code c in
  ((9 <=? n) && (n <=? 13)) || (n =? 32) || (n =? 160).

(** Value of a character as a digit, in any radix up to 36. *)
Definition digit_value (c : ascii) : option Z :=
  let n := code c in
  if (48 <=? n) && (n <=? 57) then Some (n - 48)
  else if (97 <=? n) && (n <=? 122) then Some (n - 97 + 10)
  else if (65 <=? n) && (n <=? 90) then Some (n - 65 + 10)
  else None.

Definition digit_in (radix : Z) (c : ascii) : option Z :=
  match digit_value c with
  | Some d => if d <? radix then Some d else None
  | None => None
  end.

Fixpoint skip_spaces (s : string) : string :=
  match s with
  | String c s' => if is_space c then skip_spaces s' else s
  | EmptyString => s
  end.

(** The longest prefix of radix digits, accumulated left to right;
    [None] while no digit has been read. *)
Fixpoint digits (radix : Z) (acc : option Z) (s : string) : option Z :=
  match s with
  | String c s' =>
      match digit_in radix c with
      | Some d => digits radix (Some (radix * default 0 acc + d)) s'
      | None => acc
      end
  | EmptyString => acc
  end.

(** [parseInt(s)] without a radix; [None] is NaN. The result is exact (no
    rounding to a double), which agrees with JavaScript below 2^53. *)
Definition parseInt (s : string) : option Z :=
  let s1 := skip_spaces s in
  let '(sign, s2) :=
    match s1 with
    | String "-" r => (-1, r)
    | String "+" r => (1, r)
    | _ => (1, s1)
    end in
  let '(radix, s3) :=
    match s2 with
    | String "0" (String "x" r) => (16, r)
    | String "0" (String "X" r) => (16, r)
    | _ => (10, s2)
    end in
  match digits radix None s3 with
  | Some n => Some (sign * n)
  | None => None
  end.

(** Relational operators: any comparison with NaN is false. *)
Definition ge (a : option Z) (b : Z) : bool :=
  match a with Some x => b <=? x | None => false end.
Definition le (a : option Z) (b : Z) : bool :=
  match a with Some x => x <=? b | None => false end.

End Js.

(** ** services/nhlApi.js: round classification and aggregation *)

Module Game.
(** One entry of the upstream game log. A field the upstream left out (or
    sent as null) is [None]. *)
Record t := {
  gameId : Js.value;
  decision : option string;
  shutouts : option Z;
  goalsAgainst : option Z;
  goals : option Z;
  assists : option Z
}.
End Game.

Module NhlApi.

(** [determineRound(gameId)] *)
Definition determineRound (gameId : Js.value) : Z :=
  let gameIdStr := Js.String_ gameId in
  if Z.of_nat (String.length gameIdStr) <? 4 then 1
  else
    let roundCode := Js.parseInt (Js.slice gameIdStr (-4) (-2)) in
    if Js.ge roundCode 11 && Js.le roundCode 17 then 1
    else if Js.ge roundCode 21 && Js.le roundCode 27 then 2
    else if Js.ge roundCode 31 && Js.le roundCode 47 then 3
    else 1.

(** The per-round totals object [{ goals, assists, wins, shutouts,
    gamesPlayed }]. *)
Record RoundStats := {
  goals : Z;
  assists : Z;
  wins : Z;
  shutouts : Z;
  gamesPlayed : Z
}.

Definition zero : RoundStats :=
  {| goals := 0; assists := 0; wins := 0; shutouts := 0; gamesPlayed := 0 |}.

(** The object [stats], keyed by round number. *)
Definition initial : gmap Z RoundStats :=
  <[1 := zero]> (<[2 := zero]> (<[3 := zero]> ∅)).

(** [x || 0] on an optional number *)
Definition or_zero (x : option Z) : Z :=
  match x with
  | Some n => if n =? 0 then 0 else n
  | None => 0
  end.

(** truthiness of an optional number *)
Definition truthy (x : option Z) : bool :=
  match x with
  | Some n => negb (n =? 0)
  | None => false
  end.

Definition is_win (g : Game.t) : bool :=
  bool_decide (Game.decision g = Some "W").

Definition is_zero (x : option Z) : bool :=
  match x with
  | Some n => n =? 0
  | None => false
  end.

(** The goalie branch of the loop body, on the entry [stats[round]]. *)
Definition goalie_update (g : Game.t) (st : RoundStats) : RoundStats :=
  let st1 :=
    if is_win g
    then {| goals := goals st; assists := assists st; wins := wins st + 1;
            shutouts := shutouts st; gamesPlayed := gamesPlayed st |}
    else st in
  let st2 :=
    if truthy (Game.shutouts g)
    then {| goals := goals st1; assists := assists st1; wins := wins st1;
            shutouts := shutouts st1 + default 0 (Game.shutouts g);
            gamesPlayed := gamesPlayed st1 |}
    else st1 in
  if is_zero (Game.goalsAgainst g) && is_win g
  then {| goals := goals st2; assists := assists st2; wins := wins st2;
          shutouts := Z.max (shutouts st2) 1;
          gamesPlayed := gamesPlayed st2 |}
  else st2.

(** The skater branch. *)
Definition skater_update (g : Game.t) (st : RoundStats) : RoundStats :=
  {| goals := goals st + or_zero (Game.goals g);
     assists := assists st + or_zero (Game.assists g);
     wins := wins st; shutouts := shutouts st;
     gamesPlayed := gamesPlayed st |}.

Definition count_game (st : RoundStats) : RoundStats :=
  {| goals := goals st; assists := assists st; wins := wins st;
     shutouts := shutouts st; gamesPlayed := gamesPlayed st + 1 |}.

(** One iteration of [for (const game of gameLog.gameLog)]. Reading
    [stats[round]] for a round the object does not hold throws; [None]
    stands for that exception. *)
Definition step (isGoalie : bool) (stats : gmap Z RoundStats) (g : Game.t)
  : option (gmap Z RoundStats) :=
  let round := determineRound (Game.gameId g) in
  st ← stats !! round;
  let st' := if isGoalie then goalie_update g st else skater_update g st in
  Some (<[round := count_game st']> stats).

Fixpoint loop (isGoalie : bool) (stats : gmap Z RoundStats) (log : list Game.t)
  : option (gmap Z RoundStats) :=
  match log with
  | [] => Some stats
  | g :: rest => stats' ← step isGoalie stats g; loop isGoalie stats' rest
  end.

(** [parseGameLogStats(gameLog, isGoalie)]; the first argument is
    [gameLog?.gameLog] when that is an array. *)
Definition parseGameLogStats (gameLog : option (list Game.t)) (isGoalie : bool)
  : option (gmap Z RoundStats) :=
  match gameLog with
  | None => Some initial
  | Some log => loop isGoalie initial log
  end.

End NhlApi.

(** ** schema.sql: the tables *)

Inductive position := forward | defense | goalie.
Inductive conference := western | eastern.

#[global] Instance position_eq_dec : EqDecision position.
Proof. solve_decision. Defined.
#[global] Instance conference_eq_dec : EqDecision conference.
Proof. solve_decision. Defined.

(** Primary keys ([UUID] in the schema) are opaque identifiers; timestamps
    are instants on the integer time line. *)
Abbreviation uuid := N (only parsing).
Abbreviation timestamp := Z (only parsing).

(** The values an [INT] column takes: a statement that stores an integer
    outside this range is refused ("integer out of range"). *)
Definition int4 (n : Z) : bool := (-2147483648 <=? n) && (n <=? 2147483647).

(** A [JSONB] value of the [settings] table. [JInstant t] is the JSON string
    that holds the ISO-8601 rendering of the instant [t]. *)
Inductive json :=
| JNull
| JBool (b : bool)
| JNumber (n : Z)
| JString (s : string)
| JInstant (t : timestamp).

Module Users.
Record row := { id : uuid; username : string; is_verified : bool }.
End Users.

Module Teams.
Record row := { abbrev : string; conference_ : conference }.
End Teams.

Module Players.
Record row := {
  id : uuid;
  nhl_id : Z;
  team_abbrev : string;
  position_ : position;
  cost : Z;
  is_active : bool
}.
End Players.

Module PlayerStats.
(** The value columns of [player_stats]; the key is [(player_id, round)],
    which the schema declares [UNIQUE]. *)
Record row := {
  goals : Z;
  assists : Z;
  wins : Z;
  shutouts : Z;
  games_played : Z;
  updated_at : timestamp
}.
End PlayerStats.

Module Rosters_.
Record row := {
  id : uuid;
  user_id : uuid;
  round : Z;
  is_submitted : bool;
  submitted_at : option timestamp
}.
End Rosters_.

Module RosterPlayers.
Record row := { roster_id : uuid; player_id : uuid; is_star : bool }.
End RosterPlayers.

Module Tiebreakers.
(** Value columns; the key is [(user_id, round)], declared [UNIQUE]. *)
Record row := { question1_answer : option Z; question2_answer : option Z }.
End Tiebreakers.

Module StatUpdateLog.
Inductive status_ := running | completed | failed.
(** An entry of [errors] is the message [Player <nhl id>: ...]; it is kept
    as the NHL id it names. *)
Record row := {
  id : Z;
  completed_at : option timestamp;
  players_updated : Z;
  errors : list Z;
  status : status_
}.
End StatUpdateLog.

Module Rounds.
(** The [rounds] table, created by the migration of [server.js]
    ([CREATE TABLE IF NOT EXISTS rounds]); the handlers read its
    [round_number] and its nullable [pick_deadline]. *)
Record row := { round_number : Z; pick_deadline : option timestamp }.
End Rounds.

Module TeamQualifications.
(** The [team_qualifications] table, created by the migration of
    [server.js] ([CREATE TABLE IF NOT EXISTS team_qualifications]); the
    handlers read [round_number], [team_abbrev] and [qualified]. *)
Record row := { round_number : Z; team_abbrev : string; qualified : bool }.
End TeamQualifications.

(** The database. *)
Record db := {
  users : list Users.row;
  teams : list Teams.row;
  players : list Players.row;
  player_stats : gmap (N * Z) PlayerStats.row;
  rosters : list Rosters_.row;
  roster_players : list RosterPlayers.row;
  tiebreakers : gmap (N * Z) Tiebreakers.row;
  settings : gmap string json;
  stat_update_log : list StatUpdateLog.row;
  rounds : list Rounds.row;
  team_qualifications : list TeamQualifications.row
}.

Definition set_player_stats (f : gmap (N * Z) PlayerStats.row -> gmap (N * Z) PlayerStats.row) (d : db) : db :=
  {| users := users d; teams := teams d; players := players d;
     player_stats := f (player_stats d); rosters := rosters d;
     roster_players := roster_players d; tiebreakers := tiebreakers d;
     settings := settings d; stat_update_log := stat_update_log d;
     rounds := rounds d; team_qualifications := team_qualifications d |}.

Definition set_rosters (f : list Rosters_.row -> list Rosters_.row) (d : db) : db :=
  {| users := users d; teams := teams d; players := players d;
     player_stats := player_stats d; rosters := f (rosters d);
     roster_players := roster_players d; tiebreakers := tiebreakers d;
     settings := settings d; stat_update_log := stat_update_log d;
     rounds := rounds d; team_qualifications := team_qualifications d |}.

Definition set_roster_players (f : list RosterPlayers.row -> list RosterPlayers.row) (d : db) : db :=
  {| users := users d; teams := teams d; players := players d;
     player_stats := player_stats d; rosters := rosters d;
     roster_players := f (roster_players d); tiebreakers := tiebreakers d;
     settings := settings d; stat_update_log := stat_update_log d;
     rounds := rounds d; team_qualifications := team_qualifications d |}.

Definition set_tiebreakers (f : gmap (N * Z) Tiebreakers.row -> gmap (N * Z) Tiebreakers.row) (d : db) : db :=
  {| users := users d; teams := teams d; players := players d;
     player_stats := player_stats d; rosters := rosters d;
     roster_players := roster_players d; tiebreakers := f (tiebreakers d);
     settings := settings d; stat_update_log := stat_update_log d;
     rounds := rounds d; team_qualifications := team_qualifications d |}.

Definition set_settings (f : gmap string json -> gmap string json) (d : db) : db :=
  {| users := users d; teams := teams d; players := players d;
     player_stats := player_stats d; rosters := rosters d;
     roster_players := roster_players d; tiebreakers := tiebreakers d;
     settings := f (settings d); stat_update_log := stat_update_log d;
     rounds := rounds d; team_qualifications := team_qualifications d |}.

Definition set_stat_update_log (f : list StatUpdateLog.row -> list StatUpdateLog.row) (d : db) : db :=
  {| users := users d; teams := teams d; players := players d;
     player_stats := player_stats d; rosters := rosters d;
     roster_players := roster_players d; tiebreakers := tiebreakers d;
     settings := settings d; stat_update_log := f (stat_update_log d);
     rounds := rounds d; team_qualifications := team_qualifications d |}.

(** ** services/nhlApi.js: the sync run *)

Module Sync.

(** What [axios.get] on the game-log URL of a player does: a body, whose
    [gameLog] field is an array or not; a 404; any other failure (after
    which the routine holds [null] and skips the player). *)
Inductive reply :=
| Body (gameLog : option (list Game.t))
| NotFound
| Failure.

(** [getPlayerGameLog(nhlPlayerId)]; [None] is [null]. *)
Definition getPlayerGameLog (upstream : Z -> reply) (nhlPlayerId : Z)
  : option (option (list Game.t)) :=
  match upstream nhlPlayerId with
  | Body b => Some b
  | NotFound => Some (Some [])
  | Failure => None
  end.

(** The five totals of a round fit the [INT] columns [goals], [assists],
    [wins], [shutouts] and [games_played] of [player_stats]. *)
Definition storable (st : NhlApi.RoundStats) : bool :=
  int4 (NhlApi.goals st) && int4 (NhlApi.assists st) && int4 (NhlApi.wins st)
  && int4 (NhlApi.shutouts st) && int4 (NhlApi.gamesPlayed st).

(** [INSERT INTO player_stats ... ON CONFLICT (player_id, round) DO UPDATE];
    the statement is refused ([None]) when a total does not fit its
    column. *)
Definition upsert (player_id : uuid) (round : Z) (st : NhlApi.RoundStats)
    (now : timestamp) (tbl : gmap (N * Z) PlayerStats.row)
  : option (gmap (N * Z) PlayerStats.row) :=
  if storable st
  then Some (<[(player_id, round) :=
                 {| PlayerStats.goals := NhlApi.goals st;
                    PlayerStats.assists := NhlApi.assists st;
                    PlayerStats.wins := NhlApi.wins st;
                    PlayerStats.shutouts := NhlApi.shutouts st;
                    PlayerStats.games_played := NhlApi.gamesPlayed st;
                    PlayerStats.updated_at := now |}]> tbl)
  else None.

(** [for (const round of [1, 2, 3])]: one upsert per round, each a
    statement of its own. Reading a round the totals do not hold throws, and
    so does an upsert the database refuses: the upserts already made stay,
    the later ones are not made. *)
Fixpoint upsert_rounds (rounds : list Z) (player_id : uuid)
    (stats : gmap Z NhlApi.RoundStats) (now : timestamp)
    (tbl : gmap (N * Z) PlayerStats.row)
  : gmap (N * Z) PlayerStats.row * bool :=
  match rounds with
  | [] => (tbl, true)
  | round :: rest =>
      match stats !! round with
      | Some st =>
          match upsert player_id round st now tbl with
          | Some tbl' => upsert_rounds rest player_id stats now tbl'
          | None => (tbl, false)
          end
      | None => (tbl, false)
      end
  end.

(** The state of the loop over the players: the table, [playersUpdated]
    and [errors]. *)
Record progress := {
  table : gmap (N * Z) PlayerStats.row;
  playersUpdated : Z;
  errors : list Z
}.

(** The body of [for (const player of playersResult.rows)], with its
    [try]/[catch]: a player whose aggregation or upsert throws is not
    counted, and is reported in [errors]. *)
Definition update_player (upstream : Z -> reply) (now : timestamp)
    (acc : progress) (player : Players.row) : progress :=
  let isGoalie := bool_decide (Players.position_ player = goalie) in
  match getPlayerGameLog upstream (Players.nhl_id player) with
  | Some gameLog =>
      match NhlApi.parseGameLogStats gameLog isGoalie with
      | Some stats =>
          let '(tbl, ok) :=
            upsert_rounds [1; 2; 3] (Players.id player) stats now (table acc) in
          if ok
          then {| table := tbl; playersUpdated := playersUpdated acc + 1;
                  errors := errors acc |}
          else {| table := tbl; playersUpdated := playersUpdated acc;
                  errors := errors acc ++ [Players.nhl_id player] |}
      | None =>
          {| table := table acc; playersUpdated := playersUpdated acc;
             errors := errors acc ++ [Players.nhl_id player] |}
      end
  | None => acc
  end.

(** [startUpdateLog()]: the new row and its serial id. *)
Definition startUpdateLog (d : db) : Z * db :=
  let logId := Z.of_nat (length (stat_update_log d)) + 1 in
  (logId,
   set_stat_update_log (fun l => l ++ [
     {| StatUpdateLog.id := logId; StatUpdateLog.completed_at := None;
        StatUpdateLog.players_updated := 0; StatUpdateLog.errors := [];
        StatUpdateLog.status := StatUpdateLog.running |}]) d).

(** [completeUpdateLog(logId, playersUpdated, errors, status)] *)
Definition completeUpdateLog (logId : Z) (n : Z) (errs : list Z)
    (st : StatUpdateLog.status_) (now : timestamp) (d : db) : db :=
  set_stat_update_log (map (fun r =>
    if StatUpdateLog.id r =? logId
    then {| StatUpdateLog.id := StatUpdateLog.id r;
            StatUpdateLog.completed_at := Some now;
            StatUpdateLog.players_updated := n;
            StatUpdateLog.errors := errs;
            StatUpdateLog.status := st |}
    else r)) d.

(** [UPDATE settings SET value = v WHERE key = k] *)
Definition update_setting (k : string) (v : json) (d : db) : db :=
  set_settings (alter (fun _ => v) k) d.

Record summary := {
  success : bool;
  summary_playersUpdated : Z;
  summary_errors : list Z
}.

(** [updateAllPlayerStats()] against the upstream [upstream]. The run is
    taken at one instant [now] (every [NOW()] and [new Date()] of the run
    reads it) and the pause between two players is left out. The database
    is one that answers: a statement is refused for the values it stores
    ([upsert]), which the [catch] of the player's iteration handles, and for
    nothing else. The outer [catch], entered when the connection or a
    statement outside the iterations fails and which reports the run as
    failed, is not part of this model: what is proved of a run is proved of
    the runs that do not enter it. *)
Definition updateAllPlayerStats (upstream : Z -> reply) (now : timestamp) (d : db)
  : summary * db :=
  let '(logId, d1) := startUpdateLog d in
  let active := filter (fun p => Players.is_active p = true) (players d1) in
  let final :=
    foldl (update_player upstream now)
          {| table := player_stats d1; playersUpdated := 0; errors := [] |}
          active in
  let d2 := set_player_stats (fun _ => table final) d1 in
  let d3 := update_setting "stats_last_updated" (JInstant now) d2 in
  let d4 := update_setting "stats_verified" (JBool true) d3 in
  let d5 := completeUpdateLog logId (playersUpdated final) (errors final)
              StatUpdateLog.completed now d4 in
  ({| success := true; summary_playersUpdated := playersUpdated final;
      summary_errors := errors final |}, d5).

End Sync.

(** ** routes/standings.js: the operator's settings update *)

Module Standings.

(** The body of [PUT /settings]: each field present or not, already as the
    JSON value [JSON.stringify] stores. *)
Record body := {
  currentRound : option json;
  lockDates : option json;
  isVerified : option json
}.

Definition update_if (k : string) (v : option json) (d : db) : db :=
  match v with
  | Some v => Sync.update_setting k v d
  | None => d
  end.

(** [PUT /settings], once the request has passed the admin check. *)
Definition put_settings (b : body) (d : db) : db :=
  update_if "stats_verified" (isVerified b)
    (update_if "lock_dates" (lockDates b)
       (update_if "current_round" (currentRound b) d)).

End Standings.

(** ** routes/rosters.js (the transactional version): save and submit *)

Module Selections.
(** [selections[conf]]: the three position arrays, each possibly missing. *)
Record conf := {
  forwards : option (list uuid);
  defense : option (list uuid);
  goalies : option (list uuid)
}.
(** [selections]: the two conferences, each possibly missing. *)
Record t := { western : option conf; eastern : option conf }.
End Selections.

Module Body.
(** The request body of a save. [stars] is the [stars] object, when the
    request has one, as the player ids it holds under [forward], [defense]
    and [goalie]; [tiebreakers] holds [q1] and [q2], each an integer or
    missing. *)
Record t := {
  selections : option Selections.t;
  stars : option (list uuid);
  tiebreakers : option (option Z * option Z)
}.
End Body.

Definition sum_Z (l : list Z) : Z := foldr Z.add 0 l.

(** The rows of [SELECT pick_deadline FROM rounds WHERE round_number = $1],
    reduced to what both handlers test: [None] when there is no row or the
    first row has no deadline. *)
Definition pick_deadline_of (d : db) (round : Z) : option timestamp :=
  match filter (fun r => Rounds.round_number r = round) (rounds d) with
  | [] => None
  | r :: _ => Rounds.pick_deadline r
  end.

(** [SELECT ... FROM rosters WHERE user_id = $1 AND round = $2], first row *)
Definition roster_of (d : db) (user : uuid) (round : Z) : option Rosters_.row :=
  head (filter (fun r => Rosters_.user_id r = user ∧ Rosters_.round r = round) (rosters d)).

(** [x || null] on an optional number *)
Definition or_null (x : option Z) : option Z :=
  match x with
  | Some n => if n =? 0 then None else Some n
  | None => None
  end.

(** The tiebreaker upsert of the save handler, where the database accepts
    it; [Rosters.upsert_tiebreakers] has the foreign key on [user_id] and
    the range of the [INT] columns. *)
Definition save_tiebreakers (user : uuid) (round : Z) (tb : option (option Z * option Z)) (d : db) : db :=
  match tb with
  | Some (q1, q2) =>
      set_tiebreakers
        (insert (user, round)
           {| Tiebreakers.question1_answer := or_null q1;
              Tiebreakers.question2_answer := or_null q2 |}) d
  | None => d
  end.

(** The ids pushed for one conference and one position. *)
Definition slot (c : option Selections.conf)
    (pos : Selections.conf -> option (list uuid)) : list uuid :=
  match c with
  | Some cs => default [] (pos cs)
  | None => []
  end.

(** [playerIds], collected conference by conference, position by position. *)
Definition collect (s : Selections.t) : list uuid :=
  slot (Selections.western s) Selections.forwards ++
  slot (Selections.western s) Selections.defense ++
  slot (Selections.western s) Selections.goalies ++
  slot (Selections.eastern s) Selections.forwards ++
  slot (Selections.eastern s) Selections.defense ++
  slot (Selections.eastern s) Selections.goalies.

Module Rosters.

Definition SALARY_CAP : Z := 30.

Inductive outcome :=
| Saved (rosterId : uuid)   (* 200, 'Roster saved' *)
| InvalidRound              (* 400, 'Invalid round' *)
| DeadlineNotSet            (* 400, 'Pick deadline not set for this round' *)
| Locked                    (* 403, 'This round is locked' *)
| OverCap                   (* 400, 'Roster exceeds salary cap' *)
| NotQualified              (* 400, 'Roster contains players from teams not qualified ...' *)
| ServerError.              (* 500, 'Failed to save roster' *)

(** Get or create the roster; [fresh] is the id the database generates
    for a new row. The insert is taken to be accepted; [find_or_insert]
    below has the foreign key on [user_id]. *)
Definition get_or_create (d : db) (user : uuid) (round : Z) (fresh : uuid) : uuid * db :=
  match roster_of d user round with
  | Some r => (Rosters_.id r, d)
  | None =>
      (fresh,
       set_rosters (fun l => l ++ [
         {| Rosters_.id := fresh; Rosters_.user_id := user; Rosters_.round := round;
            Rosters_.is_submitted := false; Rosters_.submitted_at := None |}]) d)
  end.

(** [DELETE FROM roster_players WHERE roster_id = $1] *)
Definition clear (rosterId : uuid) (d : db) : db :=
  set_roster_players (filter (fun rp => RosterPlayers.roster_id rp ≠ rosterId)) d.

(** [SELECT COALESCE(SUM(cost), 0) FROM players WHERE id = ANY($1)] *)
Definition total_cost (d : db) (playerIds : list uuid) : Z :=
  sum_Z (map Players.cost (filter (fun p => Players.id p ∈ playerIds) (players d))).

(** The teams qualified for the round. *)
Definition qualified_teams (d : db) (round : Z) : list string :=
  map TeamQualifications.team_abbrev
    (filter (fun q => TeamQualifications.round_number q = round
                      ∧ TeamQualifications.qualified q = true)
            (team_qualifications d)).

(** [invalid_count]: the selected players whose team is not qualified. *)
Definition invalid_count (d : db) (playerIds : list uuid) (round : Z) : Z :=
  Z.of_nat (length (filter (fun p => Players.id p ∈ playerIds
                                     ∧ Players.team_abbrev p ∉ qualified_teams d round)
                           (players d))).

(** One [INSERT INTO roster_players], with [isStar] computed from the
    values of [stars || {}]: the foreign key on [player_id] and the
    uniqueness of [(roster_id, player_id)] make it fail ([None]). *)
Definition insert_player (rosterId : uuid) (stars : list uuid) (d : db) (playerId : uuid)
  : option db :=
  if bool_decide (playerId ∈ map Players.id (players d))
     && negb (bool_decide ((rosterId, playerId) ∈
                map (fun rp => (RosterPlayers.roster_id rp, RosterPlayers.player_id rp))
                    (roster_players d)))
  then Some (set_roster_players (fun l => l ++ [
               {| RosterPlayers.roster_id := rosterId;
                  RosterPlayers.player_id := playerId;
                  RosterPlayers.is_star := bool_decide (playerId ∈ stars) |}]) d)
  else None.

Fixpoint insert_players (rosterId : uuid) (stars : list uuid) (d : db)
    (playerIds : list uuid) : option db :=
  match playerIds with
  | [] => Some d
  | p :: rest => d' ← insert_player rosterId stars d p; insert_players rosterId stars d' rest
  end.

(** The two checks made [if (playerIds.length > 0)]: the rejection they
    end in, if any. *)
Definition validate (d : db) (playerIds : list uuid) (round : Z) : option outcome :=
  if bool_decide (playerIds ≠ [])
  then
    if SALARY_CAP <? total_cost d playerIds then Some OverCap
    else if 0 <? invalid_count d playerIds round then Some NotQualified
    else None
  else None.

(** [PUT /:round] for the user [user] at the instant [now], on a database
    that accepts the roster row and the tiebreaker answers of the request
    ([put] below has the errors these two statements can raise, and agrees
    with [save] wherever they are accepted). A rejection after [BEGIN] rolls
    back: the database is the one the request found. *)
Definition save (d : db) (user fresh : uuid) (now : timestamp) (round : Z) (b : Body.t)
  : outcome * db :=
  if (round <? 1) || (3 <? round) then (InvalidRound, d)
  else match pick_deadline_of d round with
  | None => (DeadlineNotSet, d)
  | Some lockDate =>
    if lockDate <? now then (Locked, d)
    else
      let '(rosterId, d1) := get_or_create d user round fresh in
      let d2 := clear rosterId d1 in
      match Body.selections b with
      | None => (ServerError, d)
      | Some selections =>
        let playerIds := collect selections in
        match validate d2 playerIds round with
        | Some rejection => (rejection, d)
        | None =>
          match insert_players rosterId (default [] (Body.stars b)) d2 playerIds with
          | None => (ServerError, d)
          | Some d3 => (Saved rosterId, save_tiebreakers user round (Body.tiebreakers b) d3)
          end
        end
      end
  end.

(** *** The statements of a save the database can refuse

    [save] follows the handler through its own decisions and through the
    errors of the [roster_players] inserts. Two more of its statements can be
    refused by the database, and the [catch] then answers 500 and rolls
    back: the [INSERT INTO rosters], whose [user_id] references [users], and
    the tiebreaker upsert, whose [user_id] references [users] and whose
    answers go to [INT] columns. [put] is the handler with these errors as
    well. *)

(** The user has a row in [users]. *)
Definition known (d : db) (user : uuid) : bool :=
  bool_decide (user ∈ map Users.id (users d)).

(** Get or create the roster; the insert made for a user who has no roster
    for the round is refused ([None]) when the user has no row. *)
Definition find_or_insert (d : db) (user : uuid) (round : Z) (fresh : uuid)
  : option (uuid * db) :=
  match roster_of d user round with
  | Some r => Some (Rosters_.id r, d)
  | None =>
      if known d user
      then Some (fresh,
                 set_rosters (fun l => l ++ [
                   {| Rosters_.id := fresh; Rosters_.user_id := user;
                      Rosters_.round := round; Rosters_.is_submitted := false;
                      Rosters_.submitted_at := None |}]) d)
      else None
  end.

(** The answer as it is stored, [q || null], fits its [INT] column. *)
Definition fits (q : option Z) : bool :=
  match or_null q with
  | Some n => int4 n
  | None => true
  end.

(** The tiebreaker upsert, made [if (tiebreakers)]: refused ([None]) for a
    user without a row and for an answer that does not fit. *)
Definition upsert_tiebreakers (user : uuid) (round : Z)
    (tb : option (option Z * option Z)) (d : db) : option db :=
  match tb with
  | Some (q1, q2) =>
      if known d user && fits q1 && fits q2
      then Some (save_tiebreakers user round tb d)
      else None
  | None => Some d
  end.

(** [PUT /:round] for the user [user] at the instant [now], with the errors
    of the roster insert and of the tiebreaker upsert beside those of the
    [roster_players] inserts. A rejection or an error after [BEGIN] rolls
    back: the database is the one the request found. *)
Definition put (d : db) (user fresh : uuid) (now : timestamp) (round : Z) (b : Body.t)
  : outcome * db :=
  if (round <? 1) || (3 <? round) then (InvalidRound, d)
  else match pick_deadline_of d round with
  | None => (DeadlineNotSet, d)
  | Some lockDate =>
    if lockDate <? now then (Locked, d)
    else
      match find_or_insert d user round fresh with
      | None => (ServerError, d)
      | Some (rosterId, d1) =>
        let d2 := clear rosterId d1 in
        match Body.selections b with
        | None => (ServerError, d)
        | Some selections =>
          let playerIds := collect selections in
          match validate d2 playerIds round with
          | Some rejection => (rejection, d)
          | None =>
            match insert_players rosterId (default [] (Body.stars b)) d2 playerIds with
            | None => (ServerError, d)
            | Some d3 =>
              match upsert_tiebreakers user round (Body.tiebreakers b) d3 with
              | None => (ServerError, d)
              | Some d4 => (Saved rosterId, d4)
              end
            end
          end
        end
      end
  end.

(** A row of the completeness query of the submit handler. *)
Record picked := { position_ : position; conference_ : conference; is_star : bool }.

(** [roster_players JOIN players JOIN teams WHERE rp.roster_id = $1] *)
Definition picked_rows (d : db) (rosterId : uuid) : list picked :=
  rp ← filter (fun rp => RosterPlayers.roster_id rp = rosterId) (roster_players d);
  p ← filter (fun p => Players.id p = RosterPlayers.player_id rp) (players d);
  t ← filter (fun t => Teams.abbrev t = Players.team_abbrev p) (teams d);
  [ {| position_ := Players.position_ p; conference_ := Teams.conference_ t;
       is_star := RosterPlayers.is_star rp |} ].

(** The counters of the submit handler: [counts[conference][position]]
    and [starCount]. *)
Record tally := { counts : conference -> position -> Z; starCount : Z }.

Definition tally0 : tally := {| counts := fun _ _ => 0; starCount := 0 |}.

(** The body of [playersResult.rows.forEach]. *)
Definition tally_row (acc : tally) (p : picked) : tally :=
  {| counts := fun c r =>
       if bool_decide (c = conference_ p) && bool_decide (r = position_ p)
       then counts acc c r + 1 else counts acc c r;
     starCount := if is_star p then starCount acc + 1 else starCount acc |}.

Definition isComplete (t : tally) : bool :=
  (counts t western forward =? 3) && (counts t western defense =? 2)
  && (counts t western goalie =? 1)
  && (counts t eastern forward =? 3) && (counts t eastern defense =? 2)
  && (counts t eastern goalie =? 1)
  && (starCount t =? 3).

Inductive submit_outcome :=
| Submitted                 (* 200, 'Roster submitted successfully' *)
| SubmitDeadlineNotSet      (* 400, 'Pick deadline not set for this round' *)
| SubmitLocked              (* 403, 'This round is locked' *)
| NoRoster                  (* 400, 'No roster found for this round' *)
| Incomplete.               (* 400, 'Roster incomplete. Need 3F/2D/1G per
                               conference and 3 star players.' *)

(** [UPDATE rosters SET is_submitted = true, submitted_at = NOW() WHERE id = $1] *)
Definition mark_submitted (rosterId : uuid) (now : timestamp) (d : db) : db :=
  set_rosters (map (fun r =>
    if bool_decide (Rosters_.id r = rosterId)
    then {| Rosters_.id := Rosters_.id r; Rosters_.user_id := Rosters_.user_id r;
            Rosters_.round := Rosters_.round r; Rosters_.is_submitted := true;
            Rosters_.submitted_at := Some now |}
    else r)) d.

(** [POST /:round/submit] *)
Definition submit (d : db) (user : uuid) (now : timestamp) (round : Z)
  : submit_outcome * db :=
  match pick_deadline_of d round with
  | None => (SubmitDeadlineNotSet, d)
  | Some lockDate =>
    if lockDate <? now then (SubmitLocked, d)
    else match roster_of d user round with
    | None => (NoRoster, d)
    | Some r =>
      let rosterId := Rosters_.id r in
      let t := foldl tally_row tally0 (picked_rows d rosterId) in
      if isComplete t then (Submitted, mark_submitted rosterId now d)
      else (Incomplete, d)
    end
  end.

End Rosters.

(** ** src/routes/rosters.js (the version without a transaction): save *)

Module SrcRosters.

Definition SALARY_CAP : Z := 30.

Inductive outcome :=
| Saved                     (* 200, 'Roster saved successfully' *)
| SavedEmpty                (* 200, 'Roster saved (empty)' *)
| InvalidRound              (* 400, 'Invalid round' *)
| DeadlineNotSet            (* 400, 'Round deadline not set' *)
| Locked                    (* 400, 'Round is locked' *)
| AlreadySubmitted          (* 400, 'Roster already submitted' *)
| OverCap                   (* 400, 'Over salary cap' *)
| ServerError.              (* 400 or 500 from the [catch] *)

(** The types met in [p.id = ANY($1::int[])]: that of the column
    [players.id], a [UUID] in schema.sql, and that of the elements of the
    parameter once cast. *)
Inductive sql_type := UUID | INT.

Definition players_id : sql_type := UUID.

(** The database has an operator [=] between two values of one type, and
    none between a [UUID] and an integer. *)
Definition comparable (a b : sql_type) : bool :=
  match a, b with
  | UUID, UUID | INT, INT => true
  | _, _ => false
  end.

(** [SELECT p.id, p.cost, ... FROM players p JOIN teams t ON p.team_abbrev
    = t.abbrev WHERE p.id = ANY($1::int[])]. The statement is refused
    ([None]) when the comparison has no operator, which on schema.sql is the
    case whatever the ids sent and the rows stored. *)
Definition playerData (d : db) (allPlayers : list uuid) : option (list Players.row) :=
  if comparable players_id INT
  then Some (p ← filter (fun p => Players.id p ∈ allPlayers) (players d);
             t ← filter (fun t => Teams.abbrev t = Players.team_abbrev p) (teams d);
             [p])
  else None.

(** The insert loop over [playerData.rows]; a failed insert (a pair
    [(roster_id, player_id)] already there) stops it, and what was
    inserted before stays. *)
Fixpoint insert_rows (rosterId : uuid) (stars : list uuid) (d : db)
    (rows : list Players.row) : db * bool :=
  match rows with
  | [] => (d, true)
  | p :: rest =>
      if bool_decide ((rosterId, Players.id p) ∈
           map (fun rp => (RosterPlayers.roster_id rp, RosterPlayers.player_id rp))
               (roster_players d))
      then (d, false)
      else insert_rows rosterId stars
             (set_roster_players (fun l => l ++ [
                {| RosterPlayers.roster_id := rosterId;
                   RosterPlayers.player_id := Players.id p;
                   RosterPlayers.is_star := bool_decide (Players.id p ∈ stars) |}]) d)
             rest
  end.

(** The upsert of the answers as they come ([tiebreakers.q1],
    [tiebreakers.q2]). *)
Definition save_answers (user : uuid) (round : Z) (tb : option (option Z * option Z)) (d : db) : db :=
  match tb with
  | Some (q1, q2) =>
      set_tiebreakers
        (insert (user, round)
           {| Tiebreakers.question1_answer := q1; Tiebreakers.question2_answer := q2 |}) d
  | None => d
  end.

(** What the handler does once it holds the roster id: collect the
    players, query them, check the cap, insert, save the answers. An error
    of the query goes to the [catch]; reading [stars.forward] in the insert
    loop throws when the request has no [stars]. *)
Definition save_rest (user : uuid) (round : Z) (b : Body.t) (rosterId : uuid) (d1 : db)
  : outcome * db :=
  match Body.selections b with
  | None => (ServerError, d1)
  | Some selections =>
    let allPlayers := collect selections in
    if bool_decide (allPlayers = []) then (SavedEmpty, d1)
    else
      match playerData d1 allPlayers with
      | None => (ServerError, d1)
      | Some rows =>
        if SALARY_CAP <? sum_Z (map Players.cost rows) then (OverCap, d1)
        else
          match rows, Body.stars b with
          | _ :: _, None => (ServerError, d1)
          | _, stars =>
              let '(d2, ok) := insert_rows rosterId (default [] stars) d1 rows in
              if ok then (Saved, save_answers user round (Body.tiebreakers b) d2)
              else (ServerError, d2)
          end
      end
  end.

(** [PUT /:round]. There is no transaction: what a request wrote before it
    was rejected stays written. *)
Definition save (d : db) (user fresh : uuid) (now : timestamp) (round : Z) (b : Body.t)
  : outcome * db :=
  if (round <? 1) || (3 <? round) then (InvalidRound, d)
  else match pick_deadline_of d round with
  | None => (DeadlineNotSet, d)
  | Some lockDate =>
    if lockDate <? now then (Locked, d)
    else
      match roster_of d user round with
      | Some r =>
          if Rosters_.is_submitted r then (AlreadySubmitted, d)
          else
            let rosterId := Rosters_.id r in
            save_rest user round b rosterId (Rosters.clear rosterId d)
      | None =>
          save_rest user round b fresh
            (set_rosters (fun l => l ++ [
               {| Rosters_.id := fresh; Rosters_.user_id := user; Rosters_.round := round;
                  Rosters_.is_submitted := false; Rosters_.submitted_at := None |}]) d)
      end
  end.

End SrcRosters.

(** ** schema.sql: the [leaderboard] view *)

Module Leaderboard.

Record row := {
  user_id : uuid;
  username : string;
  total_points : Z;
  r1_points : Z;
  r2_points : Z;
  r3_points : Z
}.

(** A row of the four [LEFT JOIN]s under one user; a side that found no
    match is [None] (all its columns are NULL). *)
Record joined := {
  r : option Rosters_.row;
  rp : option RosterPlayers.row;
  p : option Players.row;
  ps : option PlayerStats.row
}.

(** The right side of a [LEFT JOIN]: the matches, or one NULL row. *)
Definition left {B : Type} (matches : list B) : list (option B) :=
  match matches with
  | [] => [None]
  | _ => map Some matches
  end.

(** [FROM users u LEFT JOIN rosters r ON u.id = r.user_id AND
    r.is_submitted = true LEFT JOIN roster_players rp ON r.id =
    rp.roster_id LEFT JOIN players p ON rp.player_id = p.id LEFT JOIN
    player_stats ps ON p.id = ps.player_id AND r.round = ps.round], for
    the user [u]. *)
Definition joined_rows (d : db) (u : Users.row) : list joined :=
  r ← left (filter (fun r => Rosters_.user_id r = Users.id u
                             ∧ Rosters_.is_submitted r = true) (rosters d));
  rp ← left (match r with
             | Some r => filter (fun rp => RosterPlayers.roster_id rp = Rosters_.id r)
                                (roster_players d)
             | None => []
             end);
  p ← left (match rp with
            | Some rp => filter (fun p => Players.id p = RosterPlayers.player_id rp)
                                (players d)
            | None => []
            end);
  ps ← left (match p, r with
             | Some p, Some r =>
                 option_list (player_stats d !! (Players.id p, Rosters_.round r))
             | _, _ => []
             end);
  [ {| r := r; rp := rp; p := p; ps := ps |} ].

(** [CASE WHEN rp.is_star THEN 2 ELSE 1 END] *)
Definition star_factor (rp : option RosterPlayers.row) : Z :=
  match rp with
  | Some rp => if RosterPlayers.is_star rp then 2 else 1
  | None => 1
  end.

(** [p.position IN ('forward', 'defense')], true or not *)
Definition is_skater (p : option Players.row) : bool :=
  match p with
  | Some p =>
      match Players.position_ p with
      | forward | defense => true
      | goalie => false
      end
  | None => false
  end.

(** The [CASE] expression summed by the view; [None] is NULL. *)
Definition points (j : joined) : option Z :=
  if is_skater (p j)
  then
    goals ← PlayerStats.goals <$> ps j;
    assists ← PlayerStats.assists <$> ps j;
    Some ((goals + assists) * star_factor (rp j))
  else
    wins ← PlayerStats.wins <$> ps j;
    shutouts ← PlayerStats.shutouts <$> ps j;
    Some ((wins * 2 + shutouts) * star_factor (rp j)).

(** [CASE WHEN ps.round = n THEN ... ELSE 0 END]; the round of a matched
    [ps] is the round of [r], by the join condition. *)
Definition round_points (n : Z) (j : joined) : option Z :=
  match ps j, r j with
  | Some _, Some r => if Rosters_.round r =? n then points j else Some 0
  | _, _ => Some 0
  end.

(** [SUM]: NULLs are skipped, and the sum of no value is NULL. *)
Definition SUM (l : list (option Z)) : option Z :=
  foldr (fun x acc =>
           match x, acc with
           | Some v, Some a => Some (v + a)
           | Some v, None => Some v
           | None, _ => acc
           end) None l.

Definition COALESCE (x : option Z) (d : Z) : Z := default d x.

(** The group of one user. [users.id] is the primary key, so [GROUP BY
    u.id, u.username] makes one group per row of [users]. *)
Definition row_of (d : db) (u : Users.row) : row :=
  let js := joined_rows d u in
  {| user_id := Users.id u;
     username := Users.username u;
     total_points := COALESCE (SUM (map points js)) 0;
     r1_points := COALESCE (SUM (map (round_points 1) js)) 0;
     r2_points := COALESCE (SUM (map (round_points 2) js)) 0;
     r3_points := COALESCE (SUM (map (round_points 3) js)) 0 |}.

(** [ORDER BY total_points DESC], as a stable insertion sort. *)
Fixpoint insert_desc (x : row) (l : list row) : list row :=
  match l with
  | [] => [x]
  | y :: l' =>
      if total_points x <? total_points y then y :: insert_desc x l'
      else x :: l
  end.

Definition order_desc (l : list row) : list row := foldr insert_desc [] l.

(** The view. *)
Definition leaderboard (d : db) : list row :=
  order_desc (map (row_of d) (filter (fun u => Users.is_verified u = true) (users d))).

End Leaderboard.

(** ** The round classifier as the specification words it *)

Module Spec.

Definition decimal_digit (c : ascii) : option Z :=
  let n := Js.code c in
  if (48 <=? n) && (n <=? 57) then Some (n - 48) else None.

(** The embedded round code: the two decimal digits immediately before
    the trailing two characters, when the identifier has them. *)
Definition round_code (s : string) : option Z :=
  let n := String.length s in
  if (n <? 4)%nat then None
  else
    match String.get (n - 4) s, String.get (n - 3) s with
    | Some c1, Some c2 =>
        match decimal_digit c1, decimal_digit c2 with
        | Some a, Some b => Some (10 * a + b)
        | _, _ => None
        end
    | _, _ => None
    end.

(** Codes 11-17 are round 1, 21-27 round 2, 31-47 round 3; anything else
    defaults to round 1. *)
Definition classify (code : option Z) : Z :=
  match code with
  | Some k =>
      if (11 <=? k) && (k <=? 17) then 1
      else if (21 <=? k) && (k <=? 27) then 2
      else if (31 <=? k) && (k <=? 47) then 3
      else 1
  | None => 1
  end.

End Spec.

(** ** Auxiliary definitions for the proofs *)

(** Every character. *)
Definition all_ascii : list ascii := map ascii_of_nat (seq 0 256).

(** What [parseInt] makes of two characters: the two-digit number when both
    are decimal digits, and otherwise NaN or a number of one digit. *)
Definition two_chars_ok (c1 c2 : ascii) : bool :=
  let r := Js.parseInt (String c1 (String c2 "")) in
  match Spec.decimal_digit c1, Spec.decimal_digit c2 with
  | Some a, Some b => bool_decide (r = Some (10 * a + b))
  | _, _ =>
      match r with
      | Some v => (-9 <=? v) && (v <=? 9)
      | None => true
      end
  end.

(** The counters of the submit handler, as plain counts over the rows. *)
Definition count_of (c : conference) (r : position) (rows : list Rosters.picked) : nat :=
  length (filter (fun x => Rosters.conference_ x = c ∧ Rosters.position_ x = r) rows).

Definition stars_of (rows : list Rosters.picked) : nat :=
  length (filter (fun x => Rosters.is_star x = true) rows).

(** The stars of one role. *)
Definition role_stars (r : position) (rows : list Rosters.picked) : nat :=
  length (filter (fun x => Rosters.is_star x = true ∧ Rosters.position_ x = r) rows).

(** A complete line-up: 3 forwards, 2 defensemen and 1 goaltender in each
    conference, and 3 stars in all. *)
Definition composition (rows : list Rosters.picked) : Prop :=
  count_of western forward rows = 3%nat /\ count_of western defense rows = 2%nat
  /\ count_of western goalie rows = 1%nat
  /\ count_of eastern forward rows = 3%nat /\ count_of eastern defense rows = 2%nat
  /\ count_of eastern goalie rows = 1%nat
  /\ stars_of rows = 3%nat.

(** Descending order of total points. *)
Definition desc (a b : Leaderboard.row) : Prop :=
  Leaderboard.total_points b <= Leaderboard.total_points a.

(** The database accepts what a save writes beside the selections: the
    user holds a roster for the round or has a row in [users] (a roster can
    be created), and the answers sent, if any, are those of a user with a
    row and fit their columns. *)
Definition writable (d : db) (user : uuid) (round : Z)
    (tb : option (option Z * option Z)) : Prop :=
  (is_Some (roster_of d user round) \/ user ∈ map Users.id (users d))
  /\ match tb with
     | Some (q1, q2) =>
         user ∈ map Users.id (users d)
         /\ Rosters.fits q1 = true /\ Rosters.fits q2 = true
     | None => True
     end.

(** The five counters of a snapshot, without its timestamp. *)
Definition totals (s : PlayerStats.row) : Z * Z * Z * Z * Z :=
  (PlayerStats.goals s, PlayerStats.assists s, PlayerStats.wins s,
   PlayerStats.shutouts s, PlayerStats.games_played s).

(** The totals object holds the three rounds. *)
Definition has_rounds (stats : gmap Z NhlApi.RoundStats) : Prop :=
  is_Some (stats !! 1) /\ is_Some (stats !! 2) /\ is_Some (stats !! 3).

(** The upserts of a sync run, as a list of writes [(key, row)] applied in
    order. *)
Definition apply_writes {V : Type} (ws : list ((N * Z) * V)) (tbl : gmap (N * Z) V)
  : gmap (N * Z) V :=
  foldl (fun t kv => <[kv.1 := kv.2]> t) tbl ws.

(** The last value a list of writes gives to a key, if it writes it. *)
Fixpoint written {V : Type} (k : N * Z) (ws : list ((N * Z) * V)) : option V :=
  match ws with
  | [] => None
  | kv :: rest =>
      match written k rest with
      | Some v => Some v
      | None => if decide (kv.1 = k) then Some kv.2 else None
      end
  end.

Definition snapshot_of (st : NhlApi.RoundStats) (now : timestamp) : PlayerStats.row :=
  {| PlayerStats.goals := NhlApi.goals st;
     PlayerStats.assists := NhlApi.assists st;
     PlayerStats.wins := NhlApi.wins st;
     PlayerStats.shutouts := NhlApi.shutouts st;
     PlayerStats.games_played := NhlApi.gamesPlayed st;
     PlayerStats.updated_at := now |}.

Fixpoint round_writes (rounds : list Z) (player_id : uuid)
    (stats : gmap Z NhlApi.RoundStats) (now : timestamp)
  : list ((N * Z) * PlayerStats.row) :=
  match rounds with
  | [] => []
  | round :: rest =>
      match stats !! round with
      | Some st =>
          if Sync.storable st
          then ((player_id, round), snapshot_of st now)
               :: round_writes rest player_id stats now
          else []
      | None => []
      end
  end.

Definition player_writes (upstream : Z -> Sync.reply) (now : timestamp)
    (player : Players.row) : list ((N * Z) * PlayerStats.row) :=
  match Sync.getPlayerGameLog upstream (Players.nhl_id player) with
  | Some gameLog =>
      match NhlApi.parseGameLogStats gameLog
              (bool_decide (Players.position_ player = goalie)) with
      | Some stats => round_writes [1; 2; 3] (Players.id player) stats now
      | None => []
      end
  | None => []
  end.

Definition run_writes (upstream : Z -> Sync.reply) (now : timestamp) (d : db)
  : list ((N * Z) * PlayerStats.row) :=
  concat (map (player_writes upstream now)
              (filter (fun p => Players.is_active p = true) (players d))).

Definition strip (kv : (N * Z) * PlayerStats.row) : (N * Z) * (Z * Z * Z * Z * Z) :=
  (kv.1, totals kv.2).

(** ** A small pool used to run the handlers *)

Module Demo.

Definition the_teams : list Teams.row :=
  [ {| Teams.abbrev := "EDM"; Teams.conference_ := western |};
    {| Teams.abbrev := "TOR"; Teams.conference_ := eastern |};
    {| Teams.abbrev := "SJS"; Teams.conference_ := western |} ].

Definition player (i : N) (team : string) (pos : position) (c : Z) : Players.row :=
  {| Players.id := i; Players.nhl_id := 8470000 + Z.of_N i; Players.team_abbrev := team;
     Players.position_ := pos; Players.cost := c; Players.is_active := true |}.

(** Players 1-6 and 7-12 are a full line-up of each conference, costing
    15 each; 13 is a dearer forward, 14 plays for a team that did not
    qualify. *)
Definition the_players : list Players.row :=
  [ player 1 "EDM" forward 3; player 2 "EDM" forward 3; player 3 "EDM" forward 3;
    player 4 "EDM" defense 2; player 5 "EDM" defense 2; player 6 "EDM" goalie 2;
    player 7 "TOR" forward 3; player 8 "TOR" forward 3; player 9 "TOR" forward 3;
    player 10 "TOR" defense 2; player 11 "TOR" defense 2; player 12 "TOR" goalie 2;
    player 13 "TOR" forward 4; player 14 "SJS" forward 1 ].

Definition the_users : list Users.row :=
  [ {| Users.id := 1; Users.username := "alice"; Users.is_verified := true |};
    {| Users.id := 2; Users.username := "bob"; Users.is_verified := true |};
    {| Users.id := 3; Users.username := "carol"; Users.is_verified := false |} ].

Definition pick (stars : list N) (i : N) : RosterPlayers.row :=
  {| RosterPlayers.roster_id := 100; RosterPlayers.player_id := i;
     RosterPlayers.is_star := bool_decide (i ∈ stars) |}.

Definition line_up : list N := [1; 2; 3; 4; 5; 6; 7; 8; 9; 10; 11; 12]%N.

Definition snapshot (g a w s gp : Z) : PlayerStats.row :=
  {| PlayerStats.goals := g; PlayerStats.assists := a; PlayerStats.wins := w;
     PlayerStats.shutouts := s; PlayerStats.games_played := gp;
     PlayerStats.updated_at := 400 |}.

(** The pool: alice holds roster 100 for round 1 (whose deadline is the
    instant 1000) with the full line-up and the given stars; bob holds
    nothing. *)
Definition pool (submitted : bool) (stars : list N) : db :=
  {| users := the_users;
     teams := the_teams;
     players := the_players;
     player_stats :=
       <[(1%N, 1) := snapshot 1 1 0 0 1]> (<[(6%N, 1) := snapshot 0 0 1 1 1]> ∅);
     rosters :=
       [ {| Rosters_.id := 100; Rosters_.user_id := 1; Rosters_.round := 1;
            Rosters_.is_submitted := submitted;
            Rosters_.submitted_at := if submitted then Some 500 else None |} ];
     roster_players := map (pick stars) line_up;
     tiebreakers := ∅;
     settings :=
       <["current_round" := JNumber 2]>
         (<["stats_last_updated" := JNull]> (<["stats_verified" := JBool false]> ∅));
     stat_update_log := [];
     rounds := [ {| Rounds.round_number := 1; Rounds.pick_deadline := Some 1000 |} ];
     team_qualifications :=
       [ {| TeamQualifications.round_number := 1; TeamQualifications.team_abbrev := "EDM";
            TeamQualifications.qualified := true |};
         {| TeamQualifications.round_number := 1; TeamQualifications.team_abbrev := "TOR";
            TeamQualifications.qualified := true |} ] |}.

(** A request body: western and eastern picks, given as forwards,
    defense, goalies. *)
Definition body (wf wd wg ef ed eg stars : list N) : Body.t :=
  {| Body.selections := Some
       {| Selections.western := Some {| Selections.forwards := Some wf;
                                        Selections.defense := Some wd;
                                        Selections.goalies := Some wg |};
          Selections.eastern := Some {| Selections.forwards := Some ef;
                                        Selections.defense := Some ed;
                                        Selections.goalies := Some eg |} |};
     Body.stars := Some stars;
     Body.tiebreakers := None |}.

Definition empty_body : Body.t := body [] [] [] [] [] [] [].

(** The request with no player and the two answers [q1], [q2]. *)
Definition answers (q1 q2 : Z) : Body.t :=
  {| Body.selections := Body.selections empty_body;
     Body.stars := Body.stars empty_body;
     Body.tiebreakers := Some (Some q1, Some q2) |}.

(** A selection of player 1, playing at [pos], starred or not, joined with
    the snapshot [st]. *)
Definition scored (r : option Rosters_.row) (pos : position) (star : bool)
    (st : PlayerStats.row) : Leaderboard.joined :=
  {| Leaderboard.r := r;
     Leaderboard.rp := Some {| RosterPlayers.roster_id := 100;
                               RosterPlayers.player_id := 1;
                               RosterPlayers.is_star := star |};
     Leaderboard.p := Some (player 1 "EDM" pos 3);
     Leaderboard.ps := Some st |}.

(** A goaltender's win with no goal against and no [shutouts] field. *)
Definition shutout_win (id : Z) : Game.t :=
  {| Game.gameId := Js.Num id; Game.decision := Some "W"; Game.shutouts := None;
     Game.goalsAgainst := Some 0; Game.goals := None; Game.assists := None |}.

(** An upstream on which player 1 has played one round-1 game, with a goal
    and an assist, and nobody else has played. *)
Definition one_game : Z -> Sync.reply := fun nhl_id =>
  if nhl_id =? 8470001
  then Sync.Body (Some [ {| Game.gameId := Js.Num 2025031111; Game.decision := None;
                            Game.shutouts := None; Game.goalsAgainst := None;
                            Game.goals := Some 1; Game.assists := Some 1 |} ])
  else Sync.NotFound.

(** An upstream on which nobody has played yet. *)
Definition quiet : Z -> Sync.reply := fun _ => Sync.NotFound.

(** An upstream that reports 3,000,000,000 goals in the one game of player
    1, more than an [INT] column holds. *)
Definition flood : Z -> Sync.reply := fun nhl_id =>
  if nhl_id =? 8470001
  then Sync.Body (Some [ {| Game.gameId := Js.Num 2025031111; Game.decision := None;
                            Game.shutouts := None; Game.goalsAgainst := None;
                            Game.goals := Some 3000000000; Game.assists := Some 1 |} ])
  else Sync.NotFound.

End Demo.

(** ** Definitions for the further properties *)

(** What one game does to the totals of its round. *)
Definition update_round (isGoalie : bool) (st : NhlApi.RoundStats) (g : Game.t)
  : NhlApi.RoundStats :=
  NhlApi.count_game
    (if isGoalie then NhlApi.goalie_update g st else NhlApi.skater_update g st).

(** The games of a log that are classified into the round [r]. *)
Definition games_of (r : Z) (log : list Game.t) : list Game.t :=
  filter (fun g => NhlApi.determineRound (Game.gameId g) = r) log.

(** A win with no goal against. *)
Definition clean_win (g : Game.t) : bool :=
  NhlApi.is_zero (Game.goalsAgainst g) && NhlApi.is_win g.

(** The shutouts the games report themselves. *)
Definition reported_shutouts (log : list Game.t) : Z :=
  sum_Z (map (fun g => NhlApi.or_zero (Game.shutouts g)) log).

(** The wins of a log. *)
Definition won (log : list Game.t) : Z :=
  Z.of_nat (length (filter (fun g => NhlApi.is_win g = true) log)).

(** The goals and the assists of a log, a missing field counting for 0. *)
Definition goals_of (log : list Game.t) : Z :=
  sum_Z (map (fun g => NhlApi.or_zero (Game.goals g)) log).

Definition assists_of (log : list Game.t) : Z :=
  sum_Z (map (fun g => NhlApi.or_zero (Game.assists g)) log).


(** The totals of the rounds [rounds] are there and fit their columns. *)
Definition storable_rounds (stats : gmap Z NhlApi.RoundStats) (rounds : list Z) : bool :=
  forallb (fun r => match stats !! r with
                    | Some st => Sync.storable st
                    | None => false
                    end) rounds.


(** ** services/nhlApi.js: the eliminated teams *)

Module Bracket.

(** [series.bottomSeed] or [series.topSeed], of which the routine reads
    [abbrev]. *)
Record seed := { abbrev : option string }.

(** A series of the upstream bracket, with the fields the routine reads; a
    field the upstream left out is [None]. *)
Record series := {
  winningTeamId : option Z;
  losingTeamId : option Z;
  bottomSeed : option seed;
  topSeed : option seed;
  round : option Z
}.

(** What [axios.get] on the bracket URL does: a body, whose [series] field
    is a list or is missing, or a failure. *)
Inductive reply :=
| Body (series : option (list series))
| Failure.

(** The columns of [teams] the routine reads and writes. *)
Record team := {
  team_abbrev : string;
  is_eliminated : bool;
  eliminated_round : option Z
}.

(** A string that is there and not empty. *)
Definition truthy_string (x : option string) : option string :=
  match x with
  | Some s => if bool_decide (s = "") then None else Some s
  | None => None
  end.

(** [series.winningTeamId && series.losingTeamId] *)
Definition decided (s : series) : bool :=
  NhlApi.truthy (winningTeamId s) && NhlApi.truthy (losingTeamId s).

(** [series.bottomSeed?.abbrev || series.topSeed?.abbrev], as far as it is
    truthy: [None] when the routine finds no team to mark. *)
Definition losingTeam (s : series) : option string :=
  match truthy_string (bottomSeed s ≫= abbrev) with
  | Some a => Some a
  | None => truthy_string (topSeed s ≫= abbrev)
  end.

(** [UPDATE teams SET is_eliminated = true, eliminated_round = $1 WHERE
    abbrev = $2] *)
Definition mark (r : option Z) (a : string) (teams : list team) : list team :=
  map (fun t =>
         if bool_decide (team_abbrev t = a)
         then {| team_abbrev := team_abbrev t; is_eliminated := true;
                 eliminated_round := r |}
         else t) teams.

(** The body of [for (const series of bracket.series)]. *)
Definition step (teams : list team) (s : series) : list team :=
  if decided s
  then match losingTeam s with
       | Some a => mark (round s) a teams
       | None => teams
       end
  else teams.

(** [updateEliminatedTeams()]: a failed request, or a bracket without
    series, changes nothing. *)
Definition updateEliminatedTeams (bracket : reply) (teams : list team) : list team :=
  match bracket with
  | Body (Some l) => foldl step teams l
  | Body None => teams
  | Failure => teams
  end.

End Bracket.

(** The series of a bracket that make the routine mark the team [a]. *)
Definition naming (a : string) (l : list Bracket.series) : list Bracket.series :=
  filter (fun s => Bracket.decided s = true /\ Bracket.losingTeam s = Some a) l.

(** The row a save inserts for a player. *)
Definition selection (rosterId : uuid) (stars : list uuid) (playerId : uuid)
  : RosterPlayers.row :=
  {| RosterPlayers.roster_id := rosterId;
     RosterPlayers.player_id := playerId;
     RosterPlayers.is_star := bool_decide (playerId ∈ stars) |}.

(** The pairs [(roster_id, player_id)] of the selections. *)
Definition selection_keys (l : list RosterPlayers.row) : list (N * N) :=
  map (fun rp => (RosterPlayers.roster_id rp, RosterPlayers.player_id rp)) l.

(** The rows the completeness query finds for the players [ids] of a
    roster, each joined with its player and its team, starred iff its id is
    among [stars]. *)
Definition rows_of (d : db) (stars ids : list uuid) : list Rosters.picked :=
  i ← ids;
  p ← filter (fun p => Players.id p = i) (players d);
  t ← filter (fun t => Teams.abbrev t = Players.team_abbrev p) (teams d);
  [ {| Rosters.position_ := Players.position_ p;
       Rosters.conference_ := Teams.conference_ t;
       Rosters.is_star := bool_decide (i ∈ stars) |} ].

(** ** src/routes/rosters.js (the version without a transaction): submit *)

Module SrcSubmit.

Inductive outcome :=
| Submitted                 (* 200, 'Roster submitted successfully' *)
| InvalidRound              (* 400, 'Invalid round' *)
| DeadlineNotSet            (* 400, 'Round deadline not set' *)
| Locked                    (* 400, 'Round is locked' *)
| NoRoster                  (* 400, 'No roster found' *)
| AlreadySubmitted          (* 400, 'Already submitted' *)
| Incomplete.               (* 400, 'Roster incomplete. Need 3F/2D/1G per
                               conference and 3 star players.' *)

(** [POST /:round/submit]; the completeness query, the counters and the
    final update are those of the other version. *)
Definition submit (d : db) (user : uuid) (now : timestamp) (round : Z) : outcome * db :=
  if (round <? 1) || (3 <? round) then (InvalidRound, d)
  else match pick_deadline_of d round with
  | None => (DeadlineNotSet, d)
  | Some lockDate =>
    if lockDate <? now then (Locked, d)
    else match roster_of d user round with
    | None => (NoRoster, d)
    | Some r =>
      if Rosters_.is_submitted r then (AlreadySubmitted, d)
      else
        let rosterId := Rosters_.id r in
        let t := foldl Rosters.tally_row Rosters.tally0 (Rosters.picked_rows d rosterId) in
        if Rosters.isComplete t then (Submitted, Rosters.mark_submitted rosterId now d)
        else (Incomplete, d)
    end
  end.

End SrcSubmit.

(** ** routes/standings.js: the ranked standings *)

Module Ranking.

(** An entry of [GET /standings]: the columns of the leaderboard row (sent
    as [id], [username], [points], [r1_points], [r2_points], [r3_points] and
    again under [rounds]) and the rank. *)
Record entry := { row : Leaderboard.row; rank : Z }.

(** [SELECT ... FROM leaderboard ORDER BY total_points DESC LIMIT 100] and
    the ranks [i + 1] added by [rows.map]. *)
Definition standings (d : db) : list entry :=
  imap (fun i r => {| row := r; rank := Z.of_nat i + 1 |})
       (take 100 (Leaderboard.order_desc (Leaderboard.leaderboard d))).

End Ranking.

(** ** routes/admin.js: the pick deadline of a round *)

Definition set_rounds (f : list Rounds.row -> list Rounds.row) (d : db) : db :=
  {| users := users d; teams := teams d; players := players d;
     player_stats := player_stats d; rosters := rosters d;
     roster_players := roster_players d; tiebreakers := tiebreakers d;
     settings := settings d; stat_update_log := stat_update_log d;
     rounds := f (rounds d); team_qualifications := team_qualifications d |}.

Module Admin.

Inductive outcome :=
| Updated                   (* 200, 'Pick deadline updated successfully' *)
| InvalidRound              (* 400, 'Invalid round number (must be 0-3)' *)
| Required                  (* 400, 'Pick deadline is required' *)
| NotFound.                 (* 404, 'Round not found' *)

(** [PUT /rounds/:roundNumber/deadline], once the request has passed the
    admin check; [pick_deadline] is the instant the body gives, when it
    gives one. *)
Definition put_deadline (roundNumber : Z) (pick_deadline : option timestamp) (d : db)
  : outcome * db :=
  if (roundNumber <? 0) || (3 <? roundNumber) then (InvalidRound, d)
  else match pick_deadline with
  | None => (Required, d)
  | Some deadline =>
      match filter (fun r => Rounds.round_number r = roundNumber) (rounds d) with
      | [] => (NotFound, d)
      | _ =>
          (Updated,
           set_rounds (map (fun r =>
             if bool_decide (Rounds.round_number r = roundNumber)
             then {| Rounds.round_number := Rounds.round_number r;
                     Rounds.pick_deadline := Some deadline |}
             else r)) d)
      end
  end.

End Admin.

(** ** routes/rosters.js (the transactional version): reading a roster *)

Module View.

(** A row of the players query of [GET /]. *)
Record line := {
  player : uuid;
  position_ : position;
  conference_ : conference;
  is_star : bool
}.

(** [roster_players JOIN players JOIN teams WHERE rp.roster_id = $1]: the
    rows of the join, listed in the order of the selections. The query has
    no [ORDER BY]: the database may return these rows in any order
    ([shows]). *)
Definition lines (d : db) (rosterId : uuid) : list line :=
  rp ← filter (fun rp => RosterPlayers.roster_id rp = rosterId) (roster_players d);
  p ← filter (fun p => Players.id p = RosterPlayers.player_id rp) (players d);
  t ← filter (fun t => Teams.abbrev t = Players.team_abbrev p) (teams d);
  [ {| player := Players.id p; position_ := Players.position_ p;
       conference_ := Teams.conference_ t; is_star := RosterPlayers.is_star rp |} ].

(** [organized] and [stars]: the ids filed by conference and position (the
    keys [forwards], [defense], [goalies] are the three positions), and the
    star of each position. *)
Record organized := {
  selections : conference -> position -> list uuid;
  stars : position -> option uuid
}.

Definition empty : organized :=
  {| selections := fun _ _ => []; stars := fun _ => None |}.

(** The body of [playersResult.rows.forEach]. *)
Definition file (acc : organized) (l : line) : organized :=
  {| selections := fun c r =>
       if bool_decide (c = conference_ l) && bool_decide (r = position_ l)
       then selections acc c r ++ [player l] else selections acc c r;
     stars := fun r =>
       if is_star l && bool_decide (r = position_ l) then Some (player l)
       else stars acc r |}.

(** [rosters[round]] *)
Record roster := {
  id : option uuid;
  isSubmitted : bool;
  submittedAt : option timestamp;
  shown : organized
}.

(** The entry of [GET /] for one round. *)
Definition get (d : db) (user : uuid) (round : Z) : roster :=
  match roster_of d user round with
  | Some r =>
      {| id := Some (Rosters_.id r);
         isSubmitted := Rosters_.is_submitted r;
         submittedAt := Rosters_.submitted_at r;
         shown := foldl file empty (lines d (Rosters_.id r)) |}
  | None =>
      {| id := None; isSubmitted := false; submittedAt := None; shown := empty |}
  end.

(** The entries [GET /] can answer for one round: the one built from the
    rows of the players query in whatever order the database returns
    them. *)
Definition shows (d : db) (user : uuid) (round : Z) (entry : roster) : Prop :=
  match roster_of d user round with
  | Some r =>
      exists rows,
        rows ≡ₚ lines d (Rosters_.id r)
        /\ entry = {| id := Some (Rosters_.id r);
                      isSubmitted := Rosters_.is_submitted r;
                      submittedAt := Rosters_.submitted_at r;
                      shown := foldl file empty rows |}
  | None =>
      entry = {| id := None; isSubmitted := false; submittedAt := None; shown := empty |}
  end.

End View.

(** The ids the request files under a conference and a position. *)
Definition slot_of (s : Selections.t) (c : conference) (r : position) : list uuid :=
  slot (match c with
        | western => Selections.western s
        | eastern => Selections.eastern s
        end)
       (match r with
        | forward => Selections.forwards
        | defense => Selections.defense
        | goalie => Selections.goalies
        end).

(** The position and the conference the database gives for a player id,
    one pair for every player of that id and every team of that player. *)
Definition placement (d : db) (i : uuid) : list (position * conference) :=
  p ← filter (fun p => Players.id p = i) (players d);
  t ← filter (fun t => Teams.abbrev t = Players.team_abbrev p) (teams d);
  [ (Players.position_ p, Teams.conference_ t) ].

(** * Properties *)

(** ** Strings and [parseInt] on a two-character slice *)

Lemma all_ascii_complete (c : ascii) : In c all_ascii.
Proof.
  unfold all_ascii. rewrite <- (ascii_nat_embedding c).
  apply in_map, in_seq. pose proof (nat_ascii_bounded c). lia.
Qed.

Lemma two_chars_checked :
  forallb (fun c1 => forallb (two_chars_ok c1) all_ascii) all_ascii = true.
Proof. vm_compute. reflexivity. Qed.

Lemma parseInt_two_chars (c1 c2 : ascii) : two_chars_ok c1 c2 = true.
Proof.
  pose proof two_chars_checked as H.
  rewrite forallb_forall in H. specialize (H c1 (all_ascii_complete c1)).
  rewrite forallb_forall in H. exact (H c2 (all_ascii_complete c2)).
Qed.

Lemma get_some (s : string) (i : nat) :
  (i < String.length s)%nat -> exists c, String.get i s = Some c.
Proof.
  revert i. induction s as [|a s IH]; intros i Hi; simpl in *; [lia|].
  destruct i as [|i]; [eauto|]. apply IH. lia.
Qed.

Lemma substring_two (s : string) (i : nat) (c1 c2 : ascii) :
  String.get i s = Some c1 -> String.get (S i) s = Some c2 ->
  substring i 2 s = String c1 (String c2 "").
Proof.
  revert i. induction s as [|a s IH]; intros i H1 H2; [discriminate|].
  destruct i as [|i].
  - simpl in H1. injection H1 as ->. simpl in H2.
    destruct s as [|b s]; [discriminate|]. simpl in H2. injection H2 as ->.
    simpl. destruct s; reflexivity.
  - simpl in *. apply IH; assumption.
Qed.

Lemma slice_code (s : string) :
  (4 <= String.length s)%nat ->
  Js.slice s (-4) (-2) = substring (String.length s - 4) 2 s.
Proof.
  intros Hn. unfold Js.slice. cbn [Z.ltb Z.compare].
  f_equal; lia.
Qed.

(** The classifier computes the specification's mapping of the embedded
    code. *)
Lemma determineRound_classify (gameId : Js.value) :
  NhlApi.determineRound gameId = Spec.classify (Spec.round_code (Js.String_ gameId)).
Proof.
  unfold NhlApi.determineRound, Spec.round_code.
  set (s := Js.String_ gameId).
  destruct (Z.ltb_spec (Z.of_nat (String.length s)) 4) as [Hlt|Hge].
  - replace (String.length s <? 4)%nat with true; [reflexivity|].
    symmetry. apply Nat.ltb_lt. lia.
  - replace (String.length s <? 4)%nat with false
      by (symmetry; apply Nat.ltb_ge; lia).
    destruct (get_some s (String.length s - 4)) as [c1 Hc1]; [lia|].
    destruct (get_some s (String.length s - 3)) as [c2 Hc2]; [lia|].
    rewrite slice_code by lia. rewrite Hc1, Hc2.
    rewrite (substring_two s _ c1 c2); [|assumption|].
    2:{ replace (S (String.length s - 4)) with (String.length s - 3)%nat by lia.
        assumption. }
    pose proof (parseInt_two_chars c1 c2) as Hok. unfold two_chars_ok in Hok.
    assert (Hd : forall c a, Spec.decimal_digit c = Some a -> 0 <= a <= 9).
    { intros c a. unfold Spec.decimal_digit.
      destruct (Z.leb_spec 48 (Js.code c)), (Z.leb_spec (Js.code c) 57);
        simpl; intros [= <-]; lia. }
    destruct (Spec.decimal_digit c1) as [a|] eqn:Ha,
             (Spec.decimal_digit c2) as [b|] eqn:Hb.
    + apply bool_decide_eq_true in Hok. rewrite Hok. reflexivity.
    + destruct (Js.parseInt _) as [v|]; [|reflexivity].
      unfold Js.ge, Js.le, Spec.classify.
      repeat match goal with |- context [?x <=? ?y] => destruct (Z.leb_spec x y) end;
        simpl; try reflexivity; lia.
    + destruct (Js.parseInt _) as [v|]; [|reflexivity].
      unfold Js.ge, Js.le, Spec.classify.
      repeat match goal with |- context [?x <=? ?y] => destruct (Z.leb_spec x y) end;
        simpl; try reflexivity; lia.
    + destruct (Js.parseInt _) as [v|]; [|reflexivity].
      unfold Js.ge, Js.le, Spec.classify.
      repeat match goal with |- context [?x <=? ?y] => destruct (Z.leb_spec x y) end;
        simpl; try reflexivity; lia.
Qed.

(** C3. Round classification: an identifier whose embedded two-digit code
    is in 11-17 is of round 1, in 21-27 of round 2, in 31-47 of round 3; a
    code outside these ranges, an identifier with no such code and an
    identifier shorter than 4 characters are of round 1; the classifier
    always answers, with 1, 2 or 3. *)
Theorem determineRound_rounds (gameId : Js.value) :
  (forall k, Spec.round_code (Js.String_ gameId) = Some k ->
     (11 <= k <= 17 -> NhlApi.determineRound gameId = 1) /\
     (21 <= k <= 27 -> NhlApi.determineRound gameId = 2) /\
     (31 <= k <= 47 -> NhlApi.determineRound gameId = 3) /\
     (~ 11 <= k <= 17 -> ~ 21 <= k <= 27 -> ~ 31 <= k <= 47 ->
      NhlApi.determineRound gameId = 1)) /\
  ((String.length (Js.String_ gameId) < 4)%nat -> NhlApi.determineRound gameId = 1) /\
  (Spec.round_code (Js.String_ gameId) = None -> NhlApi.determineRound gameId = 1) /\
  (NhlApi.determineRound gameId = 1 \/ NhlApi.determineRound gameId = 2
   \/ NhlApi.determineRound gameId = 3).
Proof.
  rewrite determineRound_classify.
  split; [|split; [|split]].
  - intros k ->. unfold Spec.classify.
    repeat match goal with |- context [?x <=? ?y] => destruct (Z.leb_spec x y) end;
      simpl; repeat split; intros; try reflexivity; lia.
  - intros Hlen. unfold Spec.round_code.
    replace (String.length (Js.String_ gameId) <? 4)%nat with true; [reflexivity|].
    symmetry. apply Nat.ltb_lt. exact Hlen.
  - intros ->. reflexivity.
  - unfold Spec.classify. destruct (Spec.round_code _) as [k|]; [|auto].
    repeat match goal with |- context [?x <=? ?y] => destruct (Z.leb_spec x y) end;
      simpl; auto.
Qed.

Lemma determineRound_rounds_witness :
  NhlApi.determineRound (Js.Num 2025031402) = 1 /\
  NhlApi.determineRound (Js.Num 2025032403) = 2 /\
  NhlApi.determineRound (Js.Num 2025034101) = 3 /\
  NhlApi.determineRound (Js.Num 2025030111) = 1 /\
  NhlApi.determineRound (Js.Str "411") = 1 /\
  NhlApi.determineRound Js.Undefined = 1.
Proof.
  split; [|split; [|split; [|split; [|split]]]].
  - destruct (proj1 (determineRound_rounds (Js.Num 2025031402)) 14 eq_refl) as (H & _).
    apply H. lia.
  - destruct (proj1 (determineRound_rounds (Js.Num 2025032403)) 24 eq_refl) as (_ & H & _).
    apply H. lia.
  - destruct (proj1 (determineRound_rounds (Js.Num 2025034101)) 41 eq_refl) as (_ & _ & H & _).
    apply H. lia.
  - destruct (proj1 (determineRound_rounds (Js.Num 2025030111)) 1 eq_refl) as (_ & _ & _ & H).
    apply H; lia.
  - apply (proj1 (proj2 (determineRound_rounds (Js.Str "411")))). simpl. lia.
  - apply (proj1 (proj2 (proj2 (determineRound_rounds Js.Undefined)))). reflexivity.
Defined.

(** ** Aggregation *)

(** The shutout total after a goaltender's game: the reported count is
    added, and a win with no goal against then lifts the round's total to at
    least 1. *)
Lemma goalie_update_shutouts (g : Game.t) (st : NhlApi.RoundStats) :
  NhlApi.shutouts (NhlApi.goalie_update g st) =
  let s := NhlApi.shutouts st + NhlApi.or_zero (Game.shutouts g) in
  if NhlApi.is_zero (Game.goalsAgainst g) && NhlApi.is_win g then Z.max s 1 else s.
Proof.
  unfold NhlApi.goalie_update, NhlApi.truthy, NhlApi.or_zero.
  destruct (Game.shutouts g) as [n|]; simpl.
  - destruct (Z.eqb_spec n 0) as [->|Hn]; simpl;
      destruct (NhlApi.is_win g), (NhlApi.is_zero _); simpl;
      rewrite ?Z.add_0_r; reflexivity.
  - destruct (NhlApi.is_win g), (NhlApi.is_zero _); simpl;
      rewrite ?Z.add_0_r; reflexivity.
Qed.

(** An explicit count of 2 adds 2, whatever the goals against. *)
Lemma explicit_shutouts_added (g : Game.t) (st : NhlApi.RoundStats) :
  Game.shutouts g = Some 2 -> 0 <= NhlApi.shutouts st ->
  NhlApi.shutouts (NhlApi.goalie_update g st) = NhlApi.shutouts st + 2.
Proof.
  intros Hs Hst. rewrite goalie_update_shutouts, Hs. simpl.
  destruct (_ && _); lia.
Qed.

(** The first win with no goal against of a round is credited... *)
Lemma first_shutout_win_credited (g : Game.t) (st : NhlApi.RoundStats) :
  Game.shutouts g = None -> Game.goalsAgainst g = Some 0 -> Game.decision g = Some "W" ->
  NhlApi.shutouts st = 0 ->
  NhlApi.shutouts (NhlApi.goalie_update g st) = 1.
Proof.
  intros Hs Hga Hw Hst. rewrite goalie_update_shutouts, Hs, Hga.
  unfold NhlApi.is_win. rewrite Hw, Hst. reflexivity.
Qed.

(** ... and a later one of the same round is not. *)
Lemma later_shutout_win_dropped (g : Game.t) (st : NhlApi.RoundStats) :
  Game.shutouts g = None -> 1 <= NhlApi.shutouts st ->
  NhlApi.shutouts (NhlApi.goalie_update g st) = NhlApi.shutouts st.
Proof.
  intros Hs Hst. rewrite goalie_update_shutouts, Hs. simpl.
  destruct (_ && _); lia.
Qed.

(** C2. Goaltender shutout crediting, run on a log of two round-1 wins with
    no goal against and no [shutouts] field: the round's shutout total is 1,
    where one credit per such game makes 2. *)
Theorem two_shutout_wins_one_credit :
  NhlApi.parseGameLogStats
    (Some [Demo.shutout_win 2025031111; Demo.shutout_win 2025031112]) true
    ≫= (fun stats => stats !! 1)
  = Some {| NhlApi.goals := 0; NhlApi.assists := 0; NhlApi.wins := 2;
            NhlApi.shutouts := 1; NhlApi.gamesPlayed := 2 |}.
Proof. vm_compute. reflexivity. Qed.

(** ** Scoring *)

(** C6. Scoring formula: on a selection with its player and its snapshot, a
    forward or a defenseman scores (goals + assists), a goaltender (wins * 2
    + shutouts), doubled for a star; a skater with 2 goals and 1 assist
    scores 3, or 6 as a star, and a star goaltender with 1 win and 1 shutout
    scores 6. *)
Theorem points_formula :
  (forall (r : option Rosters_.row) (sel : RosterPlayers.row) (pl : Players.row)
          (st : PlayerStats.row),
     Leaderboard.points
       {| Leaderboard.r := r; Leaderboard.rp := Some sel;
          Leaderboard.p := Some pl; Leaderboard.ps := Some st |}
     = Some (match Players.position_ pl with
             | forward | defense => PlayerStats.goals st + PlayerStats.assists st
             | goalie => PlayerStats.wins st * 2 + PlayerStats.shutouts st
             end
             * (if RosterPlayers.is_star sel then 2 else 1))) /\
  (forall (r : option Rosters_.row),
     Leaderboard.points (Demo.scored r forward false (Demo.snapshot 2 1 0 0 1)) = Some 3
     /\ Leaderboard.points (Demo.scored r forward true (Demo.snapshot 2 1 0 0 1)) = Some 6
     /\ Leaderboard.points (Demo.scored r defense false (Demo.snapshot 2 1 0 0 1)) = Some 3
     /\ Leaderboard.points (Demo.scored r defense true (Demo.snapshot 2 1 0 0 1)) = Some 6
     /\ Leaderboard.points (Demo.scored r goalie true (Demo.snapshot 0 0 1 1 1)) = Some 6).
Proof.
  split.
  - intros r sel pl st. unfold Leaderboard.points, Leaderboard.is_skater. simpl.
    destruct (Players.position_ pl); reflexivity.
  - intros r. repeat split.
Qed.

(** ** The save handler *)

Lemma players_get_or_create (d : db) (user : uuid) (round : Z) (fresh : uuid) :
  players (snd (Rosters.get_or_create d user round fresh)) = players d
  /\ roster_players (snd (Rosters.get_or_create d user round fresh)) = roster_players d
  /\ team_qualifications (snd (Rosters.get_or_create d user round fresh))
     = team_qualifications d.
Proof.
  unfold Rosters.get_or_create. destruct (roster_of d user round); auto.
Qed.

Lemma users_get_or_create (d : db) (user : uuid) (round : Z) (fresh : uuid) :
  users (snd (Rosters.get_or_create d user round fresh)) = users d.
Proof.
  unfold Rosters.get_or_create. destruct (roster_of d user round); reflexivity.
Qed.


Lemma filter_none {A : Type} (P : A -> Prop) `{forall x, Decision (P x)} (l : list A) :
  (forall x, ~ P x) -> filter P l = [].
Proof.
  intros HP. induction l as [|x l IH]; [reflexivity|].
  rewrite filter_cons_False by apply HP. exact IH.
Qed.

Lemma total_cost_nil (d : db) : Rosters.total_cost d [] = 0.
Proof.
  unfold Rosters.total_cost. rewrite filter_none; [reflexivity|].
  intros x Hx. apply elem_of_nil in Hx. exact Hx.
Qed.

(** With no player selected, neither check is made. *)
Lemma validate_nil (d : db) (round : Z) : Rosters.validate d [] round = None.
Proof. reflexivity. Qed.

(** What the handler does once the round is valid and not locked. *)
Lemma save_open (d : db) (user fresh : uuid) (now : timestamp) (round : Z) (b : Body.t)
    (dl : timestamp) :
  1 <= round <= 3 -> pick_deadline_of d round = Some dl -> now <= dl ->
  Rosters.save d user fresh now round b =
  let rid := fst (Rosters.get_or_create d user round fresh) in
  let d2 := Rosters.clear rid (snd (Rosters.get_or_create d user round fresh)) in
  match Body.selections b with
  | None => (Rosters.ServerError, d)
  | Some sel =>
      match Rosters.validate d2 (collect sel) round with
      | Some rejection => (rejection, d)
      | None =>
          match Rosters.insert_players rid (default [] (Body.stars b)) d2 (collect sel) with
          | None => (Rosters.ServerError, d)
          | Some d3 => (Rosters.Saved rid, save_tiebreakers user round (Body.tiebreakers b) d3)
          end
      end
  end.
Proof.
  intros Hr Hdl Hnow. unfold Rosters.save.
  replace ((round <? 1) || (3 <? round)) with false by lia.
  rewrite Hdl. replace (dl <? now) with false by lia.
  destruct (Rosters.get_or_create d user round fresh) as [rid d1]. reflexivity.
Qed.

Lemma roster_players_save_tiebreakers (user : uuid) (round : Z)
    (tb : option (option Z * option Z)) (d : db) :
  roster_players (save_tiebreakers user round tb d) = roster_players d.
Proof. destruct tb as [[q1 q2]|]; reflexivity. Qed.

(** A save with no player, on a valid round that is not locked: it is
    accepted, and the selections of the roster are deleted, the others
    kept. *)
Lemma save_empty (d : db) (user fresh : uuid) (now : timestamp) (round : Z) (b : Body.t)
    (sel : Selections.t) (dl : timestamp) :
  1 <= round <= 3 -> pick_deadline_of d round = Some dl -> now <= dl ->
  Body.selections b = Some sel -> collect sel = [] ->
  let rid := fst (Rosters.get_or_create d user round fresh) in
  exists d',
    Rosters.save d user fresh now round b = (Rosters.Saved rid, d')
    /\ roster_players d'
       = filter (fun rp => RosterPlayers.roster_id rp ≠ rid) (roster_players d).
Proof.
  intros Hr Hdl Hnow Hsel Hnil rid.
  rewrite (save_open d user fresh now round b dl Hr Hdl Hnow).
  rewrite Hsel, Hnil. cbn zeta. rewrite validate_nil. cbn [Rosters.insert_players].
  eexists. split; [reflexivity|].
  rewrite roster_players_save_tiebreakers. unfold Rosters.clear. cbn [roster_players set_roster_players].
  destruct (players_get_or_create d user round fresh) as (_ & -> & _). reflexivity.
Qed.

Lemma users_insert_players (rid : uuid) (stars ids : list uuid) (d d' : db) :
  Rosters.insert_players rid stars d ids = Some d' -> users d' = users d.
Proof.
  revert d. induction ids as [|i ids IH]; intros d H.
  - cbn in H. injection H as <-. reflexivity.
  - cbn [Rosters.insert_players] in H. unfold Rosters.insert_player in H.
    destruct (_ && _); [|discriminate]. cbn [mbind option_bind] in H.
    apply IH in H. rewrite H. reflexivity.
Qed.

(** The handler with the errors of the database, from the handler without
    them: a refused roster insert ends the request, a refused tiebreaker
    upsert turns an accepted save into an error, and nothing else
    differs. *)
Lemma put_save (d : db) (user fresh : uuid) (now : timestamp) (round : Z) (b : Body.t)
    (dl : timestamp) :
  1 <= round <= 3 -> pick_deadline_of d round = Some dl -> now <= dl ->
  Rosters.put d user fresh now round b =
  match Rosters.find_or_insert d user round fresh with
  | None => (Rosters.ServerError, d)
  | Some _ =>
      match Rosters.save d user fresh now round b with
      | (Rosters.Saved rid, d') =>
          match Rosters.upsert_tiebreakers user round (Body.tiebreakers b) d with
          | Some _ => (Rosters.Saved rid, d')
          | None => (Rosters.ServerError, d)
          end
      | other => other
      end
  end.
Proof.
  intros Hr Hdl Hnow. unfold Rosters.put, Rosters.save.
  replace ((round <? 1) || (3 <? round)) with false by lia.
  rewrite Hdl. replace (dl <? now) with false by lia.
  assert (Hfind : Rosters.find_or_insert d user round fresh = None
                  \/ Rosters.find_or_insert d user round fresh
                     = Some (Rosters.get_or_create d user round fresh)).
  { unfold Rosters.find_or_insert, Rosters.get_or_create.
    destruct (roster_of d user round); [right; reflexivity|].
    destruct (Rosters.known d user); [right|left]; reflexivity. }
  destruct Hfind as [->| ->]; [reflexivity|].
  pose proof (users_get_or_create d user round fresh) as Hu.
  destruct (Rosters.get_or_create d user round fresh) as [rid d1]. cbn [snd] in Hu.
  destruct (Body.selections b) as [sel|]; [|reflexivity].
  assert (Hv : forall d0 ids,
             Rosters.validate d0 ids round = Some Rosters.OverCap
             \/ Rosters.validate d0 ids round = Some Rosters.NotQualified
             \/ Rosters.validate d0 ids round = None).
  { intros d0 ids. unfold Rosters.validate.
    destruct (bool_decide _); [|auto].
    destruct (_ <? _); [auto|]. destruct (_ <? _); auto. }
  destruct (Hv (Rosters.clear rid d1) (collect sel)) as [->|[->| ->]];
    [reflexivity|reflexivity|].
  destruct (Rosters.insert_players _ _ _ _) as [d3|] eqn:Hins; [|reflexivity].
  apply users_insert_players in Hins.
  unfold Rosters.upsert_tiebreakers, Rosters.known.
  rewrite Hins. unfold Rosters.clear. cbn [users set_roster_players]. rewrite Hu.
  destruct (Body.tiebreakers b) as [[q1 q2]|]; [|reflexivity].
  destruct (_ && _ && _); reflexivity.
Qed.

(** What the database has to accept, in the terms of the request. *)
Lemma writable_accepted (d : db) (user fresh : uuid) (round : Z)
    (tb : option (option Z * option Z)) :
  writable d user round tb
  <-> is_Some (Rosters.find_or_insert d user round fresh)
      /\ is_Some (Rosters.upsert_tiebreakers user round tb d).
Proof.
  unfold writable, Rosters.find_or_insert, Rosters.upsert_tiebreakers, Rosters.known.
  destruct (decide (user ∈ map Users.id (users d))) as [Hk|Hk];
    [rewrite !(bool_decide_eq_true_2 _ Hk)|rewrite !(bool_decide_eq_false_2 _ Hk)].
  - destruct (roster_of d user round), tb as [[q1 q2]|]; cbn [andb];
      try destruct (Rosters.fits q1); try destruct (Rosters.fits q2); cbn [andb];
      split; intros H; repeat split; auto;
      try (eexists; reflexivity);
      try (destruct H as (_ & _ & H1 & H2); discriminate);
      try (destruct H as (_ & [x Hx]); discriminate).
  - destruct (roster_of d user round), tb as [[q1 q2]|]; cbn [andb];
      split; intros H; repeat split; auto;
      try (eexists; reflexivity);
      try (destruct H as (_ & H1 & _); contradiction);
      try (destruct H as (_ & [x Hx]); discriminate);
      try (destruct H as ([[x Hx]|H1] & _); [discriminate|contradiction]);
      try (destruct H as ([x Hx] & _); discriminate).
Qed.

(** Where the database accepts the roster and the answers, the handler
    answers as its decisions say. *)
Lemma put_writable (d : db) (user fresh : uuid) (now : timestamp) (round : Z) (b : Body.t) :
  writable d user round (Body.tiebreakers b) ->
  Rosters.put d user fresh now round b = Rosters.save d user fresh now round b.
Proof.
  intros Hw. apply (writable_accepted d user fresh) in Hw as [[x Hx] [y Hy]].
  destruct (Z.ltb_spec round 1) as [Hlo|Hlo];
    [unfold Rosters.put, Rosters.save;
     replace (round <? 1) with true by lia; reflexivity|].
  destruct (Z.ltb_spec 3 round) as [Hhi|Hhi];
    [unfold Rosters.put, Rosters.save;
     replace (3 <? round) with true by lia; rewrite orb_true_r; reflexivity|].
  destruct (pick_deadline_of d round) as [dl|] eqn:Hdl;
    [|unfold Rosters.put, Rosters.save; rewrite Hdl;
      destruct (_ || _); reflexivity].
  destruct (Z.ltb_spec dl now) as [Hlk|Hlk];
    [unfold Rosters.put, Rosters.save; rewrite Hdl;
     replace (dl <? now) with true by lia; destruct (_ || _); reflexivity|].
  rewrite (put_save d user fresh now round b dl ltac:(lia) Hdl Hlk), Hx, Hy.
  destruct (Rosters.save d user fresh now round b) as [[] d']; reflexivity.
Qed.

(** An accepted request of the handler with the errors is one its decisions
    accept, with the same result; a request it does not accept leaves the
    database as it was. *)
Lemma put_saved (d d' : db) (user fresh : uuid) (now : timestamp) (round : Z) (b : Body.t)
    (rid : uuid) :
  Rosters.put d user fresh now round b = (Rosters.Saved rid, d') ->
  Rosters.save d user fresh now round b = (Rosters.Saved rid, d')
  /\ writable d user round (Body.tiebreakers b).
Proof.
  intros Hput.
  assert (Hopen : 1 <= round <= 3
                  /\ exists dl, pick_deadline_of d round = Some dl /\ now <= dl).
  { unfold Rosters.put in Hput.
    destruct (Z.ltb_spec round 1); [discriminate|].
    destruct (Z.ltb_spec 3 round); [discriminate|]. cbn [orb] in Hput.
    destruct (pick_deadline_of d round) as [dl|]; [|discriminate].
    destruct (Z.ltb_spec dl now); [discriminate|].
    split; [lia|]. exists dl. split; [reflexivity|lia]. }
  destruct Hopen as (Hr & dl & Hdl & Hnow).
  rewrite (put_save d user fresh now round b dl Hr Hdl Hnow) in Hput.
  destruct (Rosters.find_or_insert d user round fresh) as [x|] eqn:Hx; [|discriminate].
  destruct (Rosters.save d user fresh now round b) as [[] d0]; try discriminate.
  destruct (Rosters.upsert_tiebreakers _ _ _ _) as [y|] eqn:Hy; [|discriminate].
  injection Hput as <- <-. split; [reflexivity|].
  apply (writable_accepted d user fresh). rewrite Hx, Hy.
  split; eexists; reflexivity.
Qed.

(** With the errors of the database as well, a request that is not
    accepted leaves the database as it found it. *)
Lemma put_rolls_back (d : db) (user fresh : uuid) (now : timestamp) (round : Z)
    (b : Body.t) :
  (forall rid, fst (Rosters.put d user fresh now round b) <> Rosters.Saved rid) ->
  snd (Rosters.put d user fresh now round b) = d.
Proof.
  unfold Rosters.put.
  destruct ((round <? 1) || (3 <? round)); [reflexivity|].
  destruct (pick_deadline_of d round) as [dl|]; [|reflexivity].
  destruct (dl <? now); [reflexivity|].
  destruct (Rosters.find_or_insert d user round fresh) as [[rid d1]|]; [|reflexivity].
  destruct (Body.selections b) as [sel|]; [|reflexivity].
  destruct (Rosters.validate _ _ _); [reflexivity|].
  destruct (Rosters.insert_players _ _ _ _); [|reflexivity].
  destruct (Rosters.upsert_tiebreakers _ _ _ _); [|reflexivity].
  intros Hno. exfalso. exact (Hno rid eq_refl).
Qed.

(** C10 as the specification states it fails: on an open round, a save
    with no player whose second answer is 3,000,000,000 is not accepted: the
    tiebreaker upsert is refused (the answer does not fit its [INT] column),
    the handler answers 500 and nothing is changed. *)
Lemma save_empty_answer_out_of_range :
  let d := Demo.pool false [1; 4; 6]%N in
  let b := Demo.answers 5 3000000000 in
  pick_deadline_of d 1 = Some 1000
  /\ (exists sel, Body.selections b = Some sel /\ collect sel = [])
  /\ Rosters.put d 1%N 999%N 900 1 b = (Rosters.ServerError, d).
Proof.
  cbv zeta. split; [reflexivity|]. split; [eexists; split; reflexivity|].
  vm_compute. reflexivity.
Qed.

(** C10, amended. A save with an empty selection set, on a valid round that
    is not locked, makes neither the cap check nor the qualification check
    and is never rejected on these grounds. It is accepted, deleting every
    selection saved before for the roster and keeping those of the other
    rosters, exactly when the database accepts what the request writes
    beside the selections: the roster (the user holds one for the round or
    has a row in [users]) and the answers sent, if any (a user with a row,
    answers that fit their columns). Otherwise the handler answers 500 and
    nothing is changed. *)
Theorem save_empty_accepted (d : db) (user fresh : uuid) (now : timestamp) (round : Z)
    (b : Body.t) (sel : Selections.t) (dl : timestamp) :
  1 <= round <= 3 -> pick_deadline_of d round = Some dl -> now <= dl ->
  Body.selections b = Some sel -> collect sel = [] ->
  (forall d0, Rosters.validate d0 (collect sel) round = None)
  /\ fst (Rosters.put d user fresh now round b) <> Rosters.OverCap
  /\ fst (Rosters.put d user fresh now round b) <> Rosters.NotQualified
  /\ (writable d user round (Body.tiebreakers b) ->
      exists rid d',
        Rosters.put d user fresh now round b = (Rosters.Saved rid, d')
        /\ (forall r, roster_of d user round = Some r -> rid = Rosters_.id r)
        /\ (forall rp, rp ∈ roster_players d' -> RosterPlayers.roster_id rp ≠ rid)
        /\ (forall rp, RosterPlayers.roster_id rp ≠ rid ->
              rp ∈ roster_players d' <-> rp ∈ roster_players d))
  /\ (~ writable d user round (Body.tiebreakers b) ->
      Rosters.put d user fresh now round b = (Rosters.ServerError, d)).
Proof.
  intros Hr Hdl Hnow Hsel Hnil.
  destruct (save_empty d user fresh now round b sel dl Hr Hdl Hnow Hsel Hnil)
    as (d' & Hsave & Hrp).
  pose proof (put_save d user fresh now round b dl Hr Hdl Hnow) as Hput.
  rewrite Hsave in Hput.
  pose proof (writable_accepted d user fresh round (Body.tiebreakers b)) as Hw.
  split; [intros d0; rewrite Hnil; apply validate_nil|].
  split; [|split; [|split]].
  - rewrite Hput. destruct (Rosters.find_or_insert _ _ _ _); [|discriminate].
    destruct (Rosters.upsert_tiebreakers _ _ _ _); discriminate.
  - rewrite Hput. destruct (Rosters.find_or_insert _ _ _ _); [|discriminate].
    destruct (Rosters.upsert_tiebreakers _ _ _ _); discriminate.
  - intros Hok. apply Hw in Hok as [[x Hx] [y Hy]]. rewrite Hx, Hy in Hput.
    exists (fst (Rosters.get_or_create d user round fresh)), d'.
    split; [exact Hput|]. split; [|split].
    + intros r Hro. unfold Rosters.get_or_create. rewrite Hro. reflexivity.
    + intros rp. rewrite Hrp, list_elem_of_filter. tauto.
    + intros rp Hne. rewrite Hrp, list_elem_of_filter. tauto.
  - intros Hno. rewrite Hput.
    destruct (Rosters.find_or_insert _ _ _ _) as [x|] eqn:Hx; [|reflexivity].
    destruct (Rosters.upsert_tiebreakers _ _ _ _) as [y|] eqn:Hy; [|reflexivity].
    exfalso. apply Hno, Hw. split; eexists; reflexivity.
Qed.

Lemma save_empty_accepted_witness :
  (exists rid d',
     Rosters.put (Demo.pool false [1; 4; 6]%N) 1%N 999%N 900 1 (Demo.answers 5 0)
     = (Rosters.Saved rid, d')
     /\ (forall rp, rp ∈ roster_players d' -> RosterPlayers.roster_id rp ≠ rid))
  /\ Rosters.put (Demo.pool false [1; 4; 6]%N) 4%N 999%N 900 1 Demo.empty_body
     = (Rosters.ServerError, Demo.pool false [1; 4; 6]%N).
Proof.
  split.
  - destruct (save_empty_accepted (Demo.pool false [1; 4; 6]%N) 1%N 999%N 900 1
                (Demo.answers 5 0)
                {| Selections.western := Some {| Selections.forwards := Some [];
                                                 Selections.defense := Some [];
                                                 Selections.goalies := Some [] |};
                   Selections.eastern := Some {| Selections.forwards := Some [];
                                                 Selections.defense := Some [];
                                                 Selections.goalies := Some [] |} |}
                1000 ltac:(lia) eq_refl ltac:(lia) eq_refl eq_refl)
      as (_ & _ & _ & Hyes & _).
    destruct Hyes as (rid & d' & H1 & _ & H3 & _).
    + split; [left; eexists; reflexivity|].
      split; [|split; reflexivity].
      apply (bool_decide_unpack _). vm_compute. exact I.
    + exists rid, d'. split; assumption.
  - apply (save_empty_accepted (Demo.pool false [1; 4; 6]%N) 4%N 999%N 900 1
             Demo.empty_body
             {| Selections.western := Some {| Selections.forwards := Some [];
                                              Selections.defense := Some [];
                                              Selections.goalies := Some [] |};
                Selections.eastern := Some {| Selections.forwards := Some [];
                                              Selections.defense := Some [];
                                              Selections.goalies := Some [] |} |}
             1000 ltac:(lia) eq_refl ltac:(lia) eq_refl eq_refl).
    intros [[[x Hx]|Hin] _]; [discriminate|].
    apply list_elem_of_In in Hin. simpl in Hin.
    destruct Hin as [H|[H|[H|[]]]]; discriminate H.
Defined.

(** C1. A submitted roster is not immutable under this handler: on a valid
    round that is not locked, a save with no player for a user whose roster
    is submitted is accepted and deletes the selections of that roster. *)
Theorem save_overwrites_submitted (d : db) (user fresh : uuid) (now : timestamp)
    (round : Z) (b : Body.t) (sel : Selections.t) (dl : timestamp) (r : Rosters_.row) :
  1 <= round <= 3 -> pick_deadline_of d round = Some dl -> now <= dl ->
  roster_of d user round = Some r -> Rosters_.is_submitted r = true ->
  Body.selections b = Some sel -> collect sel = [] ->
  exists d',
    Rosters.save d user fresh now round b = (Rosters.Saved (Rosters_.id r), d')
    /\ roster_players d'
       = filter (fun rp => RosterPlayers.roster_id rp ≠ Rosters_.id r) (roster_players d).
Proof.
  intros Hr Hdl Hnow Hro _ Hsel Hnil.
  destruct (save_empty d user fresh now round b sel dl Hr Hdl Hnow Hsel Hnil)
    as (d' & Hsave & Hrp).
  unfold Rosters.get_or_create in Hsave, Hrp. rewrite Hro in Hsave, Hrp.
  exists d'. split; assumption.
Qed.

Lemma save_overwrites_submitted_witness :
  exists d',
    Rosters.save (Demo.pool true [1; 4; 6]%N) 1%N 999%N 900 1 Demo.empty_body
    = (Rosters.Saved 100%N, d')
    /\ roster_players d' = []
    /\ length (roster_players (Demo.pool true [1; 4; 6]%N)) = 12%nat.
Proof.
  destruct (save_overwrites_submitted (Demo.pool true [1; 4; 6]%N) 1%N 999%N 900 1
              Demo.empty_body
              {| Selections.western := Some {| Selections.forwards := Some [];
                                               Selections.defense := Some [];
                                               Selections.goalies := Some [] |};
                 Selections.eastern := Some {| Selections.forwards := Some [];
                                               Selections.defense := Some [];
                                               Selections.goalies := Some [] |} |}
              1000
              {| Rosters_.id := 100; Rosters_.user_id := 1; Rosters_.round := 1;
                 Rosters_.is_submitted := true; Rosters_.submitted_at := Some 500 |})
    as (d' & H1 & H2).
  - lia.
  - reflexivity.
  - lia.
  - reflexivity.
  - reflexivity.
  - reflexivity.
  - reflexivity.
  - exists d'. split; [exact H1|]. split; [|reflexivity].
    rewrite H2. reflexivity.
Defined.

(** The other version of the handler does refuse: a save for a submitted
    roster is rejected before anything is written. *)
Lemma src_save_refuses_submitted (d : db) (user fresh : uuid) (now : timestamp)
    (round : Z) (b : Body.t) (dl : timestamp) (r : Rosters_.row) :
  1 <= round <= 3 -> pick_deadline_of d round = Some dl -> now <= dl ->
  roster_of d user round = Some r -> Rosters_.is_submitted r = true ->
  SrcRosters.save d user fresh now round b = (SrcRosters.AlreadySubmitted, d).
Proof.
  intros Hr Hdl Hnow Hro Hsub. unfold SrcRosters.save.
  replace ((round <? 1) || (3 <? round)) with false by lia.
  rewrite Hdl. replace (dl <? now) with false by lia.
  rewrite Hro, Hsub. reflexivity.
Qed.






(** ** The submit handler *)

Lemma tally_counts (rows : list Rosters.picked) (acc : Rosters.tally)
    (c : conference) (r : position) :
  Rosters.counts (foldl Rosters.tally_row acc rows) c r
  = Rosters.counts acc c r + Z.of_nat (count_of c r rows).
Proof.
  revert acc. induction rows as [|x rows IH]; intros acc.
  - simpl. unfold count_of. simpl. lia.
  - cbn [foldl]. rewrite IH. unfold count_of. rewrite filter_cons.
    cbn [Rosters.tally_row Rosters.counts].
    destruct (decide (Rosters.conference_ x = c ∧ Rosters.position_ x = r)) as [[<- <-]|Hn].
    + rewrite !bool_decide_eq_true_2 by reflexivity. cbn [andb length]. lia.
    + replace (bool_decide (c = Rosters.conference_ x)
               && bool_decide (r = Rosters.position_ x)) with false; [reflexivity|].
      symmetry. apply andb_false_iff.
      destruct (decide (c = Rosters.conference_ x)) as [->|Hc].
      * right. apply bool_decide_eq_false_2. intros ->. apply Hn. split; reflexivity.
      * left. apply bool_decide_eq_false_2. exact Hc.
Qed.

Lemma tally_stars (rows : list Rosters.picked) (acc : Rosters.tally) :
  Rosters.starCount (foldl Rosters.tally_row acc rows)
  = Rosters.starCount acc + Z.of_nat (stars_of rows).
Proof.
  revert acc. induction rows as [|x rows IH]; intros acc.
  - simpl. unfold stars_of. simpl. lia.
  - cbn [foldl]. rewrite IH. unfold stars_of. rewrite filter_cons.
    cbn [Rosters.tally_row Rosters.starCount].
    destruct (Rosters.is_star x); simpl.
    + destruct (decide (true = true)); [|congruence]. cbn [length]. lia.
    + destruct (decide (false = true)); [discriminate|]. lia.
Qed.

(** The handler's completeness test is the composition of the rows. *)
Lemma isComplete_composition (rows : list Rosters.picked) :
  Rosters.isComplete (foldl Rosters.tally_row Rosters.tally0 rows) = true
  <-> composition rows.
Proof.
  unfold Rosters.isComplete, composition.
  rewrite !tally_counts, tally_stars. cbn [Rosters.tally0 Rosters.counts Rosters.starCount].
  rewrite !andb_true_iff, !Z.eqb_eq. lia.
Qed.

(** Every row is counted by exactly one of the six counters. *)
Lemma rows_partition (rows : list Rosters.picked) :
  length rows
  = (count_of western forward rows + count_of western defense rows
     + count_of western goalie rows + count_of eastern forward rows
     + count_of eastern defense rows + count_of eastern goalie rows)%nat.
Proof.
  induction rows as [|x rows IH]; [reflexivity|].
  unfold count_of in *. rewrite !filter_cons. cbn [length]. rewrite IH.
  destruct x as [[] [] s]; cbn [Rosters.conference_ Rosters.position_];
    repeat match goal with
           | |- context [decide ?P] => destruct (decide P) as [[? ?]|?]
           end; try discriminate; try (exfalso; tauto); cbn [length]; lia.
Qed.

(** C4 as the specification states it fails: a roster with the full
    line-up whose three stars are all forwards, and so with no star among
    its defensemen and goaltenders, is accepted by the submit handler. *)
Lemma submit_three_forward_stars :
  fst (Rosters.submit (Demo.pool false [1; 2; 3]%N) 1%N 900 1) = Rosters.Submitted
  /\ role_stars forward (Rosters.picked_rows (Demo.pool false [1; 2; 3]%N) 100%N) = 3%nat
  /\ role_stars defense (Rosters.picked_rows (Demo.pool false [1; 2; 3]%N) 100%N) = 0%nat
  /\ role_stars goalie (Rosters.picked_rows (Demo.pool false [1; 2; 3]%N) 100%N) = 0%nat.
Proof. vm_compute. repeat split; reflexivity. Qed.

(** C4, amended. Roster submission composition: a submit is accepted only
    for a roster whose selections are exactly 3 forwards, 2 defensemen and 1
    goaltender per conference (12 players in all) with exactly 3 of them
    marked as stars, whatever their roles; on a round that is not locked, a
    roster of any other composition is rejected as incomplete and left as it
    was. *)
Theorem submit_composition (d : db) (user : uuid) (now : timestamp) (round : Z) :
  (fst (Rosters.submit d user now round) = Rosters.Submitted ->
   exists r, roster_of d user round = Some r
             /\ composition (Rosters.picked_rows d (Rosters_.id r))
             /\ length (Rosters.picked_rows d (Rosters_.id r)) = 12%nat)
  /\ (forall dl r,
        pick_deadline_of d round = Some dl -> now <= dl ->
        roster_of d user round = Some r ->
        (composition (Rosters.picked_rows d (Rosters_.id r)) ->
         Rosters.submit d user now round
         = (Rosters.Submitted, Rosters.mark_submitted (Rosters_.id r) now d))
        /\ (~ composition (Rosters.picked_rows d (Rosters_.id r)) ->
            Rosters.submit d user now round = (Rosters.Incomplete, d))).
Proof.
  split.
  - unfold Rosters.submit.
    destruct (pick_deadline_of d round) as [dl|]; [|discriminate].
    destruct (dl <? now); [discriminate|].
    destruct (roster_of d user round) as [r|]; [|discriminate].
    destruct (Rosters.isComplete _) eqn:Hc; [|discriminate].
    intros _. exists r. apply isComplete_composition in Hc.
    split; [reflexivity|]. split; [exact Hc|].
    rewrite rows_partition. unfold composition in Hc. lia.
  - intros dl r Hdl Hnow Hro. unfold Rosters.submit.
    rewrite Hdl, Hro. replace (dl <? now) with false by lia.
    split; intros Hc.
    + apply isComplete_composition in Hc. rewrite Hc. reflexivity.
    + destruct (Rosters.isComplete _) eqn:Hi; [|reflexivity].
      apply isComplete_composition in Hi. contradiction.
Qed.

Lemma submit_composition_witness :
  (exists r, roster_of (Demo.pool false [1; 4; 6]%N) 1%N 1 = Some r
             /\ length (Rosters.picked_rows (Demo.pool false [1; 4; 6]%N) (Rosters_.id r))
                = 12%nat)
  /\ Rosters.submit (Demo.pool false [1; 4; 6]%N) 1%N 900 1
     = (Rosters.Submitted, Rosters.mark_submitted 100%N 900 (Demo.pool false [1; 4; 6]%N))
  /\ Rosters.submit (Demo.pool false [1; 4]%N) 1%N 900 1
     = (Rosters.Incomplete, Demo.pool false [1; 4]%N).
Proof.
  split; [|split].
  - destruct (proj1 (submit_composition (Demo.pool false [1; 4; 6]%N) 1%N 900 1))
      as (r & Hr & _ & Hlen).
    + vm_compute. reflexivity.
    + exists r. split; assumption.
  - refine (proj1 (proj2 (submit_composition (Demo.pool false [1; 4; 6]%N) 1%N 900 1)
                     1000
                     {| Rosters_.id := 100; Rosters_.user_id := 1; Rosters_.round := 1;
                        Rosters_.is_submitted := false; Rosters_.submitted_at := None |}
                     eq_refl _ eq_refl) _).
    + lia.
    + unfold composition. vm_compute. repeat split; reflexivity.
  - refine (proj2 (proj2 (submit_composition (Demo.pool false [1; 4]%N) 1%N 900 1)
                     1000
                     {| Rosters_.id := 100; Rosters_.user_id := 1; Rosters_.round := 1;
                        Rosters_.is_submitted := false; Rosters_.submitted_at := None |}
                     eq_refl _ eq_refl) _).
    + lia.
    + unfold composition. vm_compute. intros (_ & _ & _ & _ & _ & _ & H). discriminate H.
Defined.

(** ** The leaderboard *)

Lemma insert_desc_perm (x : Leaderboard.row) (l : list Leaderboard.row) :
  Permutation (x :: l) (Leaderboard.insert_desc x l).
Proof.
  induction l as [|y l IH]; simpl; [reflexivity|].
  destruct (_ <? _); [|reflexivity].
  rewrite perm_swap. apply perm_skip. exact IH.
Qed.

Lemma order_desc_perm (l : list Leaderboard.row) :
  Permutation l (Leaderboard.order_desc l).
Proof.
  induction l as [|x l IH]; simpl; [reflexivity|].
  rewrite <- insert_desc_perm. apply perm_skip. exact IH.
Qed.

Lemma insert_desc_hd (x y : Leaderboard.row) (l : list Leaderboard.row) :
  desc y x -> HdRel desc y l -> HdRel desc y (Leaderboard.insert_desc x l).
Proof.
  intros Hyx Hl. destruct l as [|z l]; simpl.
  - constructor. exact Hyx.
  - destruct (_ <? _); constructor.
    + inversion Hl; assumption.
    + exact Hyx.
Qed.

Lemma insert_desc_sorted (x : Leaderboard.row) (l : list Leaderboard.row) :
  Sorted desc l -> Sorted desc (Leaderboard.insert_desc x l).
Proof.
  induction l as [|y l IH]; intros Hs; simpl.
  - repeat constructor.
  - apply Sorted_inv in Hs as [Hs Hhd].
    destruct (Z.ltb_spec (Leaderboard.total_points x) (Leaderboard.total_points y)).
    + constructor; [apply IH; exact Hs|].
      apply insert_desc_hd; [unfold desc; lia|exact Hhd].
    + constructor; [constructor; assumption|].
      constructor. unfold desc. lia.
Qed.

Lemma order_desc_sorted (l : list Leaderboard.row) : Sorted desc (Leaderboard.order_desc l).
Proof.
  induction l as [|x l IH]; simpl; [constructor|].
  apply insert_desc_sorted. exact IH.
Qed.

Lemma desc_trans : Relations_1.Transitive desc.
Proof. intros a b c. unfold desc. lia. Qed.

Lemma filter_none_in {A : Type} (P : A -> Prop) `{forall x, Decision (P x)} (l : list A) :
  (forall x, x ∈ l -> ~ P x) -> filter P l = [].
Proof.
  induction l as [|x l IH]; intros HP; [reflexivity|].
  rewrite filter_cons_False by (apply HP; left).
  apply IH. intros y Hy. apply HP. right. exact Hy.
Qed.

(** A user without a submitted roster has one joined row, all NULL, and so
    no points. *)
Lemma no_submitted_roster_zero (d : db) (u : Users.row) :
  (forall r, r ∈ rosters d -> Rosters_.user_id r = Users.id u ->
             Rosters_.is_submitted r = false) ->
  Leaderboard.row_of d u
  = {| Leaderboard.user_id := Users.id u; Leaderboard.username := Users.username u;
       Leaderboard.total_points := 0; Leaderboard.r1_points := 0;
       Leaderboard.r2_points := 0; Leaderboard.r3_points := 0 |}.
Proof.
  intros Hno. unfold Leaderboard.row_of, Leaderboard.joined_rows.
  rewrite filter_none_in; [reflexivity|].
  intros r Hr [Hu Hs]. rewrite (Hno r Hr Hu) in Hs. discriminate.
Qed.

(** The rosters that are not submitted do not reach the view. *)
Lemma row_of_submitted_only (d : db) (u : Users.row) :
  Leaderboard.row_of (set_rosters (filter (fun r => Rosters_.is_submitted r = true)) d) u
  = Leaderboard.row_of d u.
Proof.
  unfold Leaderboard.row_of, Leaderboard.joined_rows.
  cbn [rosters roster_players players player_stats set_rosters].
  rewrite list_filter_filter.
  rewrite (list_filter_iff
             (fun r => (Rosters_.user_id r = Users.id u ∧ Rosters_.is_submitted r = true)
                       ∧ Rosters_.is_submitted r = true)
             (fun r => Rosters_.user_id r = Users.id u ∧ Rosters_.is_submitted r = true))
    by tauto.
  reflexivity.
Qed.

(** C7. Leaderboard membership and ordering: every verified user has a row
    in the leaderboard, and the rows are those of the verified users; a
    verified user with no submitted roster has a row with total points 0;
    the rosters that are not submitted contribute nothing, the leaderboard
    being what it is without them; the rows come by descending total
    points. *)
Theorem leaderboard_members_order (d : db) :
  (forall u, u ∈ users d -> Users.is_verified u = true ->
     exists row, row ∈ Leaderboard.leaderboard d
                 /\ Leaderboard.user_id row = Users.id u
                 /\ Leaderboard.username row = Users.username u
                 /\ ((forall r, r ∈ rosters d -> Rosters_.user_id r = Users.id u ->
                                Rosters_.is_submitted r = false) ->
                     Leaderboard.total_points row = 0))
  /\ Permutation
       (map (Leaderboard.row_of d) (filter (fun u => Users.is_verified u = true) (users d)))
       (Leaderboard.leaderboard d)
  /\ Leaderboard.leaderboard
       (set_rosters (filter (fun r => Rosters_.is_submitted r = true)) d)
     = Leaderboard.leaderboard d
  /\ StronglySorted desc (Leaderboard.leaderboard d).
Proof.
  split; [|split; [|split]].
  - intros u Hu Hv. exists (Leaderboard.row_of d u). split; [|split; [|split]].
    + unfold Leaderboard.leaderboard. rewrite <- order_desc_perm.
      apply list_elem_of_fmap_2. apply list_elem_of_filter. split; assumption.
    + reflexivity.
    + reflexivity.
    + intros Hno. rewrite (no_submitted_roster_zero d u Hno). reflexivity.
  - apply order_desc_perm.
  - unfold Leaderboard.leaderboard. cbn [users set_rosters]. f_equal.
    apply map_ext. intros u. apply row_of_submitted_only.
  - apply Sorted_StronglySorted; [exact desc_trans|]. apply order_desc_sorted.
Qed.

Lemma leaderboard_members_order_witness :
  exists row, row ∈ Leaderboard.leaderboard (Demo.pool true [1; 4; 6]%N)
              /\ Leaderboard.user_id row = 2%N
              /\ Leaderboard.username row = "bob"
              /\ Leaderboard.total_points row = 0.
Proof.
  destruct (proj1 (leaderboard_members_order (Demo.pool true [1; 4; 6]%N))
              {| Users.id := 2; Users.username := "bob"; Users.is_verified := true |})
    as (row & Hin & Hid & Hname & Hzero).
  - right. left.
  - reflexivity.
  - exists row. split; [exact Hin|]. split; [exact Hid|]. split; [exact Hname|].
    apply Hzero. intros r Hr Hu.
    apply list_elem_of_In in Hr. simpl in Hr. destruct Hr as [<-|[]].
    discriminate Hu.
Defined.

(** ** The sync run *)

Lemma apply_writes_lookup {V : Type} (ws : list ((N * Z) * V)) (tbl : gmap (N * Z) V)
    (k : N * Z) :
  apply_writes ws tbl !! k
  = match written k ws with
    | Some v => Some v
    | None => tbl !! k
    end.
Proof.
  revert tbl. induction ws as [|kv ws IH]; intros tbl; [reflexivity|].
  unfold apply_writes in *. cbn [foldl written]. rewrite IH.
  destruct (written k ws); [reflexivity|].
  rewrite lookup_insert. destruct (decide (kv.1 = k)); reflexivity.
Qed.

(** Writing the same list a second time changes nothing. *)
Lemma apply_writes_twice {V : Type} (ws : list ((N * Z) * V)) (tbl : gmap (N * Z) V) :
  apply_writes ws (apply_writes ws tbl) = apply_writes ws tbl.
Proof.
  apply map_eq. intros k. rewrite !apply_writes_lookup.
  destruct (written k ws); reflexivity.
Qed.

Lemma written_fmap {V W : Type} (f : V -> W) (k : N * Z) (ws : list ((N * Z) * V)) :
  written k (map (fun kv => (kv.1, f kv.2)) ws) = f <$> written k ws.
Proof.
  induction ws as [|kv ws IH]; [reflexivity|].
  cbn [map written]. rewrite IH.
  destruct (written k ws); [reflexivity|]. cbn [fst snd fmap option_fmap option_map].
  destruct (decide (kv.1 = k)); reflexivity.
Qed.

Lemma apply_writes_fmap {V W : Type} (f : V -> W) (ws : list ((N * Z) * V))
    (tbl : gmap (N * Z) V) :
  f <$> apply_writes ws tbl = apply_writes (map (fun kv => (kv.1, f kv.2)) ws) (f <$> tbl).
Proof.
  apply map_eq. intros k.
  rewrite lookup_fmap, !apply_writes_lookup, written_fmap, lookup_fmap.
  destruct (written k ws); reflexivity.
Qed.

Lemma apply_writes_app {V : Type} (ws1 ws2 : list ((N * Z) * V)) (tbl : gmap (N * Z) V) :
  apply_writes (ws1 ++ ws2) tbl = apply_writes ws2 (apply_writes ws1 tbl).
Proof. unfold apply_writes. apply foldl_app. Qed.

Lemma upsert_rounds_writes (rounds : list Z) (player_id : uuid)
    (stats : gmap Z NhlApi.RoundStats) (now : timestamp)
    (tbl : gmap (N * Z) PlayerStats.row) :
  fst (Sync.upsert_rounds rounds player_id stats now tbl)
  = apply_writes (round_writes rounds player_id stats now) tbl.
Proof.
  revert tbl. induction rounds as [|r rounds IH]; intros tbl; [reflexivity|].
  cbn [Sync.upsert_rounds round_writes]. destruct (stats !! r) as [st|]; [|reflexivity].
  unfold Sync.upsert. destruct (Sync.storable st); [|reflexivity].
  rewrite IH. reflexivity.
Qed.

Lemma update_player_table (upstream : Z -> Sync.reply) (now : timestamp)
    (acc : Sync.progress) (player : Players.row) :
  Sync.table (Sync.update_player upstream now acc player)
  = apply_writes (player_writes upstream now player) (Sync.table acc).
Proof.
  unfold Sync.update_player, player_writes.
  destruct (Sync.getPlayerGameLog _ _) as [gameLog|]; [|reflexivity].
  destruct (NhlApi.parseGameLogStats _ _) as [stats|]; [|reflexivity].
  rewrite <- upsert_rounds_writes.
  destruct (Sync.upsert_rounds _ _ _ _ _) as [tbl []]; reflexivity.
Qed.

Lemma update_players_table (upstream : Z -> Sync.reply) (now : timestamp)
    (ps : list Players.row) (acc : Sync.progress) :
  Sync.table (foldl (Sync.update_player upstream now) acc ps)
  = apply_writes (concat (map (player_writes upstream now) ps)) (Sync.table acc).
Proof.
  revert acc. induction ps as [|p ps IH]; intros acc; [reflexivity|].
  cbn [foldl map concat]. rewrite IH, update_player_table, apply_writes_app. reflexivity.
Qed.

(** The snapshots after a run are the snapshots before it, with the writes
    of the run applied; the players are not touched. *)
Lemma run_player_stats (upstream : Z -> Sync.reply) (now : timestamp) (d : db) :
  player_stats (snd (Sync.updateAllPlayerStats upstream now d))
  = apply_writes (run_writes upstream now d) (player_stats d)
  /\ players (snd (Sync.updateAllPlayerStats upstream now d)) = players d.
Proof.
  unfold Sync.updateAllPlayerStats, Sync.startUpdateLog. cbn.
  rewrite update_players_table. split; reflexivity.
Qed.

Lemma round_writes_strip (rounds : list Z) (player_id : uuid)
    (stats : gmap Z NhlApi.RoundStats) (t1 t2 : timestamp) :
  map strip (round_writes rounds player_id stats t2)
  = map strip (round_writes rounds player_id stats t1).
Proof.
  induction rounds as [|r rounds IH]; [reflexivity|].
  cbn [round_writes]. destruct (stats !! r) as [st|]; [|reflexivity].
  destruct (Sync.storable st); [|reflexivity].
  cbn [map]. rewrite IH. reflexivity.
Qed.

(** The writes of a run depend on the instant only through the timestamp. *)
Lemma run_writes_strip (upstream : Z -> Sync.reply) (t1 t2 : timestamp) (d d' : db) :
  players d' = players d ->
  map strip (run_writes upstream t2 d') = map strip (run_writes upstream t1 d).
Proof.
  intros Hp. unfold run_writes. rewrite Hp.
  induction (filter _ (players d)) as [|p ps IH]; [reflexivity|].
  cbn [map concat]. rewrite !map_app, IH. f_equal.
  unfold player_writes.
  destruct (Sync.getPlayerGameLog _ _) as [gameLog|]; [|reflexivity].
  destruct (NhlApi.parseGameLogStats _ _) as [stats|]; [|reflexivity].
  apply round_writes_strip.
Qed.

Lemma determineRound_in (gameId : Js.value) :
  NhlApi.determineRound gameId = 1 \/ NhlApi.determineRound gameId = 2
  \/ NhlApi.determineRound gameId = 3.
Proof.
  unfold NhlApi.determineRound.
  destruct (_ <? 4); [auto|].
  destruct (_ && _); [auto|]. destruct (_ && _); [auto|]. destruct (_ && _); auto.
Qed.

Lemma has_rounds_insert (stats : gmap Z NhlApi.RoundStats) (k : Z) (v : NhlApi.RoundStats) :
  has_rounds stats -> has_rounds (<[k := v]> stats).
Proof.
  intros (H1 & H2 & H3). unfold has_rounds.
  rewrite !lookup_insert_is_Some'. tauto.
Qed.

Lemma step_total (isGoalie : bool) (stats : gmap Z NhlApi.RoundStats) (g : Game.t) :
  has_rounds stats ->
  exists stats', NhlApi.step isGoalie stats g = Some stats' /\ has_rounds stats'.
Proof.
  intros Hr. unfold NhlApi.step.
  assert (Hsome : is_Some (stats !! NhlApi.determineRound (Game.gameId g))).
  { destruct Hr as (H1 & H2 & H3).
    destruct (determineRound_in (Game.gameId g)) as [->|[->| ->]]; assumption. }
  destruct Hsome as [st ->]. cbn.
  eexists. split; [reflexivity|]. apply has_rounds_insert. exact Hr.
Qed.

Lemma loop_total (isGoalie : bool) (log : list Game.t) (stats : gmap Z NhlApi.RoundStats) :
  has_rounds stats ->
  exists stats', NhlApi.loop isGoalie stats log = Some stats' /\ has_rounds stats'.
Proof.
  revert stats. induction log as [|g log IH]; intros stats Hr.
  - exists stats. split; [reflexivity|exact Hr].
  - destruct (step_total isGoalie stats g Hr) as (stats1 & Hstep & Hr1).
    cbn [NhlApi.loop]. rewrite Hstep. cbn. apply IH. exact Hr1.
Qed.

(** The aggregation never throws: it returns the totals of the three
    rounds. *)
Lemma parseGameLogStats_total (gameLog : option (list Game.t)) (isGoalie : bool) :
  exists stats, NhlApi.parseGameLogStats gameLog isGoalie = Some stats /\ has_rounds stats.
Proof.
  assert (Hinit : has_rounds NhlApi.initial).
  { unfold has_rounds. repeat split; eexists; reflexivity. }
  destruct gameLog as [log|]; cbn [NhlApi.parseGameLogStats].
  - apply loop_total. exact Hinit.
  - exists NhlApi.initial. split; [reflexivity|exact Hinit].
Qed.

(** C8 as the specification states it fails: a second run, at a later
    instant and with the upstream unchanged, rewrites the timestamp of the
    snapshots, so the snapshots are not left as they were. *)
Lemma sync_twice_refreshes_timestamp :
  let d1 := snd (Sync.updateAllPlayerStats Demo.quiet 2000 (Demo.pool true [1; 4; 6]%N)) in
  let d2 := snd (Sync.updateAllPlayerStats Demo.quiet 3000 d1) in
  PlayerStats.updated_at <$> (player_stats d1 !! (1%N, 1)) = Some 2000
  /\ PlayerStats.updated_at <$> (player_stats d2 !! (1%N, 1)) = Some 3000
  /\ player_stats d2 <> player_stats d1.
Proof.
  cbv zeta.
  assert (H1 : PlayerStats.updated_at <$>
                 (player_stats (snd (Sync.updateAllPlayerStats Demo.quiet 2000
                                       (Demo.pool true [1; 4; 6]%N))) !! (1%N, 1))
               = Some 2000) by (vm_compute; reflexivity).
  assert (H2 : PlayerStats.updated_at <$>
                 (player_stats (snd (Sync.updateAllPlayerStats Demo.quiet 3000
                    (snd (Sync.updateAllPlayerStats Demo.quiet 2000
                            (Demo.pool true [1; 4; 6]%N))))) !! (1%N, 1))
               = Some 3000) by (vm_compute; reflexivity).
  split; [exact H1|]. split; [exact H2|].
  intros Heq. rewrite Heq, H1 in H2. discriminate H2.
Qed.

(** C8, amended. Aggregation idempotence: the aggregation is a function of
    the log that always returns the totals of the three rounds, so running
    it twice gives the same totals; and running the sync again with the
    upstream unchanged leaves the goals, assists, wins, shutouts and games
    played of every snapshot unchanged, each upsert replacing the row (only
    the timestamp of the rows is renewed: a second run at the same instant
    leaves the snapshots as they were). *)
Theorem sync_twice_same_totals (upstream : Z -> Sync.reply) (t1 t2 : timestamp) (d : db) :
  let d1 := snd (Sync.updateAllPlayerStats upstream t1 d) in
  let d2 := snd (Sync.updateAllPlayerStats upstream t2 d1) in
  (forall gameLog isGoalie,
     exists stats, NhlApi.parseGameLogStats gameLog isGoalie = Some stats
                   /\ has_rounds stats)
  /\ totals <$> player_stats d2 = totals <$> player_stats d1
  /\ (t2 = t1 -> player_stats d2 = player_stats d1).
Proof.
  intros d1 d2.
  destruct (run_player_stats upstream t1 d) as [Hs1 Hp1].
  destruct (run_player_stats upstream t2 d1) as [Hs2 _].
  fold d1 in Hs1, Hp1. fold d2 in Hs2.
  split; [exact parseGameLogStats_total|]. split.
  - rewrite Hs2, Hs1, !apply_writes_fmap.
    change (fun kv : N * Z * PlayerStats.row => (kv.1, totals kv.2)) with strip.
    rewrite (run_writes_strip upstream t1 t2 d d1 Hp1).
    apply apply_writes_twice.
  - intros ->. rewrite Hs2, Hs1.
    replace (run_writes upstream t1 d1) with (run_writes upstream t1 d)
      by (unfold run_writes; rewrite Hp1; reflexivity).
    apply apply_writes_twice.
Qed.

Lemma sync_twice_same_totals_witness :
  player_stats
    (snd (Sync.updateAllPlayerStats Demo.quiet 2000
            (snd (Sync.updateAllPlayerStats Demo.quiet 2000 (Demo.pool true [1; 4; 6]%N)))))
  = player_stats
      (snd (Sync.updateAllPlayerStats Demo.quiet 2000 (Demo.pool true [1; 4; 6]%N))).
Proof.
  apply (proj2 (proj2 (sync_twice_same_totals Demo.quiet 2000 2000
                         (Demo.pool true [1; 4; 6]%N)))).
  reflexivity.
Defined.

(** The settings after a run. *)
Lemma run_settings (upstream : Z -> Sync.reply) (now : timestamp) (d : db) :
  settings (snd (Sync.updateAllPlayerStats upstream now d))
  = alter (fun _ => JBool true) "stats_verified"
      (alter (fun _ => JInstant now) "stats_last_updated" (settings d)).
Proof. reflexivity. Qed.

(** C9 as the specification states it fails: a run on a pool whose stats
    are not verified leaves them marked verified. *)
Lemma sync_marks_verified :
  settings (Demo.pool true [1; 4; 6]%N) !! "stats_verified" = Some (JBool false)
  /\ settings (snd (Sync.updateAllPlayerStats Demo.quiet 2000 (Demo.pool true [1; 4; 6]%N)))
       !! "stats_verified" = Some (JBool true).
Proof. split; vm_compute; reflexivity. Qed.

(** C9, amended. A complete run of the sync records the last-updated
    instant and sets the stats-verified setting to true, where these
    settings exist; it changes no other setting. The flag is settable as
    well by the operator's settings update. *)
Theorem sync_settings (upstream : Z -> Sync.reply) (now : timestamp) (d : db) :
  let d' := snd (Sync.updateAllPlayerStats upstream now d) in
  (is_Some (settings d !! "stats_last_updated") ->
   settings d' !! "stats_last_updated" = Some (JInstant now))
  /\ (is_Some (settings d !! "stats_verified") ->
      settings d' !! "stats_verified" = Some (JBool true))
  /\ (forall k, k <> "stats_last_updated" -> k <> "stats_verified" ->
        settings d' !! k = settings d !! k)
  /\ (forall k, is_Some (settings d' !! k) <-> is_Some (settings d !! k))
  /\ (forall b v, Standings.isVerified b = Some v ->
        is_Some (settings d !! "stats_verified") ->
        settings (Standings.put_settings b d) !! "stats_verified" = Some v).
Proof.
  intros d'. unfold d'. rewrite run_settings.
  split; [|split; [|split; [|split]]].
  - intros [v Hv]. rewrite lookup_alter_ne by discriminate.
    rewrite lookup_alter_eq, Hv. reflexivity.
  - intros [v Hv]. rewrite lookup_alter_eq, lookup_alter_ne by discriminate.
    rewrite Hv. reflexivity.
  - intros k H1 H2. rewrite !lookup_alter_ne by congruence. reflexivity.
  - intros k. rewrite !lookup_alter.
    repeat case_decide; subst; rewrite ?fmap_is_Some; try reflexivity; discriminate.
  - intros b v Hb [w Hw]. unfold Standings.put_settings. rewrite Hb.
    cbn [Standings.update_if]. unfold Sync.update_setting at 1.
    cbn [settings set_settings]. rewrite lookup_alter_eq.
    assert (Hkeep : forall k x d0, k <> "stats_verified" ->
               settings (Standings.update_if k x d0) !! "stats_verified"
               = settings d0 !! "stats_verified").
    { intros k [x|] d0 Hk; [|reflexivity]. cbn. apply lookup_alter_ne. exact Hk. }
    rewrite !Hkeep by discriminate. rewrite Hw. reflexivity.
Qed.

Lemma sync_settings_witness :
  settings (snd (Sync.updateAllPlayerStats Demo.quiet 2000 (Demo.pool true [1; 4; 6]%N)))
    !! "stats_last_updated" = Some (JInstant 2000)
  /\ settings (snd (Sync.updateAllPlayerStats Demo.quiet 2000 (Demo.pool true [1; 4; 6]%N)))
       !! "stats_verified" = Some (JBool true)
  /\ settings (snd (Sync.updateAllPlayerStats Demo.quiet 2000 (Demo.pool true [1; 4; 6]%N)))
       !! "current_round" = Some (JNumber 2)
  /\ settings (Standings.put_settings
                 {| Standings.currentRound := None; Standings.lockDates := None;
                    Standings.isVerified := Some (JBool true) |}
                 (Demo.pool true [1; 4; 6]%N))
       !! "stats_verified" = Some (JBool true).
Proof.
  destruct (sync_settings Demo.quiet 2000 (Demo.pool true [1; 4; 6]%N))
    as (H1 & H2 & H3 & _ & H5).
  split; [|split; [|split]].
  - apply H1. eexists. vm_compute. reflexivity.
  - apply H2. eexists. vm_compute. reflexivity.
  - rewrite H3 by discriminate. vm_compute. reflexivity.
  - apply H5; [reflexivity|]. eexists. vm_compute. reflexivity.
Defined.

(** ** From the upstream to the leaderboard *)

(** Player 1, a forward, has one round-1 game with a goal and an assist;
    after the sync his round-1 snapshot holds them, and the user who
    submitted a roster with him as a star gets (1 + 1) * 2 = 4 points, all
    of round 1. *)
Lemma sync_then_leaderboard :
  let d := snd (Sync.updateAllPlayerStats Demo.one_game 2000 (Demo.pool true [1; 4; 6]%N)) in
  totals <$> (player_stats d !! (1%N, 1)) = Some (1, 1, 0, 0, 1)
  /\ Leaderboard.leaderboard d
     = [ {| Leaderboard.user_id := 1; Leaderboard.username := "alice";
            Leaderboard.total_points := 4; Leaderboard.r1_points := 4;
            Leaderboard.r2_points := 0; Leaderboard.r3_points := 0 |};
         {| Leaderboard.user_id := 2; Leaderboard.username := "bob";
            Leaderboard.total_points := 0; Leaderboard.r1_points := 0;
            Leaderboard.r2_points := 0; Leaderboard.r3_points := 0 |} ].
Proof. vm_compute. split; reflexivity. Qed.

(** * Further properties *)

(** ** Aggregation, round by round *)

Lemma loop_round (isGoalie : bool) (log : list Game.t) (stats : gmap Z NhlApi.RoundStats)
    (r : Z) (st : NhlApi.RoundStats) :
  has_rounds stats -> stats !! r = Some st ->
  exists stats',
    NhlApi.loop isGoalie stats log = Some stats'
    /\ stats' !! r = Some (foldl (update_round isGoalie) st (games_of r log)).
Proof.
  revert stats st. induction log as [|g log IH]; intros stats st Hr Hst.
  - exists stats. split; [reflexivity|exact Hst].
  - cbn [NhlApi.loop]. unfold NhlApi.step.
    assert (Hsome : is_Some (stats !! NhlApi.determineRound (Game.gameId g))).
    { destruct Hr as (H1 & H2 & H3).
      destruct (determineRound_in (Game.gameId g)) as [->|[->| ->]]; assumption. }
    destruct Hsome as [st0 Hst0]. rewrite Hst0. cbn [mbind option_bind].
    unfold games_of. rewrite filter_cons. fold (games_of r log).
    fold (update_round isGoalie st0 g).
    destruct (decide (NhlApi.determineRound (Game.gameId g) = r)) as [Heq|Hne].
    + rewrite Heq in *. rewrite Hst in Hst0. injection Hst0 as <-.
      cbn [foldl]. apply IH.
      * apply has_rounds_insert. exact Hr.
      * rewrite lookup_insert_eq. reflexivity.
    + apply IH.
      * apply has_rounds_insert. exact Hr.
      * rewrite lookup_insert_ne by exact Hne. exact Hst.
Qed.

Lemma initial_lookup (r : Z) :
  r = 1 \/ r = 2 \/ r = 3 -> NhlApi.initial !! r = Some NhlApi.zero.
Proof. intros [->|[->| ->]]; reflexivity. Qed.

Lemma initial_has_rounds : has_rounds NhlApi.initial.
Proof. unfold has_rounds. repeat split; eexists; reflexivity. Qed.

(** The totals of a round are the totals of its own games. *)
Lemma parse_round (log : list Game.t) (isGoalie : bool) (r : Z) :
  r = 1 \/ r = 2 \/ r = 3 ->
  exists stats,
    NhlApi.parseGameLogStats (Some log) isGoalie = Some stats
    /\ stats !! r = Some (foldl (update_round isGoalie) NhlApi.zero (games_of r log)).
Proof.
  intros Hr. cbn [NhlApi.parseGameLogStats].
  apply loop_round; [exact initial_has_rounds|]. apply initial_lookup. exact Hr.
Qed.

(** X1. A game changes the totals of its own round only: two logs with the
    same games of round [r], in the same order, give the same totals for
    round [r], whatever their other games. *)
Theorem aggregate_round_independent (log1 log2 : list Game.t) (isGoalie : bool) (r : Z) :
  r = 1 \/ r = 2 \/ r = 3 ->
  games_of r log1 = games_of r log2 ->
  exists st,
    NhlApi.parseGameLogStats (Some log1) isGoalie ≫= (fun stats => stats !! r) = Some st
    /\ NhlApi.parseGameLogStats (Some log2) isGoalie ≫= (fun stats => stats !! r) = Some st.
Proof.
  intros Hr Hsame.
  destruct (parse_round log1 isGoalie r Hr) as (s1 & Hp1 & Hl1).
  destruct (parse_round log2 isGoalie r Hr) as (s2 & Hp2 & Hl2).
  exists (foldl (update_round isGoalie) NhlApi.zero (games_of r log1)).
  rewrite Hp1, Hp2. cbn. rewrite Hl1, Hl2, Hsame. split; reflexivity.
Qed.

Lemma aggregate_round_independent_witness :
  exists st,
    NhlApi.parseGameLogStats
      (Some [Demo.shutout_win 2025031111; Demo.shutout_win 2025032111]) true
      ≫= (fun stats => stats !! 1) = Some st
    /\ NhlApi.parseGameLogStats (Some [Demo.shutout_win 2025031111]) true
       ≫= (fun stats => stats !! 1) = Some st.
Proof.
  apply (aggregate_round_independent
           [Demo.shutout_win 2025031111; Demo.shutout_win 2025032111]
           [Demo.shutout_win 2025031111] true 1).
  - left. reflexivity.
  - reflexivity.
Defined.

Lemma skater_fold (l : list Game.t) (st : NhlApi.RoundStats) :
  foldl (update_round false) st l
  = {| NhlApi.goals := NhlApi.goals st + goals_of l;
       NhlApi.assists := NhlApi.assists st + assists_of l;
       NhlApi.wins := NhlApi.wins st;
       NhlApi.shutouts := NhlApi.shutouts st;
       NhlApi.gamesPlayed := NhlApi.gamesPlayed st + Z.of_nat (length l) |}.
Proof.
  revert st. induction l as [|g l IH]; intros st.
  - destruct st. unfold goals_of, assists_of. cbn. f_equal; lia.
  - cbn [foldl]. rewrite IH. unfold goals_of, assists_of.
    cbn [update_round NhlApi.count_game NhlApi.skater_update NhlApi.goals NhlApi.assists
         NhlApi.wins NhlApi.shutouts NhlApi.gamesPlayed map sum_Z foldr length].
    fold (sum_Z (map (fun g => NhlApi.or_zero (Game.goals g)) l)).
    fold (sum_Z (map (fun g => NhlApi.or_zero (Game.assists g)) l)).
    f_equal; lia.
Qed.

Lemma goalie_update_other (g : Game.t) (st : NhlApi.RoundStats) :
  NhlApi.goals (NhlApi.goalie_update g st) = NhlApi.goals st
  /\ NhlApi.assists (NhlApi.goalie_update g st) = NhlApi.assists st
  /\ NhlApi.wins (NhlApi.goalie_update g st)
     = NhlApi.wins st + (if NhlApi.is_win g then 1 else 0)
  /\ NhlApi.gamesPlayed (NhlApi.goalie_update g st) = NhlApi.gamesPlayed st.
Proof.
  unfold NhlApi.goalie_update.
  destruct (NhlApi.is_win g), (NhlApi.truthy _), (NhlApi.is_zero _); cbn;
    repeat split; lia.
Qed.

Lemma goalie_fold (l : list Game.t) (st : NhlApi.RoundStats) :
  NhlApi.goals (foldl (update_round true) st l) = NhlApi.goals st
  /\ NhlApi.assists (foldl (update_round true) st l) = NhlApi.assists st
  /\ NhlApi.wins (foldl (update_round true) st l) = NhlApi.wins st + won l
  /\ NhlApi.gamesPlayed (foldl (update_round true) st l)
     = NhlApi.gamesPlayed st + Z.of_nat (length l).
Proof.
  revert st. induction l as [|g l IH]; intros st.
  - unfold won. cbn. repeat split; lia.
  - cbn [foldl]. destruct (IH (update_round true st g)) as (H1 & H2 & H3 & H4).
    rewrite H1, H2, H3, H4.
    destruct (goalie_update_other g st) as (G1 & G2 & G3 & G4).
    unfold update_round.
    cbn [NhlApi.count_game NhlApi.goals NhlApi.assists NhlApi.wins NhlApi.gamesPlayed].
    rewrite G1, G2, G3, G4. unfold won. rewrite filter_cons.
    destruct (NhlApi.is_win g); cbn [length].
    + destruct (decide (true = true)); [|congruence]. cbn [length]. repeat split; lia.
    + destruct (decide (false = true)); [discriminate|]. repeat split; lia.
Qed.

(** Every game is of one of the three rounds. *)
Lemma games_of_partition (log : list Game.t) :
  (length (games_of 1 log) + length (games_of 2 log) + length (games_of 3 log))%nat
  = length log.
Proof.
  induction log as [|g log IH]; [reflexivity|].
  unfold games_of in *. rewrite !filter_cons. cbn [length]. rewrite <- IH.
  destruct (determineRound_in (Game.gameId g)) as [H|[H|H]]; rewrite H;
    repeat match goal with
           | |- context [decide ?P] => destruct (decide P)
           end; try discriminate; try congruence; cbn [length]; lia.
Qed.

Lemma sum_by_round (f : Game.t -> Z) (log : list Game.t) :
  sum_Z (map f (games_of 1 log)) + sum_Z (map f (games_of 2 log))
  + sum_Z (map f (games_of 3 log))
  = sum_Z (map f log).
Proof.
  induction log as [|g log IH]; [reflexivity|].
  unfold games_of in *. rewrite !filter_cons. cbn [map sum_Z foldr].
  fold (sum_Z (map f log)). rewrite <- IH.
  destruct (determineRound_in (Game.gameId g)) as [H|[H|H]]; rewrite H;
    repeat match goal with
           | |- context [decide ?P] => destruct (decide P)
           end; try discriminate; try congruence; cbn [map sum_Z foldr];
    unfold sum_Z; lia.
Qed.

Lemma parse_three_rounds (log : list Game.t) (isGoalie : bool) :
  exists stats,
    NhlApi.parseGameLogStats (Some log) isGoalie = Some stats
    /\ stats !! 1 = Some (foldl (update_round isGoalie) NhlApi.zero (games_of 1 log))
    /\ stats !! 2 = Some (foldl (update_round isGoalie) NhlApi.zero (games_of 2 log))
    /\ stats !! 3 = Some (foldl (update_round isGoalie) NhlApi.zero (games_of 3 log)).
Proof.
  destruct (parse_round log isGoalie 1) as (s1 & Hp1 & Hl1); [auto|].
  destruct (parse_round log isGoalie 2) as (s2 & Hp2 & Hl2); [auto|].
  destruct (parse_round log isGoalie 3) as (s3 & Hp3 & Hl3); [auto|].
  rewrite Hp1 in Hp2, Hp3. injection Hp2 as <-. injection Hp3 as <-.
  exists s1. auto.
Qed.

(** X2. Every game of the log is counted once: the games played of a round
    are the games classified into it, and the games played of the three
    rounds add up to the length of the log, for a skater and for a
    goaltender. *)
Theorem games_played_counted (log : list Game.t) (isGoalie : bool) :
  exists stats s1 s2 s3,
    NhlApi.parseGameLogStats (Some log) isGoalie = Some stats
    /\ stats !! 1 = Some s1 /\ stats !! 2 = Some s2 /\ stats !! 3 = Some s3
    /\ NhlApi.gamesPlayed s1 = Z.of_nat (length (games_of 1 log))
    /\ NhlApi.gamesPlayed s2 = Z.of_nat (length (games_of 2 log))
    /\ NhlApi.gamesPlayed s3 = Z.of_nat (length (games_of 3 log))
    /\ NhlApi.gamesPlayed s1 + NhlApi.gamesPlayed s2 + NhlApi.gamesPlayed s3
       = Z.of_nat (length log).
Proof.
  destruct (parse_three_rounds log isGoalie) as (stats & Hp & H1 & H2 & H3).
  eexists stats, _, _, _. split; [exact Hp|].
  split; [exact H1|]. split; [exact H2|]. split; [exact H3|].
  assert (Hgp : forall l, NhlApi.gamesPlayed (foldl (update_round isGoalie) NhlApi.zero l)
                          = Z.of_nat (length l)).
  { intros l. destruct isGoalie.
    - destruct (goalie_fold l NhlApi.zero) as (_ & _ & _ & ->). reflexivity.
    - rewrite skater_fold. reflexivity. }
  rewrite !Hgp. pose proof (games_of_partition log). repeat split; lia.
Qed.

(** X3. Skater totals: the goals and the assists of a round are the sums
    of the goals and assists of its games, a missing field counting for 0;
    over the three rounds they add up to the sums over the log; a skater is
    never credited a win or a shutout. *)
Theorem skater_totals (log : list Game.t) :
  exists stats s1 s2 s3,
    NhlApi.parseGameLogStats (Some log) false = Some stats
    /\ stats !! 1 = Some s1 /\ stats !! 2 = Some s2 /\ stats !! 3 = Some s3
    /\ (forall r s, (r = 1 /\ s = s1) \/ (r = 2 /\ s = s2) \/ (r = 3 /\ s = s3) ->
          NhlApi.goals s = goals_of (games_of r log)
          /\ NhlApi.assists s = assists_of (games_of r log)
          /\ NhlApi.wins s = 0 /\ NhlApi.shutouts s = 0)
    /\ NhlApi.goals s1 + NhlApi.goals s2 + NhlApi.goals s3 = goals_of log
    /\ NhlApi.assists s1 + NhlApi.assists s2 + NhlApi.assists s3 = assists_of log.
Proof.
  destruct (parse_three_rounds log false) as (stats & Hp & H1 & H2 & H3).
  eexists stats, _, _, _. split; [exact Hp|].
  split; [exact H1|]. split; [exact H2|]. split; [exact H3|].
  rewrite !skater_fold. cbn [NhlApi.goals NhlApi.assists NhlApi.wins NhlApi.shutouts
                             NhlApi.zero].
  split; [|split].
  - intros r s [[-> ->]|[[-> ->]| [-> ->]]]; cbn; repeat split; lia.
  - pose proof (sum_by_round (fun g => NhlApi.or_zero (Game.goals g)) log).
    unfold goals_of. lia.
  - pose proof (sum_by_round (fun g => NhlApi.or_zero (Game.assists g)) log).
    unfold assists_of. lia.
Qed.

Lemma skater_totals_witness :
  exists stats s1,
    NhlApi.parseGameLogStats
      (Some [ {| Game.gameId := Js.Num 2025031111; Game.decision := None;
                 Game.shutouts := None; Game.goalsAgainst := None;
                 Game.goals := Some 2; Game.assists := None |} ]) false = Some stats
    /\ stats !! 1 = Some s1
    /\ NhlApi.goals s1 = 2 /\ NhlApi.assists s1 = 0.
Proof.
  destruct (skater_totals
              [ {| Game.gameId := Js.Num 2025031111; Game.decision := None;
                   Game.shutouts := None; Game.goalsAgainst := None;
                   Game.goals := Some 2; Game.assists := None |} ])
    as (stats & s1 & s2 & s3 & Hp & H1 & _ & _ & Hr & _).
  exists stats, s1. split; [exact Hp|]. split; [exact H1|].
  destruct (Hr 1 s1) as (Hg & Ha & _); [left; split; reflexivity|].
  split; [rewrite Hg|rewrite Ha]; reflexivity.
Defined.

Lemma update_round_shutouts (g : Game.t) (st : NhlApi.RoundStats) :
  NhlApi.shutouts (update_round true st g) =
  let s := NhlApi.shutouts st + NhlApi.or_zero (Game.shutouts g) in
  if clean_win g then Z.max s 1 else s.
Proof.
  unfold update_round. cbn [NhlApi.count_game NhlApi.shutouts].
  apply goalie_update_shutouts.
Qed.

Lemma shutout_fold_bounds (l : list Game.t) (st : NhlApi.RoundStats) (e0 : Z) :
  (forall g, g ∈ l -> 0 <= NhlApi.or_zero (Game.shutouts g)) ->
  0 <= e0 -> e0 <= NhlApi.shutouts st <= e0 + 1 ->
  e0 + reported_shutouts l <= NhlApi.shutouts (foldl (update_round true) st l)
  <= e0 + reported_shutouts l + 1.
Proof.
  revert st e0. induction l as [|g l IH]; intros st e0 Hpos He0 Hst.
  - unfold reported_shutouts. cbn. lia.
  - cbn [foldl]. unfold reported_shutouts. cbn [map sum_Z foldr].
    fold (sum_Z (map (fun g => NhlApi.or_zero (Game.shutouts g)) l)).
    fold (reported_shutouts l).
    assert (Hg : 0 <= NhlApi.or_zero (Game.shutouts g)) by (apply Hpos; left).
    specialize (IH (update_round true st g) (e0 + NhlApi.or_zero (Game.shutouts g))).
    assert (Hstep : e0 + NhlApi.or_zero (Game.shutouts g)
                    <= NhlApi.shutouts (update_round true st g)
                    <= e0 + NhlApi.or_zero (Game.shutouts g) + 1).
    { rewrite update_round_shutouts. cbn zeta. destruct (clean_win g); lia. }
    specialize (IH (fun x Hx => Hpos x (list_elem_of_further _ _ _ Hx)) ltac:(lia) Hstep).
    lia.
Qed.

Lemma shutout_fold_mono (l : list Game.t) (st : NhlApi.RoundStats) :
  (forall g, g ∈ l -> 0 <= NhlApi.or_zero (Game.shutouts g)) ->
  NhlApi.shutouts st <= NhlApi.shutouts (foldl (update_round true) st l).
Proof.
  revert st. induction l as [|g l IH]; intros st Hpos; [cbn; lia|].
  cbn [foldl].
  assert (Hg : 0 <= NhlApi.or_zero (Game.shutouts g)) by (apply Hpos; left).
  specialize (IH (update_round true st g)
                 (fun x Hx => Hpos x (list_elem_of_further _ _ _ Hx))).
  rewrite update_round_shutouts in IH. cbn zeta in IH.
  destruct (clean_win g); lia.
Qed.

Lemma shutout_fold_clean (l : list Game.t) (st : NhlApi.RoundStats) :
  (forall g, g ∈ l -> 0 <= NhlApi.or_zero (Game.shutouts g)) ->
  (exists g, g ∈ l /\ clean_win g = true) ->
  1 <= NhlApi.shutouts (foldl (update_round true) st l).
Proof.
  revert st. induction l as [|g l IH]; intros st Hpos (x & Hx & Hclean).
  - apply elem_of_nil in Hx. contradiction.
  - cbn [foldl]. apply elem_of_cons in Hx as [->|Hx].
    + pose proof (shutout_fold_mono l (update_round true st g)
                    (fun y Hy => Hpos y (list_elem_of_further _ _ _ Hy))) as Hm.
      rewrite update_round_shutouts in Hm. cbn zeta in Hm. rewrite Hclean in Hm. lia.
    + apply IH; [intros y Hy; apply Hpos; right; exact Hy|]. exists x. auto.
Qed.

Lemma shutout_fold_no_clean (l : list Game.t) (st : NhlApi.RoundStats) :
  (forall g, g ∈ l -> clean_win g = false) ->
  NhlApi.shutouts (foldl (update_round true) st l)
  = NhlApi.shutouts st + reported_shutouts l.
Proof.
  revert st. induction l as [|g l IH]; intros st Hno.
  - unfold reported_shutouts. cbn. lia.
  - cbn [foldl]. rewrite IH by (intros y Hy; apply Hno; right; exact Hy).
    rewrite update_round_shutouts. cbn zeta. rewrite (Hno g) by left.
    unfold reported_shutouts. cbn [map sum_Z foldr]. unfold sum_Z. lia.
Qed.

(** X4. Goaltender totals, when no game reports a negative shutout count:
    the wins of a round are its games decided 'W', no goal or assist is
    credited, and the shutouts of a round are the shutouts its games report
    plus at most one: exactly the reported ones when no game of the round is
    a win with no goal against, and at least 1 when one is. *)
Theorem goalie_totals (log : list Game.t) :
  (forall g, g ∈ log -> 0 <= NhlApi.or_zero (Game.shutouts g)) ->
  exists stats s1 s2 s3,
    NhlApi.parseGameLogStats (Some log) true = Some stats
    /\ stats !! 1 = Some s1 /\ stats !! 2 = Some s2 /\ stats !! 3 = Some s3
    /\ (forall r s, (r = 1 /\ s = s1) \/ (r = 2 /\ s = s2) \/ (r = 3 /\ s = s3) ->
          NhlApi.goals s = 0 /\ NhlApi.assists s = 0
          /\ NhlApi.wins s = won (games_of r log)
          /\ reported_shutouts (games_of r log) <= NhlApi.shutouts s
             <= reported_shutouts (games_of r log) + 1
          /\ ((exists g, g ∈ games_of r log /\ clean_win g = true) ->
              1 <= NhlApi.shutouts s)
          /\ ((forall g, g ∈ games_of r log -> clean_win g = false) ->
              NhlApi.shutouts s = reported_shutouts (games_of r log))).
Proof.
  intros Hpos.
  destruct (parse_three_rounds log true) as (stats & Hp & H1 & H2 & H3).
  eexists stats, _, _, _. split; [exact Hp|].
  split; [exact H1|]. split; [exact H2|]. split; [exact H3|].
  assert (Hall : forall r,
    let s := foldl (update_round true) NhlApi.zero (games_of r log) in
    NhlApi.goals s = 0 /\ NhlApi.assists s = 0
    /\ NhlApi.wins s = won (games_of r log)
    /\ reported_shutouts (games_of r log) <= NhlApi.shutouts s
       <= reported_shutouts (games_of r log) + 1
    /\ ((exists g, g ∈ games_of r log /\ clean_win g = true) -> 1 <= NhlApi.shutouts s)
    /\ ((forall g, g ∈ games_of r log -> clean_win g = false) ->
        NhlApi.shutouts s = reported_shutouts (games_of r log))).
  { intros r s. subst s.
    assert (Hposr : forall g, g ∈ games_of r log -> 0 <= NhlApi.or_zero (Game.shutouts g)).
    { intros g Hg. apply Hpos. unfold games_of in Hg.
      apply list_elem_of_filter in Hg. tauto. }
    destruct (goalie_fold (games_of r log) NhlApi.zero) as (G1 & G2 & G3 & _).
    split; [exact G1|]. split; [exact G2|]. split; [rewrite G3; cbn; lia|].
    split; [|split].
    - pose proof (shutout_fold_bounds (games_of r log) NhlApi.zero 0 Hposr) as Hb.
      cbn [NhlApi.shutouts NhlApi.zero] in Hb. lia.
    - apply shutout_fold_clean. exact Hposr.
    - intros Hno. rewrite shutout_fold_no_clean by exact Hno. cbn. lia. }
  intros r s [[-> ->]|[[-> ->]| [-> ->]]]; apply Hall.
Qed.

Lemma goalie_totals_witness :
  exists stats s1,
    NhlApi.parseGameLogStats
      (Some [Demo.shutout_win 2025031111; Demo.shutout_win 2025031112]) true = Some stats
    /\ stats !! 1 = Some s1
    /\ NhlApi.wins s1 = 2 /\ 0 <= NhlApi.shutouts s1 <= 1.
Proof.
  destruct (goalie_totals [Demo.shutout_win 2025031111; Demo.shutout_win 2025031112])
    as (stats & s1 & s2 & s3 & Hp & H1 & _ & _ & Hr).
  - intros g Hg. apply list_elem_of_In in Hg. simpl in Hg.
    destruct Hg as [<-|[<-|[]]]; cbn; lia.
  - exists stats, s1. split; [exact Hp|]. split; [exact H1|].
    destruct (Hr 1 s1) as (_ & _ & Hw & Hb & _); [left; split; reflexivity|].
    split; [rewrite Hw; reflexivity|]. exact Hb.
Defined.

(** ** The sync run, player by player *)






Lemma written_None {V : Type} (k : N * Z) (ws : list ((N * Z) * V)) :
  (forall kv, kv ∈ ws -> kv.1 <> k) -> written k ws = None.
Proof.
  induction ws as [|kv ws IH]; intros Hk; [reflexivity|].
  cbn [written]. rewrite IH by (intros x Hx; apply Hk; right; exact Hx).
  destruct (decide (kv.1 = k)) as [He|_]; [|reflexivity].
  exfalso. exact (Hk kv ltac:(left) He).
Qed.

Lemma apply_writes_untouched {V : Type} (ws : list ((N * Z) * V))
    (tbl : gmap (N * Z) V) (k : N * Z) :
  (forall kv, kv ∈ ws -> kv.1 <> k) -> apply_writes ws tbl !! k = tbl !! k.
Proof.
  intros Hk. rewrite apply_writes_lookup, written_None by exact Hk. reflexivity.
Qed.

Lemma round_writes_keys (rounds : list Z) (player_id : uuid)
    (stats : gmap Z NhlApi.RoundStats) (now : timestamp)
    (kv : (N * Z) * PlayerStats.row) :
  kv ∈ round_writes rounds player_id stats now ->
  kv.1.1 = player_id /\ kv.1.2 ∈ rounds.
Proof.
  induction rounds as [|r rounds IH]; cbn [round_writes]; intros Hin.
  - apply elem_of_nil in Hin. contradiction.
  - destruct (stats !! r) as [st|]; [|apply elem_of_nil in Hin; contradiction].
    destruct (Sync.storable st); [|apply elem_of_nil in Hin; contradiction].
    apply elem_of_cons in Hin as [->|Hin].
    + split; [reflexivity|left].
    + destruct (IH Hin) as [H1 H2]. split; [exact H1|right; exact H2].
Qed.

Lemma player_writes_keys (upstream : Z -> Sync.reply) (now : timestamp)
    (p : Players.row) (kv : (N * Z) * PlayerStats.row) :
  kv ∈ player_writes upstream now p ->
  kv.1.1 = Players.id p /\ (kv.1.2 = 1 \/ kv.1.2 = 2 \/ kv.1.2 = 3)
  /\ is_Some (Sync.getPlayerGameLog upstream (Players.nhl_id p)).
Proof.
  unfold player_writes.
  destruct (Sync.getPlayerGameLog _ _) as [gl|];
    [|intros Hin; apply elem_of_nil in Hin; contradiction].
  destruct (NhlApi.parseGameLogStats _ _) as [stats|];
    [|intros Hin; apply elem_of_nil in Hin; contradiction].
  intros Hin. apply round_writes_keys in Hin as [H1 H2].
  split; [exact H1|]. split; [|eexists; reflexivity].
  apply list_elem_of_In in H2. simpl in H2.
  destruct H2 as [<-|[<-|[<-|[]]]]; auto.
Qed.

Lemma writes_keys (upstream : Z -> Sync.reply) (now : timestamp)
    (ps : list Players.row) (kv : (N * Z) * PlayerStats.row) :
  kv ∈ concat (map (player_writes upstream now) ps) ->
  exists p, p ∈ ps /\ kv.1.1 = Players.id p
            /\ (kv.1.2 = 1 \/ kv.1.2 = 2 \/ kv.1.2 = 3)
            /\ is_Some (Sync.getPlayerGameLog upstream (Players.nhl_id p)).
Proof.
  induction ps as [|p ps IH]; cbn [map concat]; intros Hin.
  - apply elem_of_nil in Hin. contradiction.
  - apply elem_of_app in Hin as [Hin|Hin].
    + exists p. split; [left|]. apply player_writes_keys with (now := now). exact Hin.
    + destruct (IH Hin) as (q & Hq & Hrest). exists q. split; [right; exact Hq|exact Hrest].
Qed.

(** A snapshot that no fetched active player owns is not touched. *)
Lemma run_lookup_frame (upstream : Z -> Sync.reply) (now : timestamp) (d : db)
    (k : N * Z) :
  (forall p, p ∈ players d -> Players.is_active p = true ->
             is_Some (Sync.getPlayerGameLog upstream (Players.nhl_id p)) ->
             Players.id p = k.1 -> k.2 <> 1 /\ k.2 <> 2 /\ k.2 <> 3) ->
  player_stats (snd (Sync.updateAllPlayerStats upstream now d)) !! k
  = player_stats d !! k.
Proof.
  intros Hk. destruct (run_player_stats upstream now d) as [-> _].
  apply apply_writes_untouched. intros kv Hin Heq. unfold run_writes in Hin.
  apply writes_keys in Hin as (p & Hp & Hid & Hround & Hfetched).
  apply list_elem_of_filter in Hp as [Hact Hp].
  subst k. specialize (Hk p Hp Hact Hfetched (eq_sym Hid)). lia.
Qed.

(** The snapshots of a fetched active player, when ids are unique: what the
    player's own upserts wrote, and otherwise what was there. *)
Lemma run_lookup_player (upstream : Z -> Sync.reply) (now : timestamp) (d : db)
    (p : Players.row) (gl : option (list Game.t)) (stats : gmap Z NhlApi.RoundStats)
    (r : Z) :
  NoDup (map Players.id (filter (fun p => Players.is_active p = true) (players d))) ->
  p ∈ players d -> Players.is_active p = true ->
  Sync.getPlayerGameLog upstream (Players.nhl_id p) = Some gl ->
  NhlApi.parseGameLogStats gl (bool_decide (Players.position_ p = goalie)) = Some stats ->
  player_stats (snd (Sync.updateAllPlayerStats upstream now d)) !! (Players.id p, r)
  = match written (Players.id p, r) (round_writes [1; 2; 3] (Players.id p) stats now) with
    | Some v => Some v
    | None => player_stats d !! (Players.id p, r)
    end.
Proof.
  intros Hnd Hp Hact Hgl Hstats.
  destruct (run_player_stats upstream now d) as [-> _]. unfold run_writes.
  assert (Hin : p ∈ filter (fun p => Players.is_active p = true) (players d))
    by (apply list_elem_of_filter; split; assumption).
  apply list_elem_of_split in Hin as (l1 & l2 & Hsplit). rewrite Hsplit in *.
  rewrite map_app in Hnd. cbn [map] in Hnd.
  apply NoDup_app in Hnd as (_ & Hl1 & Hnd). apply NoDup_cons in Hnd as [Hnot _].
  rewrite map_app, concat_app. cbn [map concat].
  rewrite !apply_writes_app.
  rewrite apply_writes_untouched.
  2:{ intros kv Hkv Heq. apply writes_keys in Hkv as (q & Hq & Hid & _).
      apply Hnot. rewrite Heq in Hid. cbn in Hid. rewrite Hid.
      apply list_elem_of_In, in_map, list_elem_of_In. exact Hq. }
  rewrite apply_writes_lookup.
  unfold player_writes at 1 2. rewrite Hgl, Hstats.
  destruct (written _ _); [reflexivity|].
  apply apply_writes_untouched.
  intros kv Hkv Heq. apply writes_keys in Hkv as (q & Hq & Hid & _).
  apply (Hl1 (Players.id p)); [|left].
  rewrite Heq in Hid. cbn in Hid. rewrite Hid.
  apply list_elem_of_In, in_map, list_elem_of_In. exact Hq.
Qed.

(** The upsert of a round is made exactly when the totals of the rounds up
    to it fit their columns. *)
Lemma written_round (player_id : uuid) (stats : gmap Z NhlApi.RoundStats)
    (now : timestamp) (r : Z) (st : NhlApi.RoundStats) :
  has_rounds stats -> r = 1 \/ r = 2 \/ r = 3 -> stats !! r = Some st ->
  (storable_rounds stats (filter (fun x => x <= r) [1; 2; 3]) = true ->
   written (player_id, r) (round_writes [1; 2; 3] player_id stats now)
   = Some (snapshot_of st now))
  /\ (storable_rounds stats (filter (fun x => x <= r) [1; 2; 3]) = false ->
      written (player_id, r) (round_writes [1; 2; 3] player_id stats now) = None).
Proof.
  intros ([s1 H1] & [s2 H2] & [s3 H3]) Hr Hst.
  cbn [round_writes]. rewrite H1, H2, H3.
  destruct Hr as [->|[->| ->]];
    match goal with
    | |- context [filter ?P ?l] =>
        let l' := eval vm_compute in (filter P l) in
        change (filter P l) with l'
    end;
    cbn [storable_rounds forallb]; rewrite ?H1, ?H2, ?H3;
    destruct (Sync.storable s1), (Sync.storable s2), (Sync.storable s3);
    cbn [andb written fst snd];
    repeat match goal with
           | |- context [decide (?a = ?b)] =>
               destruct (decide (a = b)); try congruence
           end;
    split; intros Hb; try discriminate Hb; congruence.
Qed.

Lemma NoDup_map_eq {A B : Type} (f : A -> B) (l : list A) (x y : A) :
  NoDup (map f l) -> x ∈ l -> y ∈ l -> f x = f y -> x = y.
Proof.
  induction l as [|a l IH]; intros Hnd Hx Hy Hf.
  - apply elem_of_nil in Hx. contradiction.
  - cbn [map] in Hnd. apply NoDup_cons in Hnd as [Hnot Hnd].
    apply elem_of_cons in Hx as [->|Hx]; apply elem_of_cons in Hy as [->|Hy].
    + reflexivity.
    + exfalso. apply Hnot. rewrite Hf. apply list_elem_of_In, in_map, list_elem_of_In.
      exact Hy.
    + exfalso. apply Hnot. rewrite <- Hf. apply list_elem_of_In, in_map, list_elem_of_In.
      exact Hx.
    + apply IH; assumption.
Qed.

(** X6. What a run stores is what the aggregation computes, as far as the
    database accepts it: when the active players have distinct ids, after a
    run the snapshot of a round 1-3 of an active player whose log was
    fetched holds the totals aggregated from that log, stamped with the
    instant of the run, provided the totals of that round and of the rounds
    before it fit their columns; if the totals of one of these rounds do not
    fit, the upsert of the round is not made and its snapshot is left as it
    was. *)
Theorem sync_stores_aggregate (upstream : Z -> Sync.reply) (now : timestamp) (d : db)
    (p : Players.row) (gl : option (list Game.t)) (stats : gmap Z NhlApi.RoundStats)
    (r : Z) (st : NhlApi.RoundStats) :
  NoDup (map Players.id (filter (fun p => Players.is_active p = true) (players d))) ->
  p ∈ players d -> Players.is_active p = true ->
  Sync.getPlayerGameLog upstream (Players.nhl_id p) = Some gl ->
  NhlApi.parseGameLogStats gl (bool_decide (Players.position_ p = goalie)) = Some stats ->
  r = 1 \/ r = 2 \/ r = 3 -> stats !! r = Some st ->
  ((forall r' st', 1 <= r' <= r -> stats !! r' = Some st' -> Sync.storable st' = true) ->
   player_stats (snd (Sync.updateAllPlayerStats upstream now d)) !! (Players.id p, r)
   = Some {| PlayerStats.goals := NhlApi.goals st;
             PlayerStats.assists := NhlApi.assists st;
             PlayerStats.wins := NhlApi.wins st;
             PlayerStats.shutouts := NhlApi.shutouts st;
             PlayerStats.games_played := NhlApi.gamesPlayed st;
             PlayerStats.updated_at := now |})
  /\ (forall r' st', 1 <= r' <= r -> stats !! r' = Some st' -> Sync.storable st' = false ->
        player_stats (snd (Sync.updateAllPlayerStats upstream now d)) !! (Players.id p, r)
        = player_stats d !! (Players.id p, r)).
Proof.
  intros Hnd Hp Hact Hgl Hstats Hr Hst.
  rewrite (run_lookup_player upstream now d p gl stats r Hnd Hp Hact Hgl Hstats).
  destruct (parseGameLogStats_total gl (bool_decide (Players.position_ p = goalie)))
    as (stats' & Hstats' & Hhas).
  rewrite Hstats in Hstats'. injection Hstats' as <-.
  destruct (written_round (Players.id p) stats now r st Hhas Hr Hst) as [Hyes Hno].
  destruct Hhas as ([s1 H1] & [s2 H2] & [s3 H3]).
  split.
  - intros Hfit. rewrite Hyes; [reflexivity|].
    destruct Hr as [->|[->| ->]];
      match goal with
      | |- context [filter ?P ?l] =>
          let l' := eval vm_compute in (filter P l) in
          change (filter P l) with l'
      end;
      cbn [storable_rounds forallb]; rewrite ?H1, ?H2, ?H3;
      rewrite ?(Hfit 1 s1), ?(Hfit 2 s2), ?(Hfit 3 s3) by (try lia; assumption);
      reflexivity.
  - intros r' st' Hr' Hst' Hbad. rewrite Hno; [reflexivity|].
    assert (Hcase : r' = 1 \/ r' = 2 \/ r' = 3) by lia.
    destruct Hr as [->|[->| ->]];
      match goal with
      | |- context [filter ?P ?l] =>
          let l' := eval vm_compute in (filter P l) in
          change (filter P l) with l'
      end;
      cbn [storable_rounds forallb]; rewrite ?H1, ?H2, ?H3;
      destruct Hcase as [->|[->| ->]]; try lia;
      rewrite ?H1, ?H2, ?H3 in Hst'; injection Hst' as <-; rewrite Hbad;
      rewrite ?andb_false_r; reflexivity.
Qed.

Lemma sync_stores_aggregate_witness :
  player_stats (snd (Sync.updateAllPlayerStats Demo.one_game 2000 (Demo.pool true [1; 4; 6]%N)))
    !! (1%N, 1)
  = Some {| PlayerStats.goals := 1; PlayerStats.assists := 1; PlayerStats.wins := 0;
            PlayerStats.shutouts := 0; PlayerStats.games_played := 1;
            PlayerStats.updated_at := 2000 |}
  /\ player_stats (snd (Sync.updateAllPlayerStats Demo.flood 2000 (Demo.pool true [1; 4; 6]%N)))
       !! (1%N, 1)
     = Some (Demo.snapshot 1 1 0 0 1).
Proof.
  assert (Hnd : NoDup (map Players.id
                         (filter (fun p => Players.is_active p = true)
                                 (players (Demo.pool true [1; 4; 6]%N)))))
    by (apply (bool_decide_unpack _); vm_compute; exact I).
  assert (Hin : Demo.player 1 "EDM" forward 3 ∈ players (Demo.pool true [1; 4; 6]%N))
    by left.
  split.
  - apply (proj1 (sync_stores_aggregate Demo.one_game 2000 (Demo.pool true [1; 4; 6]%N)
             (Demo.player 1 "EDM" forward 3)
             (Some [ {| Game.gameId := Js.Num 2025031111; Game.decision := None;
                        Game.shutouts := None; Game.goalsAgainst := None;
                        Game.goals := Some 1; Game.assists := Some 1 |} ])
             (<[1 := {| NhlApi.goals := 1; NhlApi.assists := 1; NhlApi.wins := 0;
                        NhlApi.shutouts := 0; NhlApi.gamesPlayed := 1 |}]> NhlApi.initial)
             1
             {| NhlApi.goals := 1; NhlApi.assists := 1; NhlApi.wins := 0;
                NhlApi.shutouts := 0; NhlApi.gamesPlayed := 1 |}
             Hnd Hin eq_refl eq_refl eq_refl (or_introl eq_refl) eq_refl)).
    intros r' st' Hr' Hst'. assert (r' = 1) as -> by lia.
    injection Hst' as <-. reflexivity.
  - refine (eq_trans
              (proj2 (sync_stores_aggregate Demo.flood 2000 (Demo.pool true [1; 4; 6]%N)
                 (Demo.player 1 "EDM" forward 3)
                 (Some [ {| Game.gameId := Js.Num 2025031111; Game.decision := None;
                            Game.shutouts := None; Game.goalsAgainst := None;
                            Game.goals := Some 3000000000; Game.assists := Some 1 |} ])
                 (<[1 := {| NhlApi.goals := 3000000000; NhlApi.assists := 1;
                            NhlApi.wins := 0; NhlApi.shutouts := 0;
                            NhlApi.gamesPlayed := 1 |}]> NhlApi.initial)
                 1
                 {| NhlApi.goals := 3000000000; NhlApi.assists := 1; NhlApi.wins := 0;
                    NhlApi.shutouts := 0; NhlApi.gamesPlayed := 1 |}
                 Hnd Hin eq_refl eq_refl eq_refl (or_introl eq_refl) eq_refl)
                 1 _ _ eq_refl eq_refl) _).
    + lia.
    + reflexivity.
Defined.

(** X7. What a run leaves alone: a snapshot whose player is not an active
    player with a fetched log keeps its values and its timestamp, and so
    does every snapshot of a round other than 1, 2 and 3. *)
Theorem sync_frame (upstream : Z -> Sync.reply) (now : timestamp) (d : db) :
  (forall pid r,
     (forall p, p ∈ players d -> Players.is_active p = true ->
                is_Some (Sync.getPlayerGameLog upstream (Players.nhl_id p)) ->
                Players.id p <> pid) ->
     player_stats (snd (Sync.updateAllPlayerStats upstream now d)) !! (pid, r)
     = player_stats d !! (pid, r))
  /\ (forall pid r, r <> 1 -> r <> 2 -> r <> 3 ->
        player_stats (snd (Sync.updateAllPlayerStats upstream now d)) !! (pid, r)
        = player_stats d !! (pid, r)).
Proof.
  split.
  - intros pid r Hno. apply run_lookup_frame. intros p Hp Hact Hf Hid.
    exfalso. exact (Hno p Hp Hact Hf Hid).
  - intros pid r H1 H2 H3. apply run_lookup_frame. intros. cbn. auto.
Qed.

Lemma sync_frame_witness :
  player_stats (snd (Sync.updateAllPlayerStats Demo.quiet 2000 (Demo.pool true [1; 4; 6]%N)))
    !! (77%N, 1) = None
  /\ player_stats (snd (Sync.updateAllPlayerStats Demo.quiet 2000 (Demo.pool true [1; 4; 6]%N)))
       !! (1%N, 0) = None.
Proof.
  destruct (sync_frame Demo.quiet 2000 (Demo.pool true [1; 4; 6]%N)) as [H1 H2].
  split.
  - rewrite H1; [reflexivity|].
    intros p Hp _ _. apply list_elem_of_In in Hp. simpl in Hp.
    repeat (destruct Hp as [<-|Hp]; [discriminate|]). destruct Hp.
  - rewrite H2 by discriminate. reflexivity.
Defined.

(** X8. A 404 is an empty log, a failure is no log: when the active players
    have distinct ids, a run overwrites the three snapshots of an active
    player the upstream does not know with zeros, whatever they held, and
    leaves every snapshot of an active player whose fetch failed as it
    was. *)
Theorem sync_not_found_or_failed (upstream : Z -> Sync.reply) (now : timestamp) (d : db)
    (p : Players.row) :
  NoDup (map Players.id (filter (fun p => Players.is_active p = true) (players d))) ->
  p ∈ players d -> Players.is_active p = true ->
  (upstream (Players.nhl_id p) = Sync.NotFound ->
   forall r, r = 1 \/ r = 2 \/ r = 3 ->
     player_stats (snd (Sync.updateAllPlayerStats upstream now d)) !! (Players.id p, r)
     = Some {| PlayerStats.goals := 0; PlayerStats.assists := 0; PlayerStats.wins := 0;
               PlayerStats.shutouts := 0; PlayerStats.games_played := 0;
               PlayerStats.updated_at := now |})
  /\ (upstream (Players.nhl_id p) = Sync.Failure ->
      forall r,
        player_stats (snd (Sync.updateAllPlayerStats upstream now d)) !! (Players.id p, r)
        = player_stats d !! (Players.id p, r)).
Proof.
  intros Hnd Hp Hact. split.
  - intros H404 r Hr.
    rewrite (run_lookup_player upstream now d p (Some []) NhlApi.initial r Hnd Hp Hact);
      [|unfold Sync.getPlayerGameLog; rewrite H404; reflexivity|reflexivity].
    destruct (written_round (Players.id p) NhlApi.initial now r NhlApi.zero
                initial_has_rounds Hr (initial_lookup r Hr)) as [Hyes _].
    rewrite Hyes; [reflexivity|].
    destruct Hr as [->|[->| ->]]; reflexivity.
  - intros Hfail r. apply run_lookup_frame. intros q Hq Hqact Hqf Hid. exfalso.
    assert (Heq : q = p).
    { apply (NoDup_map_eq Players.id
               (filter (fun p => Players.is_active p = true) (players d))); try assumption.
      - apply list_elem_of_filter. split; assumption.
      - apply list_elem_of_filter. split; assumption. }
    subst q. unfold Sync.getPlayerGameLog in Hqf. rewrite Hfail in Hqf.
    destruct Hqf as [x Hx]. discriminate.
Qed.

Lemma sync_not_found_or_failed_witness :
  player_stats (snd (Sync.updateAllPlayerStats Demo.quiet 2000 (Demo.pool true [1; 4; 6]%N)))
    !! (6%N, 1)
  = Some {| PlayerStats.goals := 0; PlayerStats.assists := 0; PlayerStats.wins := 0;
            PlayerStats.shutouts := 0; PlayerStats.games_played := 0;
            PlayerStats.updated_at := 2000 |}
  /\ player_stats (snd (Sync.updateAllPlayerStats (fun _ => Sync.Failure) 2000
                         (Demo.pool true [1; 4; 6]%N))) !! (6%N, 1)
     = Some (Demo.snapshot 0 0 1 1 1).
Proof.
  assert (Hnd : NoDup (map Players.id
                         (filter (fun p => Players.is_active p = true)
                                 (players (Demo.pool true [1; 4; 6]%N)))))
    by (apply (bool_decide_unpack _); vm_compute; exact I).
  assert (Hin : Demo.player 6 "EDM" goalie 2 ∈ players (Demo.pool true [1; 4; 6]%N))
    by (do 5 right; left).
  split.
  - apply (proj1 (sync_not_found_or_failed Demo.quiet 2000 (Demo.pool true [1; 4; 6]%N)
                    (Demo.player 6 "EDM" goalie 2) Hnd Hin eq_refl) eq_refl 1).
    left. reflexivity.
  - refine (eq_trans (proj2 (sync_not_found_or_failed (fun _ => Sync.Failure) 2000
                               (Demo.pool true [1; 4; 6]%N)
                               (Demo.player 6 "EDM" goalie 2) Hnd Hin eq_refl)
                        eq_refl 1) _).
    reflexivity.
Defined.

(** ** The eliminated teams *)

Lemma mark_lookup (r : option Z) (a : string) (teams : list Bracket.team) (i : nat) :
  Bracket.mark r a teams !! i
  = (fun t => if bool_decide (Bracket.team_abbrev t = a)
              then {| Bracket.team_abbrev := Bracket.team_abbrev t;
                      Bracket.is_eliminated := true;
                      Bracket.eliminated_round := r |}
              else t) <$> teams !! i.
Proof. unfold Bracket.mark. apply list_lookup_fmap. Qed.

(** The row of a team after the bracket was processed: untouched when no
    series names the team, and otherwise eliminated, with the round of the
    last series that names it. *)
Lemma eliminated_row (l : list Bracket.series) (teams : list Bracket.team) (i : nat) :
  foldl Bracket.step teams l !! i
  = (fun t => match last (naming (Bracket.team_abbrev t) l) with
              | Some s => {| Bracket.team_abbrev := Bracket.team_abbrev t;
                             Bracket.is_eliminated := true;
                             Bracket.eliminated_round := Bracket.round s |}
              | None => t
              end) <$> teams !! i.
Proof.
  revert teams. induction l as [|s l IH] using rev_ind; intros teams.
  - cbn. destruct (teams !! i); reflexivity.
  - rewrite foldl_app. cbn [foldl]. unfold Bracket.step at 1.
    assert (Hnaming : forall a,
              naming a (l ++ [s])
              = naming a l ++ (if bool_decide (Bracket.decided s = true
                                               /\ Bracket.losingTeam s = Some a)
                               then [s] else [])).
    { intros a. unfold naming. rewrite filter_app. f_equal.
      rewrite filter_cons, filter_nil.
      destruct (decide _) as [H|H].
      - rewrite bool_decide_eq_true_2 by exact H. reflexivity.
      - rewrite bool_decide_eq_false_2 by exact H. reflexivity. }
    destruct (Bracket.decided s) eqn:Hd.
    + destruct (Bracket.losingTeam s) as [a|] eqn:Hl.
      * rewrite mark_lookup, IH. destruct (teams !! i) as [t|]; [|reflexivity].
        cbn [fmap option_fmap option_map]. f_equal. rewrite Hnaming.
        destruct (last (naming (Bracket.team_abbrev t) l)) as [s0|] eqn:Hlast;
          cbn [Bracket.team_abbrev].
        -- destruct (decide (Bracket.team_abbrev t = a)) as [->|Hne].
           ++ rewrite !bool_decide_eq_true_2 by auto. rewrite last_snoc. reflexivity.
           ++ rewrite (bool_decide_eq_false_2 (Bracket.team_abbrev t = a)) by exact Hne.
              rewrite bool_decide_eq_false_2 by (intros [_ [= Heq]]; congruence).
              rewrite app_nil_r, Hlast. reflexivity.
        -- destruct (decide (Bracket.team_abbrev t = a)) as [->|Hne].
           ++ rewrite !bool_decide_eq_true_2 by auto. rewrite last_snoc. reflexivity.
           ++ rewrite (bool_decide_eq_false_2 (Bracket.team_abbrev t = a)) by exact Hne.
              rewrite bool_decide_eq_false_2 by (intros [_ [= Heq]]; congruence).
              rewrite app_nil_r, Hlast. reflexivity.
      * rewrite IH. destruct (teams !! i) as [t|]; [|reflexivity].
        cbn [fmap option_fmap option_map]. f_equal. rewrite Hnaming.
        rewrite bool_decide_eq_false_2 by (intros [_ [=]]).
        rewrite app_nil_r. reflexivity.
    + rewrite IH. destruct (teams !! i) as [t|]; [|reflexivity].
      cbn [fmap option_fmap option_map]. f_equal. rewrite Hnaming.
      rewrite bool_decide_eq_false_2 by (intros [[=] _]).
      rewrite app_nil_r. reflexivity.
Qed.

(** X9. Eliminations are only ever added: processing a bracket keeps the
    teams and their order, never clears an elimination, and changes the row
    of a team only if a decided series of the bracket names it; a failed
    request and a bracket without series change nothing. *)
Theorem eliminations_only_added (bracket : Bracket.reply) (teams : list Bracket.team) :
  length (Bracket.updateEliminatedTeams bracket teams) = length teams
  /\ (forall i t, teams !! i = Some t ->
        exists t', Bracket.updateEliminatedTeams bracket teams !! i = Some t'
                   /\ Bracket.team_abbrev t' = Bracket.team_abbrev t
                   /\ (Bracket.is_eliminated t = true -> Bracket.is_eliminated t' = true)
                   /\ (t' <> t ->
                       exists l s, bracket = Bracket.Body (Some l) /\ s ∈ l
                                   /\ Bracket.decided s = true
                                   /\ Bracket.losingTeam s
                                      = Some (Bracket.team_abbrev t)))
  /\ (bracket = Bracket.Failure \/ bracket = Bracket.Body None ->
      Bracket.updateEliminatedTeams bracket teams = teams).
Proof.
  split; [|split].
  - destruct bracket as [[l|]|]; cbn [Bracket.updateEliminatedTeams]; try reflexivity.
    revert teams. induction l as [|s l IH]; intros teams; [reflexivity|].
    cbn [foldl]. rewrite IH. unfold Bracket.step.
    destruct (Bracket.decided s); [|reflexivity].
    destruct (Bracket.losingTeam s); [|reflexivity].
    unfold Bracket.mark. apply length_map.
  - intros i t Ht.
    destruct bracket as [[l|]|]; cbn [Bracket.updateEliminatedTeams];
      try (exists t; repeat split; [assumption|auto|congruence]).
    rewrite eliminated_row, Ht. cbn [fmap option_fmap option_map].
    eexists. split; [reflexivity|].
    destruct (last (naming (Bracket.team_abbrev t) l)) as [s|] eqn:Hlast.
    + cbn [Bracket.team_abbrev Bracket.is_eliminated].
      split; [reflexivity|]. split; [reflexivity|].
      intros _. exists l, s. split; [reflexivity|].
      apply last_Some_elem_of in Hlast. unfold naming in Hlast.
      apply list_elem_of_filter in Hlast. tauto.
    + split; [reflexivity|]. split; [auto|]. congruence.
  - intros [->| ->]; reflexivity.
Qed.

Lemma eliminations_only_added_witness :
  Bracket.updateEliminatedTeams Bracket.Failure
    [ {| Bracket.team_abbrev := "EDM"; Bracket.is_eliminated := true;
         Bracket.eliminated_round := Some 1 |} ]
  = [ {| Bracket.team_abbrev := "EDM"; Bracket.is_eliminated := true;
         Bracket.eliminated_round := Some 1 |} ].
Proof.
  apply (proj2 (proj2 (eliminations_only_added Bracket.Failure
                         [ {| Bracket.team_abbrev := "EDM"; Bracket.is_eliminated := true;
                              Bracket.eliminated_round := Some 1 |} ]))).
  left. reflexivity.
Defined.



(** ** The save handler, case by case *)

Lemma insert_players_Some (rid : uuid) (stars ids : list uuid) (d d' : db) :
  Rosters.insert_players rid stars d ids = Some d' ->
  d' = set_roster_players (fun l => l ++ map (selection rid stars) ids) d.
Proof.
  revert d. induction ids as [|i ids IH]; intros d H.
  - cbn in H. injection H as <-. destruct d. unfold set_roster_players. cbn.
    rewrite app_nil_r. reflexivity.
  - cbn [Rosters.insert_players] in H. unfold Rosters.insert_player in H.
    destruct (_ && _); [|discriminate]. cbn [mbind option_bind] in H.
    apply IH in H. rewrite H. unfold set_roster_players.
    cbn [users teams players player_stats rosters roster_players tiebreakers settings
         stat_update_log rounds team_qualifications map].
    rewrite <- app_assoc. reflexivity.
Qed.

Lemma insert_players_is_Some (rid : uuid) (stars ids : list uuid) (d : db) :
  is_Some (Rosters.insert_players rid stars d ids)
  <-> NoDup ids
      /\ (forall i, i ∈ ids ->
             i ∈ map Players.id (players d)
             /\ (rid, i) ∉ selection_keys (roster_players d)).
Proof.
  revert d. induction ids as [|i ids IH]; intros d.
  - cbn. split; [intros _|intros _; eexists; reflexivity].
    split; [constructor|]. intros i Hi. apply elem_of_nil in Hi. contradiction.
  - cbn [Rosters.insert_players]. unfold Rosters.insert_player.
    fold (selection_keys (roster_players d)).
    destruct (decide (i ∈ map Players.id (players d))) as [Hex|Hex];
      [rewrite (bool_decide_eq_true_2 _ Hex)|rewrite (bool_decide_eq_false_2 _ Hex)].
    2:{ cbn. split; [intros [x Hx]; discriminate|].
        intros [_ Hall]. exfalso. apply Hex. apply Hall. left. }
    destruct (decide ((rid, i) ∈ selection_keys (roster_players d))) as [Hdup|Hdup];
      [rewrite (bool_decide_eq_true_2 _ Hdup)|rewrite (bool_decide_eq_false_2 _ Hdup)].
    1:{ cbn. split; [intros [x Hx]; discriminate|].
        intros [_ Hall]. exfalso. apply (Hall i); [left|exact Hdup]. }
    cbn [andb negb mbind option_bind]. rewrite IH.
    cbn [players roster_players set_roster_players].
    unfold selection_keys. rewrite map_app. cbn [map RosterPlayers.roster_id
                                                    RosterPlayers.player_id].
    fold (selection_keys (roster_players d)).
    rewrite NoDup_cons. split.
    + intros [Hnd Hall]. split.
      * split; [|exact Hnd]. intros Hin. destruct (Hall i Hin) as [_ Hn].
        apply Hn. apply elem_of_app. right. left.
      * intros j Hj. apply elem_of_cons in Hj as [->|Hj]; [split; assumption|].
        destruct (Hall j Hj) as [H1 H2]. split; [exact H1|].
        intros Hk. apply H2. apply elem_of_app. left. exact Hk.
    + intros [[Hni Hnd] Hall]. split; [exact Hnd|].
      intros j Hj. destruct (Hall j ltac:(right; exact Hj)) as [H1 H2].
      split; [exact H1|]. intros Hk. apply elem_of_app in Hk as [Hk|Hk]; [auto|].
      apply list_elem_of_singleton in Hk. injection Hk as ->. auto.
Qed.

Lemma cleared_keys (rid : uuid) (d : db) (i : uuid) :
  (rid, i) ∉ selection_keys (roster_players (Rosters.clear rid d)).
Proof.
  unfold Rosters.clear, selection_keys. cbn [roster_players set_roster_players].
  intros Hin. apply list_elem_of_In, in_map_iff in Hin as (rp & Heq & Hrp).
  apply list_elem_of_In, list_elem_of_filter in Hrp as [Hne _].
  injection Heq as Heq _. contradiction.
Qed.

Lemma validate_frame (d d' : db) (ids : list uuid) (round : Z) :
  players d' = players d -> team_qualifications d' = team_qualifications d ->
  Rosters.validate d' ids round = Rosters.validate d ids round.
Proof.
  intros Hp Hq. unfold Rosters.validate, Rosters.total_cost, Rosters.invalid_count,
    Rosters.qualified_teams. rewrite Hp, Hq. reflexivity.
Qed.

Lemma validate_cleared (d : db) (user fresh : uuid) (round : Z) (ids : list uuid) :
  Rosters.validate
    (Rosters.clear (fst (Rosters.get_or_create d user round fresh))
                   (snd (Rosters.get_or_create d user round fresh))) ids round
  = Rosters.validate d ids round.
Proof.
  apply validate_frame; unfold Rosters.clear;
    cbn [players team_qualifications set_roster_players];
    apply players_get_or_create.
Qed.

(** The outcome of a save on a valid round that is not locked, from the
    database the request found. *)
Lemma save_decided (d : db) (user fresh : uuid) (now : timestamp) (round : Z)
    (b : Body.t) (sel : Selections.t) (dl : timestamp) :
  1 <= round <= 3 -> pick_deadline_of d round = Some dl -> now <= dl ->
  Body.selections b = Some sel ->
  let rid := fst (Rosters.get_or_create d user round fresh) in
  let d1 := snd (Rosters.get_or_create d user round fresh) in
  Rosters.save d user fresh now round b =
  match Rosters.validate d (collect sel) round with
  | Some rejection => (rejection, d)
  | None =>
      if bool_decide (NoDup (collect sel)
                      /\ Forall (fun i => i ∈ map Players.id (players d)) (collect sel))
      then (Rosters.Saved rid,
            save_tiebreakers user round (Body.tiebreakers b)
              (set_roster_players
                 (fun l => l ++ map (selection rid (default [] (Body.stars b)))
                                    (collect sel))
                 (Rosters.clear rid d1)))
      else (Rosters.ServerError, d)
  end.
Proof.
  intros Hr Hdl Hnow Hsel rid d1.
  rewrite (save_open d user fresh now round b dl Hr Hdl Hnow), Hsel. cbn zeta.
  rewrite validate_cleared. fold rid d1.
  destruct (Rosters.validate d (collect sel) round); [reflexivity|].
  pose proof (insert_players_is_Some rid (default [] (Body.stars b)) (collect sel)
                (Rosters.clear rid d1)) as Hiff.
  assert (Hplayers : players (Rosters.clear rid d1) = players d).
  { unfold Rosters.clear. cbn [players set_roster_players]. apply players_get_or_create. }
  rewrite Hplayers in Hiff.
  destruct (Rosters.insert_players _ _ _ _) as [d3|] eqn:Hins.
  - rewrite bool_decide_eq_true_2.
    + apply insert_players_Some in Hins. rewrite Hins. reflexivity.
    + destruct Hiff as [Hiff _]. destruct (Hiff ltac:(eexists; reflexivity)) as [Hnd Hall].
      split; [exact Hnd|]. apply Forall_forall. intros i Hi. apply Hall. exact Hi.
  - rewrite bool_decide_eq_false_2; [reflexivity|].
    intros [Hnd Hall]. destruct Hiff as [_ Hiff]. rewrite Forall_forall in Hall.
    destruct Hiff as [x Hx]; [|discriminate].
    split; [exact Hnd|]. intros i Hi. split; [apply Hall; exact Hi|apply cleared_keys].
Qed.

Lemma invalid_count_pos (d : db) (ids : list uuid) (round : Z) :
  0 < Rosters.invalid_count d ids round
  <-> exists p, p ∈ players d /\ Players.id p ∈ ids
                /\ Players.team_abbrev p ∉ Rosters.qualified_teams d round.
Proof.
  unfold Rosters.invalid_count.
  destruct (filter _ (players d)) as [|p l] eqn:Hf.
  - cbn. split; [lia|]. intros (p & Hp & Hid & Hq). exfalso.
    assert (Hin : p ∈ filter (fun p => Players.id p ∈ ids
                                       ∧ Players.team_abbrev p
                                         ∉ Rosters.qualified_teams d round) (players d))
      by (apply list_elem_of_filter; auto).
    rewrite Hf in Hin. apply elem_of_nil in Hin. exact Hin.
  - split; [intros _|cbn [length]; lia].
    assert (Hin : p ∈ filter (fun p => Players.id p ∈ ids
                                       ∧ Players.team_abbrev p
                                         ∉ Rosters.qualified_teams d round) (players d))
      by (rewrite Hf; left).
    apply list_elem_of_filter in Hin as [[H1 H2] H3]. exists p. auto.
Qed.

(** The three answers of the two checks. *)
Lemma validate_cases (d : db) (ids : list uuid) (round : Z) :
  (Rosters.validate d ids round = Some Rosters.OverCap
   /\ 30 < Rosters.total_cost d ids)
  \/ (Rosters.validate d ids round = Some Rosters.NotQualified
      /\ Rosters.total_cost d ids <= 30
      /\ exists p, p ∈ players d /\ Players.id p ∈ ids
                   /\ Players.team_abbrev p ∉ Rosters.qualified_teams d round)
  \/ (Rosters.validate d ids round = None
      /\ Rosters.total_cost d ids <= 30
      /\ forall p, p ∈ players d -> Players.id p ∈ ids ->
                   Players.team_abbrev p ∈ Rosters.qualified_teams d round).
Proof.
  unfold Rosters.validate, Rosters.SALARY_CAP.
  destruct ids as [|i ids].
  - right. right. rewrite bool_decide_eq_false_2 by auto.
    split; [reflexivity|]. rewrite total_cost_nil. split; [lia|].
    intros p _ Hin. apply elem_of_nil in Hin. contradiction.
  - rewrite bool_decide_eq_true_2 by discriminate.
    destruct (Z.ltb_spec 30 (Rosters.total_cost d (i :: ids))) as [Hover|Hle];
      [left; split; [reflexivity|exact Hover]|].
    right. pose proof (invalid_count_pos d (i :: ids) round) as Hpos.
    destruct (Z.ltb_spec 0 (Rosters.invalid_count d (i :: ids) round)) as [Hinv|Hinv].
    + left. split; [reflexivity|]. split; [exact Hle|]. apply Hpos. exact Hinv.
    + right. split; [reflexivity|]. split; [exact Hle|].
      intros p Hp Hid.
      destruct (decide (Players.team_abbrev p ∈ Rosters.qualified_teams d round))
        as [Hq|Hq]; [exact Hq|].
      exfalso. assert (0 < Rosters.invalid_count d (i :: ids) round); [|lia].
      apply Hpos. exists p. auto.
Qed.

Lemma save_Saved_open (d : db) (user fresh : uuid) (now : timestamp) (round : Z)
    (b : Body.t) (rid : uuid) :
  fst (Rosters.save d user fresh now round b) = Rosters.Saved rid ->
  1 <= round <= 3
  /\ (exists dl, pick_deadline_of d round = Some dl /\ now <= dl)
  /\ exists sel, Body.selections b = Some sel.
Proof.
  unfold Rosters.save.
  destruct (Z.ltb_spec round 1); [discriminate|].
  destruct (Z.ltb_spec 3 round); [discriminate|]. cbn [orb].
  destruct (pick_deadline_of d round) as [dl|]; [|discriminate].
  destruct (Z.ltb_spec dl now); [discriminate|].
  destruct (Rosters.get_or_create d user round fresh) as [rid' d1].
  destruct (Body.selections b) as [sel|]; [|discriminate].
  intros _. split; [lia|]. split; [exists dl; split; [reflexivity|lia]|].
  exists sel. reflexivity.
Qed.

(** X11. A save is all or nothing: whenever the answer is not 'Roster
    saved', the database is exactly the one the request found (no roster
    created, no selection deleted, no tiebreaker written). *)
Theorem save_all_or_nothing (d : db) (user fresh : uuid) (now : timestamp) (round : Z)
    (b : Body.t) :
  (forall rid, fst (Rosters.save d user fresh now round b) <> Rosters.Saved rid) ->
  snd (Rosters.save d user fresh now round b) = d.
Proof.
  unfold Rosters.save.
  destruct ((round <? 1) || (3 <? round)); [reflexivity|].
  destruct (pick_deadline_of d round) as [dl|]; [|reflexivity].
  destruct (dl <? now); [reflexivity|].
  destruct (Rosters.get_or_create d user round fresh) as [rid d1].
  destruct (Body.selections b) as [sel|]; [|reflexivity].
  destruct (Rosters.validate _ _ _); [reflexivity|].
  destruct (Rosters.insert_players _ _ _ _); [|reflexivity].
  intros Hno. exfalso. exact (Hno rid eq_refl).
Qed.

Lemma save_all_or_nothing_witness :
  snd (Rosters.save (Demo.pool false [1; 4; 6]%N) 2%N 999%N 900 1
         (Demo.body [1; 2; 3] [4; 5] [6] [13; 8; 9] [10; 11] [12] [1; 4; 6])%N)
  = Demo.pool false [1; 4; 6]%N.
Proof.
  apply save_all_or_nothing. intros rid. vm_compute. discriminate.
Defined.

(** X12. An accepted save replaces the selection set: the selections of the
    roster are then exactly the players collected from the request, in the
    order western forwards, defense, goalies, eastern forwards, defense,
    goalies, each starred iff its id is among the star ids; the selections
    of every other roster are kept; and the roster is the user's roster for
    the round, created unsubmitted if there was none. *)
Theorem save_replaces_selections (d d' : db) (user fresh : uuid) (now : timestamp)
    (round : Z) (b : Body.t) (sel : Selections.t) (rid : uuid) :
  Rosters.save d user fresh now round b = (Rosters.Saved rid, d') ->
  Body.selections b = Some sel ->
  roster_players d'
  = filter (fun rp => RosterPlayers.roster_id rp ≠ rid) (roster_players d)
    ++ map (selection rid (default [] (Body.stars b))) (collect sel)
  /\ match roster_of d user round with
     | Some r => rid = Rosters_.id r /\ rosters d' = rosters d
     | None =>
         rid = fresh
         /\ rosters d'
            = rosters d ++ [ {| Rosters_.id := fresh; Rosters_.user_id := user;
                                Rosters_.round := round; Rosters_.is_submitted := false;
                                Rosters_.submitted_at := None |} ]
     end.
Proof.
  intros Hsave Hsel.
  destruct (save_Saved_open d user fresh now round b rid) as (Hr & (dl & Hdl & Hnow) & _).
  { rewrite Hsave. reflexivity. }
  rewrite (save_decided d user fresh now round b sel dl Hr Hdl Hnow Hsel) in Hsave.
  destruct (validate_cases d (collect sel) round) as [[Hv _]|[[Hv _]|[Hv _]]];
    rewrite Hv in Hsave; try discriminate.
  destruct (bool_decide _); [|discriminate].
  injection Hsave as <- <-.
  rewrite roster_players_save_tiebreakers.
  assert (Hrosters : forall tb x, rosters (save_tiebreakers user round tb x) = rosters x)
    by (intros [[q1 q2]|] x; reflexivity).
  rewrite Hrosters.
  unfold Rosters.clear. cbn [roster_players rosters set_roster_players].
  destruct (players_get_or_create d user round fresh) as (_ & -> & _).
  split; [reflexivity|].
  unfold Rosters.get_or_create. destruct (roster_of d user round); cbn; auto.
Qed.

Lemma save_replaces_selections_witness :
  roster_players
    (snd (Rosters.save (Demo.pool false [1; 4; 6]%N) 1%N 999%N 900 1
            (Demo.body [1] [] [] [] [] [] [1])%N))
  = [ selection 100 [1%N] 1 ].
Proof.
  refine (eq_trans
            (proj1 (save_replaces_selections (Demo.pool false [1; 4; 6]%N) _ 1%N 999%N 900 1
                      (Demo.body [1] [] [] [] [] [] [1])%N _ 100%N _ eq_refl)) _).
  - vm_compute. reflexivity.
  - vm_compute. reflexivity.
Defined.

(** X13. What an accepted save guarantees about the selection: no player
    is selected twice, every selected id is the id of a player, the costs of
    the selected players sum to at most 30, and every selected player plays
    for a team qualified for the round. *)
Theorem saved_selection_valid (d d' : db) (user fresh : uuid) (now : timestamp)
    (round : Z) (b : Body.t) (sel : Selections.t) (rid : uuid) :
  Rosters.save d user fresh now round b = (Rosters.Saved rid, d') ->
  Body.selections b = Some sel ->
  NoDup (collect sel)
  /\ (forall i, i ∈ collect sel -> exists p, p ∈ players d /\ Players.id p = i)
  /\ Rosters.total_cost d (collect sel) <= 30
  /\ (forall p, p ∈ players d -> Players.id p ∈ collect sel ->
                Players.team_abbrev p ∈ Rosters.qualified_teams d round).
Proof.
  intros Hsave Hsel.
  destruct (save_Saved_open d user fresh now round b rid) as (Hr & (dl & Hdl & Hnow) & _).
  { rewrite Hsave. reflexivity. }
  rewrite (save_decided d user fresh now round b sel dl Hr Hdl Hnow Hsel) in Hsave.
  destruct (validate_cases d (collect sel) round) as [[Hv _]|[[Hv _]|(Hv & Hcost & Hq)]];
    rewrite Hv in Hsave; try discriminate.
  destruct (bool_decide _) eqn:Hok; [|discriminate].
  apply bool_decide_eq_true in Hok as [Hnd Hall]. rewrite Forall_forall in Hall.
  split; [exact Hnd|]. split; [|split; assumption].
  intros i Hi. specialize (Hall i Hi).
  apply list_elem_of_In, in_map_iff in Hall as (p & Hid & Hp).
  exists p. split; [apply list_elem_of_In; exact Hp|exact Hid].
Qed.

Lemma saved_selection_valid_witness :
  Rosters.total_cost (Demo.pool false [1; 4; 6]%N)
    (collect {| Selections.western := Some {| Selections.forwards := Some [1; 2; 3]%N;
                                              Selections.defense := Some [4; 5]%N;
                                              Selections.goalies := Some [6]%N |};
                Selections.eastern := None |}) <= 30.
Proof.
  refine (proj1 (proj2 (proj2
    (saved_selection_valid (Demo.pool false [1; 4; 6]%N) _ 1%N 999%N 900 1
       {| Body.selections :=
            Some {| Selections.western := Some {| Selections.forwards := Some [1; 2; 3]%N;
                                                  Selections.defense := Some [4; 5]%N;
                                                  Selections.goalies := Some [6]%N |};
                    Selections.eastern := None |};
          Body.stars := None; Body.tiebreakers := None |}
       _ 100%N _ eq_refl)))).
  vm_compute. reflexivity.
Defined.



(** X15. When both checks pass, on a valid round that is not locked, the
    save is accepted exactly when no player is selected twice, every
    selected id is the id of a player, and the database accepts the roster
    and the answers (the user holds a roster for the round or has a row in
    [users]; the answers sent, if any, are those of a user with a row and
    fit their columns). Otherwise a statement is refused, the answer is the
    server error and the database is left as the request found it. *)
Theorem save_duplicate_or_unknown (d : db) (user fresh : uuid) (now : timestamp)
    (round : Z) (b : Body.t) (sel : Selections.t) (dl : timestamp) :
  1 <= round <= 3 -> pick_deadline_of d round = Some dl -> now <= dl ->
  Body.selections b = Some sel ->
  Rosters.validate d (collect sel) round = None ->
  (NoDup (collect sel) /\ (forall i, i ∈ collect sel -> i ∈ map Players.id (players d))
   /\ writable d user round (Body.tiebreakers b) ->
   exists rid d', Rosters.put d user fresh now round b = (Rosters.Saved rid, d'))
  /\ (~ (NoDup (collect sel)
         /\ (forall i, i ∈ collect sel -> i ∈ map Players.id (players d))
         /\ writable d user round (Body.tiebreakers b)) ->
      Rosters.put d user fresh now round b = (Rosters.ServerError, d)).
Proof.
  intros Hr Hdl Hnow Hsel Hv.
  rewrite (put_save d user fresh now round b dl Hr Hdl Hnow).
  rewrite (save_decided d user fresh now round b sel dl Hr Hdl Hnow Hsel), Hv.
  pose proof (writable_accepted d user fresh round (Body.tiebreakers b)) as Hw.
  split.
  - intros (Hnd & Hall & Hok). apply Hw in Hok as [[x ->] [y ->]].
    rewrite bool_decide_eq_true_2.
    + eexists _, _. reflexivity.
    + split; [exact Hnd|]. apply Forall_forall. exact Hall.
  - intros Hno.
    destruct (Rosters.find_or_insert _ _ _ _) as [x|] eqn:Hx; [|reflexivity].
    destruct (bool_decide _) eqn:Hok; [|reflexivity].
    destruct (Rosters.upsert_tiebreakers _ _ _ _) as [y|] eqn:Hy; [|reflexivity].
    exfalso. apply Hno. apply bool_decide_eq_true in Hok as [Hnd Hall].
    split; [exact Hnd|]. split; [apply Forall_forall; exact Hall|].
    apply Hw. split; eexists; reflexivity.
Qed.

Lemma save_duplicate_or_unknown_witness :
  Rosters.put (Demo.pool false [1; 4; 6]%N) 1%N 999%N 900 1
    (Demo.body [1; 1] [] [] [] [] [] [])%N
  = (Rosters.ServerError, Demo.pool false [1; 4; 6]%N)
  /\ Rosters.put (Demo.pool false [1; 4; 6]%N) 1%N 999%N 900 1
       (Demo.body [55] [] [] [] [] [] [])%N
     = (Rosters.ServerError, Demo.pool false [1; 4; 6]%N)
  /\ exists rid d',
       Rosters.put (Demo.pool false [1; 4; 6]%N) 2%N 999%N 900 1
         (Demo.body [1] [] [] [] [] [] [1])%N
       = (Rosters.Saved rid, d').
Proof.
  split; [|split].
  - apply (proj2 (save_duplicate_or_unknown (Demo.pool false [1; 4; 6]%N) 1%N 999%N 900 1
                    (Demo.body [1; 1] [] [] [] [] [] [])%N _ 1000
                    ltac:(lia) eq_refl ltac:(lia) eq_refl eq_refl)).
    intros [Hnd _]. cbn in Hnd. apply NoDup_cons in Hnd as [Hnot _].
    apply Hnot. left.
  - apply (proj2 (save_duplicate_or_unknown (Demo.pool false [1; 4; 6]%N) 1%N 999%N 900 1
                    (Demo.body [55] [] [] [] [] [] [])%N _ 1000
                    ltac:(lia) eq_refl ltac:(lia) eq_refl eq_refl)).
    intros (_ & Hall & _). specialize (Hall 55%N ltac:(left)).
    apply list_elem_of_In in Hall. simpl in Hall.
    repeat (destruct Hall as [Hall|Hall]; [discriminate Hall|]). destruct Hall.
  - apply (proj1 (save_duplicate_or_unknown (Demo.pool false [1; 4; 6]%N) 2%N 999%N 900 1
                    (Demo.body [1] [] [] [] [] [] [1])%N _ 1000
                    ltac:(lia) eq_refl ltac:(lia) eq_refl eq_refl)).
    split; [|split].
    + apply (bool_decide_unpack _). vm_compute. exact I.
    + intros i Hi. apply list_elem_of_singleton in Hi. subst i. left.
    + split; [right; right; left|exact I].
Defined.

(** X16. The tiebreaker answers of an accepted save: answers sent with the
    request replace the user's answers for the round, an answer of 0 (like a
    missing one) being stored as no answer; a request without answers keeps
    the stored ones; the answers of other users and rounds are kept. *)
Theorem save_tiebreaker_answers (d d' : db) (user fresh : uuid) (now : timestamp)
    (round : Z) (b : Body.t) (rid : uuid) :
  Rosters.save d user fresh now round b = (Rosters.Saved rid, d') ->
  (forall q1 q2, Body.tiebreakers b = Some (q1, q2) ->
     tiebreakers d' !! (user, round)
     = Some {| Tiebreakers.question1_answer := or_null q1;
               Tiebreakers.question2_answer := or_null q2 |}
     /\ (q1 = Some 0 -> or_null q1 = None))
  /\ (Body.tiebreakers b = None -> tiebreakers d' = tiebreakers d)
  /\ (forall k, k <> (user, round) -> tiebreakers d' !! k = tiebreakers d !! k).
Proof.
  intros Hsave.
  destruct (save_Saved_open d user fresh now round b rid)
    as (Hr & (dl & Hdl & Hnow) & (sel & Hsel)).
  { rewrite Hsave. reflexivity. }
  rewrite (save_decided d user fresh now round b sel dl Hr Hdl Hnow Hsel) in Hsave.
  destruct (validate_cases d (collect sel) round) as [[Hv _]|[[Hv _]|[Hv _]]];
    rewrite Hv in Hsave; try discriminate.
  destruct (bool_decide _); [|discriminate].
  injection Hsave as _ <-.
  assert (Hbase : tiebreakers
                    (set_roster_players
                       (fun l => l ++ map (selection
                                             (fst (Rosters.get_or_create d user round fresh))
                                             (default [] (Body.stars b))) (collect sel))
                       (Rosters.clear (fst (Rosters.get_or_create d user round fresh))
                                      (snd (Rosters.get_or_create d user round fresh))))
                  = tiebreakers d).
  { unfold Rosters.clear, Rosters.get_or_create.
    destruct (roster_of d user round); reflexivity. }
  split; [|split].
  - intros q1 q2 Htb. rewrite Htb. cbn [save_tiebreakers tiebreakers set_tiebreakers].
    rewrite lookup_insert_eq. split; [reflexivity|]. intros ->. reflexivity.
  - intros Htb. rewrite Htb. exact Hbase.
  - intros k Hk. destruct (Body.tiebreakers b) as [[q1 q2]|].
    + cbn [save_tiebreakers tiebreakers set_tiebreakers].
      rewrite lookup_insert_ne by congruence. rewrite Hbase. reflexivity.
    + cbn [save_tiebreakers]. rewrite Hbase. reflexivity.
Qed.

Lemma save_tiebreaker_answers_witness :
  tiebreakers
    (snd (Rosters.save (Demo.pool false [1; 4; 6]%N) 1%N 999%N 900 1
            {| Body.selections := Body.selections Demo.empty_body;
               Body.stars := None;
               Body.tiebreakers := Some (Some 0, Some 7) |})) !! (1%N, 1)
  = Some {| Tiebreakers.question1_answer := None;
            Tiebreakers.question2_answer := Some 7 |}.
Proof.
  refine (proj1 (proj1 (save_tiebreaker_answers (Demo.pool false [1; 4; 6]%N) _ 1%N 999%N
                          900 1
                          {| Body.selections := Body.selections Demo.empty_body;
                             Body.stars := None;
                             Body.tiebreakers := Some (Some 0, Some 7) |}
                          100%N _) (Some 0) (Some 7) eq_refl)).
  vm_compute. reflexivity.
Defined.

(** X17. The deadline decides, up to and including its own instant: a save
    is answered 'locked' exactly when the round is 1-3, has a deadline and
    the request comes strictly after it, and 'deadline not set' exactly
    when the round is 1-3 and has no deadline; a submit likewise, for any
    round number. A request at the very instant of the deadline is not
    locked. *)
Theorem deadline_answers (d : db) (user fresh : uuid) (now : timestamp) (round : Z)
    (b : Body.t) :
  (fst (Rosters.save d user fresh now round b) = Rosters.Locked
   <-> 1 <= round <= 3 /\ exists dl, pick_deadline_of d round = Some dl /\ dl < now)
  /\ (fst (Rosters.save d user fresh now round b) = Rosters.DeadlineNotSet
      <-> 1 <= round <= 3 /\ pick_deadline_of d round = None)
  /\ (fst (Rosters.submit d user now round) = Rosters.SubmitLocked
      <-> exists dl, pick_deadline_of d round = Some dl /\ dl < now)
  /\ (fst (Rosters.submit d user now round) = Rosters.SubmitDeadlineNotSet
      <-> pick_deadline_of d round = None).
Proof.
  assert (Hsave : forall o,
            o = Rosters.Locked \/ o = Rosters.DeadlineNotSet ->
            fst (Rosters.save d user fresh now round b) = o ->
            1 <= round <= 3
            /\ ((o = Rosters.DeadlineNotSet /\ pick_deadline_of d round = None)
                \/ (o = Rosters.Locked
                    /\ exists dl, pick_deadline_of d round = Some dl /\ dl < now))).
  { intros o Ho. unfold Rosters.save.
    destruct (Z.ltb_spec round 1); [destruct Ho; subst; discriminate|].
    destruct (Z.ltb_spec 3 round); [destruct Ho; subst; discriminate|]. cbn [orb].
    destruct (pick_deadline_of d round) as [dl|].
    2:{ cbn. intros <-. split; [lia|]. left. auto. }
    destruct (Z.ltb_spec dl now).
    { cbn. intros <-. split; [lia|]. right. split; [reflexivity|]. exists dl. auto. }
    destruct (Rosters.get_or_create d user round fresh) as [rid d1].
    destruct (Body.selections b) as [sel|]; [|destruct Ho; subst; discriminate].
    destruct (validate_cases (Rosters.clear rid d1) (collect sel) round)
      as [[Hv _]|[[Hv _]|[Hv _]]]; rewrite Hv;
      try (destruct Ho; subst; discriminate).
    destruct (Rosters.insert_players _ _ _ _); destruct Ho; subst; discriminate. }
  split; [|split; [|split]].
  - split.
    + intros H. destruct (Hsave _ (or_introl eq_refl) H) as [Hr [[Hbad _]|[_ Hdl]]];
        [discriminate|auto].
    + intros [Hr (dl & Hdl & Hlt)]. unfold Rosters.save.
      replace ((round <? 1) || (3 <? round)) with false by lia.
      rewrite Hdl. replace (dl <? now) with true by lia. reflexivity.
  - split.
    + intros H. destruct (Hsave _ (or_intror eq_refl) H) as [Hr [[_ Hdl]|[Hbad _]]];
        [auto|discriminate].
    + intros [Hr Hdl]. unfold Rosters.save.
      replace ((round <? 1) || (3 <? round)) with false by lia.
      rewrite Hdl. reflexivity.
  - unfold Rosters.submit. destruct (pick_deadline_of d round) as [dl|].
    + destruct (Z.ltb_spec dl now).
      * split; [intros _; exists dl; auto|reflexivity].
      * split.
        -- destruct (roster_of d user round); [|discriminate].
           destruct (Rosters.isComplete _); discriminate.
        -- intros (dl' & [= <-] & Hlt). lia.
    + split; [discriminate|]. intros (dl & Hdl & _). discriminate.
  - unfold Rosters.submit. destruct (pick_deadline_of d round) as [dl|].
    + split; [|discriminate]. destruct (dl <? now); [discriminate|].
      destruct (roster_of d user round); [|discriminate].
      destruct (Rosters.isComplete _); discriminate.
    + split; reflexivity.
Qed.

Lemma deadline_answers_witness :
  fst (Rosters.save (Demo.pool false [1; 4; 6]%N) 1%N 999%N 1001 1 Demo.empty_body)
  = Rosters.Locked
  /\ fst (Rosters.save (Demo.pool false [1; 4; 6]%N) 1%N 999%N 1000 1 Demo.empty_body)
     <> Rosters.Locked
  /\ fst (Rosters.submit (Demo.pool false [1; 4; 6]%N) 1%N 1000 2)
     = Rosters.SubmitDeadlineNotSet.
Proof.
  split; [|split].
  - apply (proj1 (deadline_answers (Demo.pool false [1; 4; 6]%N) 1%N 999%N 1001 1
                    Demo.empty_body)).
    split; [lia|]. exists 1000. split; [reflexivity|lia].
  - intros H.
    apply (proj1 (deadline_answers (Demo.pool false [1; 4; 6]%N) 1%N 999%N 1000 1
                    Demo.empty_body)) in H.
    destruct H as [_ (dl & Hdl & Hlt)]. vm_compute in Hdl. injection Hdl as <-. lia.
  - apply (proj2 (proj2 (proj2 (proj2
             (deadline_answers (Demo.pool false [1; 4; 6]%N) 1%N 999%N 1000 2
                Demo.empty_body))))).
    reflexivity.
Defined.

(** ** The submit handler, and a save followed by a submit *)

Lemma save_Saved_db (d d' : db) (user fresh : uuid) (now : timestamp) (round : Z)
    (b : Body.t) (sel : Selections.t) (rid : uuid) :
  Rosters.save d user fresh now round b = (Rosters.Saved rid, d') ->
  Body.selections b = Some sel ->
  rid = fst (Rosters.get_or_create d user round fresh)
  /\ d' = save_tiebreakers user round (Body.tiebreakers b)
            (set_roster_players
               (fun l => l ++ map (selection rid (default [] (Body.stars b))) (collect sel))
               (Rosters.clear rid (snd (Rosters.get_or_create d user round fresh)))).
Proof.
  intros Hsave Hsel.
  destruct (save_Saved_open d user fresh now round b rid) as (Hr & (dl & Hdl & Hnow) & _).
  { rewrite Hsave. reflexivity. }
  rewrite (save_decided d user fresh now round b sel dl Hr Hdl Hnow Hsel) in Hsave.
  destruct (validate_cases d (collect sel) round) as [[Hv _]|[[Hv _]|[Hv _]]];
    rewrite Hv in Hsave; try discriminate.
  destruct (bool_decide _); [|discriminate].
  injection Hsave as <- <-. split; reflexivity.
Qed.

Lemma filter_map_same {A : Type} (P : A -> Prop) `{forall x, Decision (P x)}
    (f : A -> A) (l : list A) :
  (forall x, P (f x) <-> P x) -> filter P (map f l) = map f (filter P l).
Proof.
  intros Hf. induction l as [|x l IH]; [reflexivity|].
  cbn [map]. rewrite !filter_cons.
  destruct (decide (P (f x))) as [H1|H1], (decide (P x)) as [H2|H2].
  - cbn [map]. rewrite IH. reflexivity.
  - exfalso. apply H2, Hf, H1.
  - exfalso. apply H1, Hf, H2.
  - exact IH.
Qed.

Lemma roster_of_marked (d : db) (user : uuid) (round : Z) (r : Rosters_.row)
    (now : timestamp) :
  roster_of d user round = Some r ->
  roster_of (Rosters.mark_submitted (Rosters_.id r) now d) user round
  = Some {| Rosters_.id := Rosters_.id r; Rosters_.user_id := Rosters_.user_id r;
            Rosters_.round := Rosters_.round r; Rosters_.is_submitted := true;
            Rosters_.submitted_at := Some now |}.
Proof.
  unfold roster_of, Rosters.mark_submitted. cbn [rosters set_rosters]. intros Hr.
  rewrite filter_map_same.
  - destruct (filter _ (rosters d)) as [|x l]; [discriminate|].
    cbn in Hr. injection Hr as ->. cbn [map head].
    rewrite bool_decide_eq_true_2 by reflexivity. reflexivity.
  - intros x. destruct (bool_decide _); reflexivity.
Qed.

(** X18. What a submit does: an answer other than 'submitted' leaves the
    database as it was; an accepted submit marks the user's roster for the
    round as submitted at the instant of the request and changes nothing
    else: the selections and the rosters with another id are kept. The
    handler does not test whether the roster was submitted before. *)
Theorem submit_effect (d : db) (user : uuid) (now : timestamp) (round : Z) :
  (fst (Rosters.submit d user now round) <> Rosters.Submitted ->
   snd (Rosters.submit d user now round) = d)
  /\ (fst (Rosters.submit d user now round) = Rosters.Submitted ->
      exists r,
        roster_of d user round = Some r
        /\ roster_of (snd (Rosters.submit d user now round)) user round
           = Some {| Rosters_.id := Rosters_.id r; Rosters_.user_id := Rosters_.user_id r;
                     Rosters_.round := Rosters_.round r; Rosters_.is_submitted := true;
                     Rosters_.submitted_at := Some now |}
        /\ roster_players (snd (Rosters.submit d user now round)) = roster_players d
        /\ (forall r', r' ∈ rosters d -> Rosters_.id r' <> Rosters_.id r ->
                       r' ∈ rosters (snd (Rosters.submit d user now round)))).
Proof.
  unfold Rosters.submit.
  destruct (pick_deadline_of d round) as [dl|]; [|split; [reflexivity|discriminate]].
  destruct (dl <? now); [split; [reflexivity|discriminate]|].
  destruct (roster_of d user round) as [r|] eqn:Hr; [|split; [reflexivity|discriminate]].
  destruct (Rosters.isComplete _); [|split; [reflexivity|discriminate]].
  split; [intros H; exfalso; apply H; reflexivity|]. intros _.
  exists r. split; [reflexivity|]. cbn [snd].
  split; [apply roster_of_marked; exact Hr|]. split; [reflexivity|].
  intros r' Hin Hne. unfold Rosters.mark_submitted. cbn [rosters set_rosters].
  apply list_elem_of_In, in_map_iff. exists r'.
  split; [|apply list_elem_of_In; exact Hin].
  rewrite bool_decide_eq_false_2 by exact Hne. reflexivity.
Qed.

Lemma submit_effect_witness :
  exists r,
    roster_of (snd (Rosters.submit (Demo.pool true [1; 4; 6]%N) 1%N 900 1)) 1%N 1 = Some r
    /\ Rosters_.submitted_at r = Some 900.
Proof.
  destruct (proj2 (submit_effect (Demo.pool true [1; 4; 6]%N) 1%N 900 1))
    as (r & Hr & Hr' & _).
  - vm_compute. reflexivity.
  - eexists. split; [exact Hr'|]. reflexivity.
Defined.

Lemma picked_rows_selected (d : db) (rid : uuid) (stars ids : list uuid)
    (old : list RosterPlayers.row) :
  (forall rp, rp ∈ old -> RosterPlayers.roster_id rp ≠ rid) ->
  Rosters.picked_rows
    (set_roster_players (fun _ => old ++ map (selection rid stars) ids) d) rid
  = rows_of d stars ids.
Proof.
  intros Hold. unfold Rosters.picked_rows, rows_of.
  cbn [roster_players players teams set_roster_players].
  rewrite filter_app. rewrite (filter_none_in _ old).
  2:{ intros rp Hrp Heq. exact (Hold rp Hrp Heq). }
  cbn [app]. induction ids as [|i ids IH]; [reflexivity|].
  cbn [map]. rewrite filter_cons_True by reflexivity.
  rewrite !bind_cons, IH. reflexivity.
Qed.

(** X19. A submit judges the selection last saved: after an accepted save,
    the rows the completeness query finds for the roster are those of the
    saved players, each with the position of its player and the conference
    of its team, and a submit before the deadline is accepted exactly when
    these rows make a complete line-up with 3 stars. *)
Theorem submit_after_save (d d' : db) (user fresh : uuid) (now now' : timestamp)
    (round : Z) (b : Body.t) (sel : Selections.t) (rid : uuid) (dl : timestamp) :
  Rosters.save d user fresh now round b = (Rosters.Saved rid, d') ->
  Body.selections b = Some sel ->
  pick_deadline_of d round = Some dl -> now' <= dl ->
  Rosters.picked_rows d' rid = rows_of d (default [] (Body.stars b)) (collect sel)
  /\ (composition (rows_of d (default [] (Body.stars b)) (collect sel)) ->
      Rosters.submit d' user now' round
      = (Rosters.Submitted, Rosters.mark_submitted rid now' d'))
  /\ (~ composition (rows_of d (default [] (Body.stars b)) (collect sel)) ->
      Rosters.submit d' user now' round = (Rosters.Incomplete, d')).
Proof.
  intros Hsave Hsel Hdl Hnow.
  destruct (save_Saved_db d d' user fresh now round b sel rid Hsave Hsel) as [Hrid Hd'].
  assert (Hrows : Rosters.picked_rows d' rid
                  = rows_of d (default [] (Body.stars b)) (collect sel)).
  { rewrite Hd'. unfold Rosters.picked_rows.
    rewrite roster_players_save_tiebreakers.
    assert (Hsame : forall tb x, players (save_tiebreakers user round tb x) = players x
                                 /\ teams (save_tiebreakers user round tb x) = teams x)
      by (intros [[q1 q2]|] x; split; reflexivity).
    destruct (Hsame (Body.tiebreakers b)
                (set_roster_players
                   (fun l => l ++ map (selection rid (default [] (Body.stars b)))
                                      (collect sel))
                   (Rosters.clear rid (snd (Rosters.get_or_create d user round fresh)))))
      as [-> ->].
    unfold Rosters.clear. cbn [roster_players players teams set_roster_players].
    pose proof (picked_rows_selected
                  (snd (Rosters.get_or_create d user round fresh)) rid
                  (default [] (Body.stars b)) (collect sel)
                  (filter (fun rp => RosterPlayers.roster_id rp ≠ rid)
                          (roster_players (snd (Rosters.get_or_create d user round fresh)))))
      as Hp.
    unfold Rosters.picked_rows in Hp.
    cbn [roster_players players teams set_roster_players] in Hp.
    rewrite Hp.
    - unfold rows_of, Rosters.get_or_create.
      destruct (roster_of d user round); reflexivity.
    - intros rp Hrp. apply list_elem_of_filter in Hrp. tauto. }
  split; [exact Hrows|].
  assert (Hdl' : pick_deadline_of d' round = Some dl).
  { rewrite Hd', <- Hdl. unfold pick_deadline_of, Rosters.clear, Rosters.get_or_create.
    destruct (Body.tiebreakers b) as [[q1 q2]|], (roster_of d user round); reflexivity. }
  assert (Hro : exists r, roster_of d' user round = Some r /\ Rosters_.id r = rid).
  { rewrite Hd', Hrid. unfold roster_of, Rosters.clear, Rosters.get_or_create.
    destruct (Body.tiebreakers b) as [[q1 q2]|];
      cbn [save_tiebreakers rosters set_tiebreakers set_roster_players];
      fold (roster_of d user round);
      destruct (roster_of d user round) as [r|] eqn:Hr; cbn [fst snd rosters set_rosters];
      try (exists r; split; [exact Hr|reflexivity]);
      unfold roster_of in Hr; apply head_None in Hr;
      rewrite filter_app, Hr, filter_cons_True by (split; reflexivity);
      eexists; split; reflexivity. }
  destruct Hro as (r & Hro & Hid).
  unfold Rosters.submit. rewrite Hdl', Hro, Hid.
  replace (dl <? now') with false by lia. rewrite Hrows.
  split; intros Hc.
  - apply isComplete_composition in Hc. rewrite Hc. reflexivity.
  - destruct (Rosters.isComplete _) eqn:Hi; [|reflexivity].
    apply isComplete_composition in Hi. contradiction.
Qed.

Lemma submit_after_save_witness :
  fst (Rosters.submit
         (snd (Rosters.save (Demo.pool false []) 2%N 200%N 900 1
                 (Demo.body [1; 2; 3] [4; 5] [6] [7; 8; 9] [10; 11] [12] [1; 4; 6])%N))
         2%N 950 1)
  = Rosters.Submitted.
Proof.
  pose proof (submit_after_save (Demo.pool false [])
                (snd (Rosters.save (Demo.pool false []) 2%N 200%N 900 1
                        (Demo.body [1; 2; 3] [4; 5] [6] [7; 8; 9] [10; 11] [12] [1; 4; 6])%N))
                2%N 200%N 900 950 1
                (Demo.body [1; 2; 3] [4; 5] [6] [7; 8; 9] [10; 11] [12] [1; 4; 6])%N
                _ 200%N 1000 ltac:(vm_compute; reflexivity) eq_refl eq_refl ltac:(lia))
    as (_ & Hyes & _).
  rewrite Hyes; [reflexivity|].
  unfold composition. vm_compute. repeat split; reflexivity.
Defined.

(** ** The version without a transaction *)

Lemma pick_deadline_marked (d : db) (rid : uuid) (now : timestamp) (round : Z) :
  pick_deadline_of (Rosters.mark_submitted rid now d) round = pick_deadline_of d round.
Proof. reflexivity. Qed.

(** X20. In the version of the routes that checks the submission flag, a
    submitted roster is final: after an accepted submit, every later save
    and every later submit of the same user for the same round is refused,
    as already submitted while the round is open and as locked afterwards,
    and leaves the database as it was. *)
Theorem src_submitted_is_final (d d' : db) (user : uuid) (now : timestamp) (round : Z) :
  SrcSubmit.submit d user now round = (SrcSubmit.Submitted, d') ->
  forall (fresh : uuid) (now2 : timestamp) (b : Body.t),
    (SrcRosters.save d' user fresh now2 round b = (SrcRosters.AlreadySubmitted, d')
     \/ SrcRosters.save d' user fresh now2 round b = (SrcRosters.Locked, d'))
    /\ (SrcSubmit.submit d' user now2 round = (SrcSubmit.AlreadySubmitted, d')
        \/ SrcSubmit.submit d' user now2 round = (SrcSubmit.Locked, d')).
Proof.
  unfold SrcSubmit.submit at 1.
  destruct ((round <? 1) || (3 <? round)) eqn:Hround; [discriminate|].
  destruct (pick_deadline_of d round) as [dl|] eqn:Hdl; [|discriminate].
  destruct (dl <? now); [discriminate|].
  destruct (roster_of d user round) as [r|] eqn:Hr; [|discriminate].
  destruct (Rosters_.is_submitted r); [discriminate|].
  destruct (Rosters.isComplete _); [|discriminate].
  intros [= <-] fresh now2 b.
  pose proof (roster_of_marked d user round r now Hr) as Hr'.
  unfold SrcRosters.save, SrcSubmit.submit.
  rewrite Hround, pick_deadline_marked, Hdl, Hr'. cbn [Rosters_.is_submitted].
  destruct (dl <? now2); split; auto.
Qed.

Lemma src_submitted_is_final_witness :
  SrcRosters.save
    (snd (SrcSubmit.submit (Demo.pool false [1; 4; 6]%N) 1%N 900 1)) 1%N 999%N 950 1
    Demo.empty_body
  = (SrcRosters.AlreadySubmitted,
     snd (SrcSubmit.submit (Demo.pool false [1; 4; 6]%N) 1%N 900 1)).
Proof.
  destruct (src_submitted_is_final (Demo.pool false [1; 4; 6]%N)
              (snd (SrcSubmit.submit (Demo.pool false [1; 4; 6]%N) 1%N 900 1))
              1%N 900 1 ltac:(vm_compute; reflexivity) 999%N 950 Demo.empty_body)
    as [[H|H] _].
  - exact H.
  - exfalso. vm_compute in H. discriminate H.
Defined.

(** X21. In the version without a transaction a failed save is not
    harmless, and on the schema of the repository a save that names a player
    always fails: the players query casts the ids to integers while the ids
    of [players] are UUIDs, so the database refuses it. On a valid round
    that is not locked, a save with at least one player, for a user who
    holds a roster not yet submitted, is answered with the error of the
    [catch] after the selections of that roster were deleted, and they stay
    deleted; nothing else is changed. *)
Theorem src_failed_save_loses_selections (d : db) (user fresh : uuid) (now : timestamp)
    (round : Z) (b : Body.t) (sel : Selections.t) (dl : timestamp) (r : Rosters_.row) :
  1 <= round <= 3 -> pick_deadline_of d round = Some dl -> now <= dl ->
  roster_of d user round = Some r -> Rosters_.is_submitted r = false ->
  Body.selections b = Some sel -> collect sel <> [] ->
  fst (SrcRosters.save d user fresh now round b) = SrcRosters.ServerError
  /\ roster_players (snd (SrcRosters.save d user fresh now round b))
     = filter (fun rp => RosterPlayers.roster_id rp ≠ Rosters_.id r) (roster_players d)
  /\ rosters (snd (SrcRosters.save d user fresh now round b)) = rosters d
  /\ tiebreakers (snd (SrcRosters.save d user fresh now round b)) = tiebreakers d.
Proof.
  intros Hr Hdl Hnow Hro Hsub Hsel Hne. unfold SrcRosters.save.
  replace ((round <? 1) || (3 <? round)) with false by lia.
  rewrite Hdl, Hro, Hsub. replace (dl <? now) with false by lia.
  unfold SrcRosters.save_rest. rewrite Hsel.
  rewrite bool_decide_eq_false_2 by exact Hne.
  cbn. repeat split; reflexivity.
Qed.

Lemma src_failed_save_loses_selections_witness :
  fst (SrcRosters.save (Demo.pool false [1; 4; 6]%N) 1%N 999%N 900 1
         (Demo.body [1; 2; 3] [4; 5] [6] [7; 8; 9] [10; 11] [12] [1; 4; 6])%N)
  = SrcRosters.ServerError
  /\ roster_players
       (snd (SrcRosters.save (Demo.pool false [1; 4; 6]%N) 1%N 999%N 900 1
               (Demo.body [1; 2; 3] [4; 5] [6] [7; 8; 9] [10; 11] [12] [1; 4; 6])%N))
     = []
  /\ length (roster_players (Demo.pool false [1; 4; 6]%N)) = 12%nat.
Proof.
  destruct (src_failed_save_loses_selections (Demo.pool false [1; 4; 6]%N) 1%N 999%N 900 1
              (Demo.body [1; 2; 3] [4; 5] [6] [7; 8; 9] [10; 11] [12] [1; 4; 6])%N
              _ 1000
              {| Rosters_.id := 100; Rosters_.user_id := 1; Rosters_.round := 1;
                 Rosters_.is_submitted := false; Rosters_.submitted_at := None |}
              ltac:(lia) eq_refl ltac:(lia) eq_refl eq_refl eq_refl
              ltac:(discriminate))
    as (H1 & H2 & _).
  split; [exact H1|]. split; [|reflexivity]. rewrite H2. reflexivity.
Defined.

(** ** The leaderboard, round by round *)

Lemma coalesce_sum (l : list (option Z)) :
  Leaderboard.COALESCE (Leaderboard.SUM l) 0 = sum_Z (map (default 0) l).
Proof.
  assert (H : forall l, default 0 (Leaderboard.SUM l) = sum_Z (map (default 0) l)).
  { clear l. induction l as [|x l IH]; [reflexivity|].
    cbn [Leaderboard.SUM foldr map sum_Z]. fold (Leaderboard.SUM l).
    fold (sum_Z (map (default 0) l)). rewrite <- IH.
    destruct x as [v|], (Leaderboard.SUM l) as [a|]; cbn; lia. }
  apply H.
Qed.

Lemma elem_of_left {B : Type} (l : list B) (x : option B) :
  x ∈ Leaderboard.left l -> (x = None /\ l = []) \/ (exists y, x = Some y /\ y ∈ l).
Proof.
  destruct l as [|b l]; cbn [Leaderboard.left].
  - intros H. apply list_elem_of_singleton in H. left. auto.
  - intros H. apply list_elem_of_In, in_map_iff in H as (y & <- & Hy).
    right. exists y. split; [reflexivity|apply list_elem_of_In; exact Hy].
Qed.

(** A joined row with a snapshot has a submitted roster of the user. *)
Lemma joined_with_stats (d : db) (u : Users.row) (j : Leaderboard.joined) :
  j ∈ Leaderboard.joined_rows d u -> is_Some (Leaderboard.ps j) ->
  exists r, Leaderboard.r j = Some r /\ r ∈ rosters d.
Proof.
  unfold Leaderboard.joined_rows. intros Hj Hps.
  apply list_elem_of_bind in Hj as (r & Hj & Hr).
  apply list_elem_of_bind in Hj as (rp & Hj & Hrp).
  apply list_elem_of_bind in Hj as (p & Hj & Hp).
  apply list_elem_of_bind in Hj as (ps & Hj & Hpsin).
  apply list_elem_of_singleton in Hj. subst j. cbn in *.
  apply elem_of_left in Hr as [[-> _]|(r0 & -> & Hr0)].
  - exfalso. destruct p as [p|]; cbn in Hpsin;
      apply list_elem_of_singleton in Hpsin; subst ps; destruct Hps as [x Hx];
      discriminate.
  - exists r0. split; [reflexivity|]. apply list_elem_of_filter in Hr0. tauto.
Qed.

Lemma points_by_round (j : Leaderboard.joined) :
  (forall r, Leaderboard.r j = Some r -> 1 <= Rosters_.round r <= 3) ->
  (is_Some (Leaderboard.ps j) -> is_Some (Leaderboard.r j)) ->
  default 0 (Leaderboard.points j)
  = default 0 (Leaderboard.round_points 1 j) + default 0 (Leaderboard.round_points 2 j)
    + default 0 (Leaderboard.round_points 3 j).
Proof.
  intros Hround Hr. unfold Leaderboard.round_points.
  destruct (Leaderboard.ps j) as [st|] eqn:Hps.
  - destruct (Hr ltac:(eexists; reflexivity)) as [r Hrj]. rewrite Hrj.
    specialize (Hround r Hrj).
    destruct (Z.eqb_spec (Rosters_.round r) 1), (Z.eqb_spec (Rosters_.round r) 2),
             (Z.eqb_spec (Rosters_.round r) 3); cbn; lia.
  - unfold Leaderboard.points. rewrite Hps.
    destruct (Leaderboard.is_skater _); cbn; lia.
Qed.

Lemma sum_Z_three {A : Type} (f g1 g2 g3 : A -> Z) (l : list A) :
  (forall x, x ∈ l -> f x = g1 x + g2 x + g3 x) ->
  sum_Z (map f l) = sum_Z (map g1 l) + sum_Z (map g2 l) + sum_Z (map g3 l).
Proof.
  induction l as [|x l IH]; intros H; [reflexivity|].
  cbn [map sum_Z foldr]. fold (sum_Z (map f l)) (sum_Z (map g1 l)) (sum_Z (map g2 l))
                              (sum_Z (map g3 l)).
  rewrite IH by (intros y Hy; apply H; right; exact Hy).
  rewrite (H x) by left. lia.
Qed.

(** X22. When every roster is of round 1, 2 or 3 (as the schema requires),
    the total of every row of the leaderboard is the sum of its three round
    columns. *)
Theorem leaderboard_total_by_round (d : db) :
  (forall r, r ∈ rosters d -> 1 <= Rosters_.round r <= 3) ->
  forall row, row ∈ Leaderboard.leaderboard d ->
    Leaderboard.total_points row
    = Leaderboard.r1_points row + Leaderboard.r2_points row + Leaderboard.r3_points row.
Proof.
  intros Hrounds row Hrow. unfold Leaderboard.leaderboard in Hrow.
  rewrite <- order_desc_perm in Hrow.
  apply list_elem_of_In, in_map_iff in Hrow as (u & <- & _).
  unfold Leaderboard.row_of.
  cbn [Leaderboard.total_points Leaderboard.r1_points Leaderboard.r2_points
       Leaderboard.r3_points].
  rewrite !coalesce_sum, !map_map.
  apply sum_Z_three. intros j Hj. apply points_by_round.
  - intros r Hr. destruct (Leaderboard.ps j) as [st|] eqn:Hps.
    + destruct (joined_with_stats d u j Hj) as (r0 & Hr0 & Hin);
        [rewrite Hps; eexists; reflexivity|].
      rewrite Hr in Hr0. injection Hr0 as <-. apply Hrounds. exact Hin.
    + clear Hps. unfold Leaderboard.joined_rows in Hj.
      apply list_elem_of_bind in Hj as (r1 & Hj & Hr1).
      apply list_elem_of_bind in Hj as (rp & Hj & _).
      apply list_elem_of_bind in Hj as (p & Hj & _).
      apply list_elem_of_bind in Hj as (ps & Hj & _).
      apply list_elem_of_singleton in Hj. subst j. cbn in Hr. subst r1.
      apply elem_of_left in Hr1 as [[Hbad _]|(r0 & [= <-] & Hr0)]; [discriminate|].
      apply list_elem_of_filter in Hr0 as [_ Hr0]. apply Hrounds. exact Hr0.
  - intros Hps. destruct (joined_with_stats d u j Hj Hps) as (r0 & Hr0 & _).
    rewrite Hr0. eexists. reflexivity.
Qed.

Lemma leaderboard_total_by_round_witness :
  Leaderboard.total_points
    (Leaderboard.row_of (Demo.pool true [1; 4; 6]%N)
       {| Users.id := 1; Users.username := "alice"; Users.is_verified := true |})
  = 10 + 0 + 0.
Proof.
  refine (eq_trans
            (leaderboard_total_by_round (Demo.pool true [1; 4; 6]%N) _
               (Leaderboard.row_of (Demo.pool true [1; 4; 6]%N)
                  {| Users.id := 1; Users.username := "alice"; Users.is_verified := true |})
               _) _).
  - intros r Hr. apply list_elem_of_In in Hr. simpl in Hr. destruct Hr as [<-|[]].
    cbn. lia.
  - left.
  - reflexivity.
Defined.

(** ** The ranked standings *)

Lemma order_desc_sorted_id (l : list Leaderboard.row) :
  Sorted desc l -> Leaderboard.order_desc l = l.
Proof.
  induction l as [|x l IH]; intros Hs; [reflexivity|].
  apply Sorted_inv in Hs as [Hs Hhd]. cbn [Leaderboard.order_desc foldr].
  fold (Leaderboard.order_desc l). rewrite IH by exact Hs.
  destruct l as [|y l]; [reflexivity|]. cbn [Leaderboard.insert_desc].
  apply HdRel_inv in Hhd. unfold desc in Hhd.
  replace (_ <? _) with false by lia. reflexivity.
Qed.

Lemma strongly_sorted_lookup {A : Type} (R : A -> A -> Prop) (l : list A)
    (i j : nat) (a b : A) :
  StronglySorted R l -> (i < j)%nat -> l !! i = Some a -> l !! j = Some b -> R a b.
Proof.
  intros Hs. revert i j. induction Hs as [|x l Hs IH Hall]; intros i j Hij Ha Hb.
  - discriminate.
  - destruct j as [|j]; [lia|]. cbn in Hb. destruct i as [|i].
    + cbn in Ha. injection Ha as <-. rewrite List.Forall_forall in Hall.
      apply Hall. apply list_elem_of_In. eapply list_elem_of_lookup_2. exact Hb.
    + cbn in Ha. apply (IH i j); [lia|assumption..].
Qed.

(** X23. The ranked standings are the first 100 rows of the leaderboard,
    ranked by position from 1: their number is the number of verified users,
    capped at 100; the entry at position [i] has rank [i + 1]; and an entry
    with a smaller rank never has fewer points (users with equal points get
    different, consecutive ranks). *)
Theorem standings_ranked (d : db) :
  length (Ranking.standings d)
  = Nat.min 100 (length (filter (fun u => Users.is_verified u = true) (users d)))
  /\ (forall i e, Ranking.standings d !! i = Some e ->
        Ranking.rank e = Z.of_nat i + 1
        /\ Leaderboard.leaderboard d !! i = Some (Ranking.row e))
  /\ (forall e1 e2, e1 ∈ Ranking.standings d -> e2 ∈ Ranking.standings d ->
        Ranking.rank e1 < Ranking.rank e2 ->
        Leaderboard.total_points (Ranking.row e2)
        <= Leaderboard.total_points (Ranking.row e1)).
Proof.
  assert (Hid : Leaderboard.order_desc (Leaderboard.leaderboard d)
                = Leaderboard.leaderboard d).
  { apply order_desc_sorted_id. apply order_desc_sorted. }
  assert (Hlookup : forall i e, Ranking.standings d !! i = Some e ->
            Ranking.rank e = Z.of_nat i + 1
            /\ Leaderboard.leaderboard d !! i = Some (Ranking.row e)).
  { intros i e. unfold Ranking.standings. rewrite Hid, list_lookup_imap.
    destruct (take 100 (Leaderboard.leaderboard d) !! i) as [r|] eqn:Hr; [|discriminate].
    cbn. intros [= <-]. cbn. split; [reflexivity|].
    apply lookup_take_Some in Hr. tauto. }
  split; [|split].
  - unfold Ranking.standings. rewrite Hid, length_imap, length_take.
    unfold Leaderboard.leaderboard. rewrite <- order_desc_perm, length_map. reflexivity.
  - exact Hlookup.
  - intros e1 e2 H1 H2 Hlt.
    apply list_elem_of_lookup_1 in H1 as [i Hi]. apply list_elem_of_lookup_1 in H2 as [j Hj].
    destruct (Hlookup i e1 Hi) as [Hr1 Hl1]. destruct (Hlookup j e2 Hj) as [Hr2 Hl2].
    assert (Hss : StronglySorted desc (Leaderboard.leaderboard d)).
    { apply Sorted_StronglySorted; [exact desc_trans|]. apply order_desc_sorted. }
    apply (strongly_sorted_lookup desc _ i j _ _ Hss); [lia|assumption..].
Qed.

Lemma standings_ranked_witness :
  exists e1 e2,
    Ranking.standings (Demo.pool true [1; 4; 6]%N) = [e1; e2]
    /\ Leaderboard.total_points (Ranking.row e2)
       <= Leaderboard.total_points (Ranking.row e1).
Proof.
  eexists _, _. split; [vm_compute; reflexivity|].
  apply (proj2 (proj2 (standings_ranked (Demo.pool true [1; 4; 6]%N)))).
  - left.
  - right. left.
  - cbn. lia.
Defined.

(** ** The operator's deadline *)

Lemma pick_deadline_updated (n m : Z) (dl : timestamp) (l : list Rounds.row) :
  match filter (fun r => Rounds.round_number r = m)
          (map (fun r => if bool_decide (Rounds.round_number r = n)
                         then {| Rounds.round_number := Rounds.round_number r;
                                 Rounds.pick_deadline := Some dl |}
                         else r) l) with
  | [] => None
  | r :: _ => Rounds.pick_deadline r
  end
  = match filter (fun r => Rounds.round_number r = m) l with
    | [] => None
    | r :: _ => if bool_decide (m = n) then Some dl else Rounds.pick_deadline r
    end.
Proof.
  rewrite filter_map_same.
  2:{ intros x. destruct (bool_decide _); reflexivity. }
  destruct (filter _ l) as [|r rest] eqn:Hf; [reflexivity|]. cbn [map].
  assert (Hr : Rounds.round_number r = m).
  { assert (Hin : r ∈ filter (fun r => Rounds.round_number r = m) l)
      by (rewrite Hf; left).
    apply list_elem_of_filter in Hin. tauto. }
  rewrite Hr. destruct (decide (m = n)) as [->|Hne].
  - rewrite !bool_decide_eq_true_2 by reflexivity. reflexivity.
  - rewrite !bool_decide_eq_false_2 by exact Hne. reflexivity.
Qed.

(** X24. The operator's deadline is the one the roster routes enforce:
    after the deadline of a round was set, that round has this deadline and
    the other rounds keep theirs; a save for the round (1-3) is answered
    'locked' when it comes after the deadline, and is answered neither
    'locked' nor 'deadline not set' up to it. A round that has no row is
    reported not found and nothing changes. *)
Theorem deadline_set_then_enforced (n : Z) (dl : timestamp) (d : db) :
  (forall d', Admin.put_deadline n (Some dl) d = (Admin.Updated, d') ->
     pick_deadline_of d' n = Some dl
     /\ (forall m, m <> n -> pick_deadline_of d' m = pick_deadline_of d m)
     /\ (forall user fresh now b, 1 <= n -> dl < now ->
           Rosters.save d' user fresh now n b = (Rosters.Locked, d'))
     /\ (forall user fresh now b, now <= dl ->
           fst (Rosters.save d' user fresh now n b) <> Rosters.Locked
           /\ fst (Rosters.save d' user fresh now n b) <> Rosters.DeadlineNotSet))
  /\ (0 <= n <= 3 ->
      filter (fun r => Rounds.round_number r = n) (rounds d) = [] ->
      Admin.put_deadline n (Some dl) d = (Admin.NotFound, d)).
Proof.
  split.
  - intros d'. unfold Admin.put_deadline.
    destruct (Z.ltb_spec n 0); [discriminate|].
    destruct (Z.ltb_spec 3 n); [discriminate|]. cbn [orb].
    destruct (filter _ (rounds d)) as [|r0 rest] eqn:Hf; [discriminate|].
    intros [= <-].
    assert (Hsame : pick_deadline_of
                      (set_rounds (map (fun r =>
                         if bool_decide (Rounds.round_number r = n)
                         then {| Rounds.round_number := Rounds.round_number r;
                                 Rounds.pick_deadline := Some dl |}
                         else r)) d) n = Some dl).
    { unfold pick_deadline_of. cbn [rounds set_rounds].
      rewrite pick_deadline_updated, Hf, bool_decide_eq_true_2 by reflexivity.
      reflexivity. }
    split; [exact Hsame|]. split; [|split].
    + intros m Hm. unfold pick_deadline_of. cbn [rounds set_rounds].
      rewrite pick_deadline_updated.
      destruct (filter (fun r => Rounds.round_number r = m) (rounds d)); [reflexivity|].
      rewrite bool_decide_eq_false_2 by exact Hm. reflexivity.
    + intros user fresh now b Hn Hlt. unfold Rosters.save.
      replace ((n <? 1) || (3 <? n)) with false by lia.
      rewrite Hsame. replace (dl <? now) with true by lia. reflexivity.
    + intros user fresh now b Hle. unfold Rosters.save.
      destruct ((n <? 1) || (3 <? n)); [split; discriminate|].
      rewrite Hsame. replace (dl <? now) with false by lia.
      destruct (Rosters.get_or_create _ user n fresh) as [rid d1].
      destruct (Body.selections b) as [sel|]; [|split; discriminate].
      destruct (validate_cases (Rosters.clear rid d1) (collect sel) n)
        as [[Hv _]|[[Hv _]|[Hv _]]]; rewrite Hv; try (split; discriminate).
      destruct (Rosters.insert_players _ _ _ _); split; discriminate.
  - intros Hn Hnone. unfold Admin.put_deadline.
    replace ((n <? 0) || (3 <? n)) with false by lia. rewrite Hnone. reflexivity.
Qed.

Lemma deadline_set_then_enforced_witness :
  pick_deadline_of (snd (Admin.put_deadline 1 (Some 500) (Demo.pool false [1; 4; 6]%N))) 1
  = Some 500
  /\ fst (Rosters.save (snd (Admin.put_deadline 1 (Some 500) (Demo.pool false [1; 4; 6]%N)))
            1%N 999%N 900 1 Demo.empty_body) = Rosters.Locked
  /\ Admin.put_deadline 2 (Some 500) (Demo.pool false [1; 4; 6]%N)
     = (Admin.NotFound, Demo.pool false [1; 4; 6]%N).
Proof.
  destruct (proj1 (deadline_set_then_enforced 1 500 (Demo.pool false [1; 4; 6]%N))
              (snd (Admin.put_deadline 1 (Some 500) (Demo.pool false [1; 4; 6]%N)))
              eq_refl) as (H1 & _ & H3 & _).
  split; [exact H1|]. split.
  - rewrite H3; [reflexivity|lia|lia].
  - apply (proj2 (deadline_set_then_enforced 2 500 (Demo.pool false [1; 4; 6]%N)));
      [lia|reflexivity].
Defined.

(** ** Reading a roster back *)

Lemma file_fold (ls : list View.line) (acc : View.organized) :
  (forall c r,
     View.selections (foldl View.file acc ls) c r
     = View.selections acc c r
       ++ map View.player
            (filter (fun l => View.conference_ l = c /\ View.position_ l = r) ls))
  /\ (forall r,
        View.stars (foldl View.file acc ls) r
        = match last (filter (fun l => View.is_star l = true /\ View.position_ l = r) ls)
          with
          | Some l => Some (View.player l)
          | None => View.stars acc r
          end).
Proof.
  revert acc. induction ls as [|l ls IH] using rev_ind; intros acc.
  - split; intros; cbn; rewrite ?app_nil_r; reflexivity.
  - rewrite foldl_app. cbn [foldl]. destruct (IH acc) as [IHs IHt]. split.
    + intros c r. cbn [View.file View.selections]. rewrite IHs, filter_app, map_app.
      rewrite filter_cons, filter_nil.
      destruct (decide (View.conference_ l = c /\ View.position_ l = r)) as [[<- <-]|Hn].
      * rewrite !bool_decide_eq_true_2 by reflexivity. cbn. rewrite app_assoc. reflexivity.
      * replace (bool_decide (c = View.conference_ l) && bool_decide (r = View.position_ l))
          with false; [cbn; rewrite app_nil_r; reflexivity|].
        symmetry. apply andb_false_iff.
        destruct (decide (c = View.conference_ l)) as [->|Hc].
        -- right. apply bool_decide_eq_false_2. intros ->. apply Hn. split; reflexivity.
        -- left. apply bool_decide_eq_false_2. exact Hc.
    + intros r. cbn [View.file View.stars]. rewrite IHt, filter_app.
      rewrite filter_cons, filter_nil.
      destruct (View.is_star l) eqn:Hstar; cbn [andb].
      * destruct (decide (r = View.position_ l)) as [->|Hr].
        -- rewrite bool_decide_eq_true_2 by reflexivity.
           destruct (decide (true = true /\ View.position_ l = View.position_ l))
             as [_|Hn]; [|exfalso; apply Hn; split; reflexivity].
           rewrite last_snoc. reflexivity.
        -- rewrite bool_decide_eq_false_2 by exact Hr.
           destruct (decide (true = true /\ View.position_ l = r)) as [[_ Heq]|_];
             [congruence|].
           rewrite app_nil_r. reflexivity.
      * destruct (decide (false = true /\ View.position_ l = r)) as [[Hbad _]|_];
          [discriminate|].
        rewrite app_nil_r. reflexivity.
Qed.

(** X25. What [GET /] shows of a roster: every selected player is filed
    under the conference of its team and its own position, in the order of
    the selections, and for each position the star shown is the last
    starred player of that position, so that of several stars of one
    position only one is shown. *)
Theorem view_files_by_placement (d : db) (user : uuid) (round : Z) (r0 : Rosters_.row) :
  roster_of d user round = Some r0 ->
  View.id (View.get d user round) = Some (Rosters_.id r0)
  /\ View.isSubmitted (View.get d user round) = Rosters_.is_submitted r0
  /\ (forall c r,
        View.selections (View.shown (View.get d user round)) c r
        = map View.player
            (filter (fun l => View.conference_ l = c /\ View.position_ l = r)
                    (View.lines d (Rosters_.id r0))))
  /\ (forall r,
        View.stars (View.shown (View.get d user round)) r
        = View.player
            <$> last (filter (fun l => View.is_star l = true /\ View.position_ l = r)
                             (View.lines d (Rosters_.id r0)))).
Proof.
  intros Hr. unfold View.get. rewrite Hr. cbn [View.id View.isSubmitted View.shown].
  destruct (file_fold (View.lines d (Rosters_.id r0)) View.empty) as [Hs Ht].
  split; [reflexivity|]. split; [reflexivity|]. split.
  - intros c r. rewrite Hs. reflexivity.
  - intros r. rewrite Ht. destruct (last _); reflexivity.
Qed.

Lemma view_files_by_placement_witness :
  View.selections (View.shown (View.get (Demo.pool false [1; 2; 3]%N) 1%N 1)) western forward
  = [1; 2; 3]%N
  /\ View.stars (View.shown (View.get (Demo.pool false [1; 2; 3]%N) 1%N 1)) forward
     = Some 3%N.
Proof.
  destruct (view_files_by_placement (Demo.pool false [1; 2; 3]%N) 1%N 1
              {| Rosters_.id := 100; Rosters_.user_id := 1; Rosters_.round := 1;
                 Rosters_.is_submitted := false; Rosters_.submitted_at := None |}
              eq_refl) as (_ & _ & Hs & Ht).
  split.
  - rewrite Hs. reflexivity.
  - rewrite Ht. reflexivity.
Defined.

Lemma roster_of_saved (d d' : db) (user fresh : uuid) (now : timestamp) (round : Z)
    (b : Body.t) (sel : Selections.t) (rid : uuid) :
  Rosters.save d user fresh now round b = (Rosters.Saved rid, d') ->
  Body.selections b = Some sel ->
  exists r, roster_of d' user round = Some r /\ Rosters_.id r = rid.
Proof.
  intros Hsave Hsel.
  destruct (save_Saved_db d d' user fresh now round b sel rid Hsave Hsel) as [Hrid Hd'].
  rewrite Hd', Hrid. unfold roster_of, Rosters.clear, Rosters.get_or_create.
  destruct (Body.tiebreakers b) as [[q1 q2]|];
    cbn [save_tiebreakers rosters set_tiebreakers set_roster_players];
    fold (roster_of d user round);
    destruct (roster_of d user round) as [r|] eqn:Hr; cbn [fst snd rosters set_rosters];
    try (exists r; split; [exact Hr|reflexivity]);
    unfold roster_of in Hr; apply head_None in Hr;
    rewrite filter_app, Hr, filter_cons_True by (split; reflexivity);
    eexists; split; reflexivity.
Qed.

Lemma bind_singleton_map {A B : Type} (f : A -> B) (l : list A) :
  (x ← l; [f x]) = map f l.
Proof.
  induction l as [|x l IH]; [reflexivity|]. rewrite bind_cons, IH. reflexivity.
Qed.

Lemma lines_of_id (d : db) (i : uuid) (star : bool) :
  (p ← filter (fun p => Players.id p = i) (players d);
   t ← filter (fun t => Teams.abbrev t = Players.team_abbrev p) (teams d);
   [ {| View.player := Players.id p; View.position_ := Players.position_ p;
        View.conference_ := Teams.conference_ t; View.is_star := star |} ])
  = map (fun rc => {| View.player := i; View.position_ := rc.1;
                      View.conference_ := rc.2; View.is_star := star |})
        (placement d i).
Proof.
  unfold placement. induction (players d) as [|p ps IH]; [reflexivity|].
  rewrite filter_cons. destruct (decide (Players.id p = i)) as [Hid|_]; [|exact IH].
  rewrite !bind_cons, map_app, IH. f_equal.
  rewrite !bind_singleton_map, map_map. rewrite Hid. reflexivity.
Qed.

Lemma lines_selected (d : db) (rid : uuid) (stars ids : list uuid)
    (old : list RosterPlayers.row) :
  (forall rp, rp ∈ old -> RosterPlayers.roster_id rp ≠ rid) ->
  View.lines (set_roster_players (fun _ => old ++ map (selection rid stars) ids) d) rid
  = (i ← ids;
     map (fun rc => {| View.player := i; View.position_ := rc.1;
                       View.conference_ := rc.2;
                       View.is_star := bool_decide (i ∈ stars) |})
         (placement d i)).
Proof.
  intros Hold. unfold View.lines.
  cbn [roster_players players teams set_roster_players].
  rewrite filter_app. rewrite (filter_none_in _ old).
  2:{ intros rp Hrp Heq. exact (Hold rp Hrp Heq). }
  cbn [app]. induction ids as [|i ids IH]; [reflexivity|].
  cbn [map]. rewrite filter_cons_True by reflexivity.
  rewrite !bind_cons, IH. f_equal.
  cbn [selection RosterPlayers.player_id RosterPlayers.is_star].
  apply lines_of_id.
Qed.

(** The players a slot contributes to what is shown under [(c0, r0)]. *)
Lemma shown_of_slot (d : db) (stars ids : list uuid) (c c0 : conference)
    (r r0 : position) :
  (forall i, i ∈ ids -> placement d i = [(r, c)]) ->
  map View.player
    (filter (fun l => View.conference_ l = c0 /\ View.position_ l = r0)
       (i ← ids;
        map (fun rc => {| View.player := i; View.position_ := rc.1;
                          View.conference_ := rc.2;
                          View.is_star := bool_decide (i ∈ stars) |})
            (placement d i)))
  = if bool_decide (c = c0 /\ r = r0) then ids else [].
Proof.
  induction ids as [|i ids IH]; intros Hp.
  - destruct (bool_decide _); reflexivity.
  - rewrite bind_cons, filter_app, map_app, IH
      by (intros j Hj; apply Hp; right; exact Hj).
    rewrite (Hp i) by left. cbn [map fst snd]. rewrite filter_cons, filter_nil.
    cbn [View.conference_ View.position_].
    destruct (decide _) as [H|H].
    + rewrite (bool_decide_eq_true_2 (c = c0 /\ r = r0) H). reflexivity.
    + rewrite (bool_decide_eq_false_2 (c = c0 /\ r = r0) H). reflexivity.
Qed.

(** The rows of the players query after an accepted save, filtered by
    conference and position: the players the request filed there. *)
Lemma filed_after_save (d d' : db) (user fresh : uuid) (now : timestamp) (round : Z)
    (b : Body.t) (sel : Selections.t) (rid : uuid) :
  Rosters.save d user fresh now round b = (Rosters.Saved rid, d') ->
  Body.selections b = Some sel ->
  (forall c r i, i ∈ slot_of sel c r -> placement d i = [(r, c)]) ->
  forall c r,
    map View.player
      (filter (fun l => View.conference_ l = c /\ View.position_ l = r) (View.lines d' rid))
    = slot_of sel c r.
Proof.
  intros Hsave Hsel Hplace c0 r0'.
  destruct (save_Saved_db d d' user fresh now round b sel rid Hsave Hsel) as [Hrid Hd'].
  assert (Hlines : View.lines d' rid
                   = (i ← collect sel;
                      map (fun rc => {| View.player := i; View.position_ := rc.1;
                                        View.conference_ := rc.2;
                                        View.is_star :=
                                          bool_decide (i ∈ default [] (Body.stars b)) |})
                          (placement d i))).
  { rewrite Hd'. unfold View.lines. rewrite roster_players_save_tiebreakers.
    assert (Hsame : forall tb x, players (save_tiebreakers user round tb x) = players x
                                 /\ teams (save_tiebreakers user round tb x) = teams x)
      by (intros [[q1 q2]|] x; split; reflexivity).
    destruct (Hsame (Body.tiebreakers b)
                (set_roster_players
                   (fun l => l ++ map (selection rid (default [] (Body.stars b)))
                                      (collect sel))
                   (Rosters.clear rid (snd (Rosters.get_or_create d user round fresh)))))
      as [-> ->].
    unfold Rosters.clear. cbn [roster_players players teams set_roster_players].
    pose proof (lines_selected
                  (snd (Rosters.get_or_create d user round fresh)) rid
                  (default [] (Body.stars b)) (collect sel)
                  (filter (fun rp => RosterPlayers.roster_id rp ≠ rid)
                          (roster_players (snd (Rosters.get_or_create d user round fresh)))))
      as Hp.
    unfold View.lines in Hp.
    cbn [roster_players players teams set_roster_players] in Hp.
    rewrite Hp.
    - unfold placement, Rosters.get_or_create.
      destruct (roster_of d user round); reflexivity.
    - intros rp Hrp. apply list_elem_of_filter in Hrp. tauto. }
  rewrite Hlines. unfold collect.
  change (slot (Selections.western sel) Selections.forwards)
    with (slot_of sel western forward).
  change (slot (Selections.western sel) Selections.defense)
    with (slot_of sel western defense).
  change (slot (Selections.western sel) Selections.goalies)
    with (slot_of sel western goalie).
  change (slot (Selections.eastern sel) Selections.forwards)
    with (slot_of sel eastern forward).
  change (slot (Selections.eastern sel) Selections.defense)
    with (slot_of sel eastern defense).
  change (slot (Selections.eastern sel) Selections.goalies)
    with (slot_of sel eastern goalie).
  rewrite !bind_app, !filter_app, !map_app.
  rewrite (shown_of_slot d _ _ western c0 forward r0') by (apply Hplace).
  rewrite (shown_of_slot d _ _ western c0 defense r0') by (apply Hplace).
  rewrite (shown_of_slot d _ _ western c0 goalie r0') by (apply Hplace).
  rewrite (shown_of_slot d _ _ eastern c0 forward r0') by (apply Hplace).
  rewrite (shown_of_slot d _ _ eastern c0 defense r0') by (apply Hplace).
  rewrite (shown_of_slot d _ _ eastern c0 goalie r0') by (apply Hplace).
  destruct c0, r0';
    repeat match goal with
           | |- context [bool_decide ?P] =>
               first [ rewrite (bool_decide_eq_true_2 P) by (split; reflexivity)
                     | rewrite (bool_decide_eq_false_2 P) by (intros [? ?]; discriminate) ]
           end;
    cbn [app]; rewrite ?app_nil_r; reflexivity.
Qed.


(** X26. Reading back what was saved: after an accepted save in which every
    player was filed under the conference of its team and its own position,
    whatever the order in which the database returns the rows of the
    players query, [GET /] shows for the round the roster of the save with,
    under each conference and position, exactly the ids the request filed
    there, each as many times as the request named it (the order within a
    slot is that of the rows, which the query does not fix). *)
Theorem view_after_save (d d' : db) (user fresh : uuid) (now : timestamp) (round : Z)
    (b : Body.t) (sel : Selections.t) (rid : uuid) :
  Rosters.save d user fresh now round b = (Rosters.Saved rid, d') ->
  Body.selections b = Some sel ->
  (forall c r i, i ∈ slot_of sel c r -> placement d i = [(r, c)]) ->
  View.shows d' user round (View.get d' user round)
  /\ (forall entry, View.shows d' user round entry ->
        View.id entry = Some rid
        /\ (forall c r, View.selections (View.shown entry) c r ≡ₚ slot_of sel c r)
        /\ (forall c r i, i ∈ View.selections (View.shown entry) c r <-> i ∈ slot_of sel c r)).
Proof.
  intros Hsave Hsel Hplace.
  destruct (roster_of_saved d d' user fresh now round b sel rid Hsave Hsel)
    as (r0 & Hr0 & Hid).
  split.
  - unfold View.shows, View.get. rewrite Hr0. eexists. split; reflexivity.
  - intros entry Hshows. unfold View.shows in Hshows. rewrite Hr0, Hid in Hshows.
    destruct Hshows as (rows & Hperm & ->). cbn [View.id View.shown].
    split; [reflexivity|].
    assert (Hslot : forall c r,
               View.selections (foldl View.file View.empty rows) c r ≡ₚ slot_of sel c r).
    { intros c r. destruct (file_fold rows View.empty) as [Hs _].
      rewrite Hs. cbn [View.empty View.selections app].
      rewrite <- (filed_after_save d d' user fresh now round b sel rid Hsave Hsel Hplace c r).
      apply Permutation_map. rewrite Hperm. reflexivity. }
    split; [exact Hslot|].
    intros c r i. rewrite (Hslot c r). reflexivity.
Qed.

Lemma view_after_save_witness :
  View.selections
    (View.shown
       (View.get
          (snd (Rosters.save (Demo.pool false []) 2%N 200%N 900 1
                  (Demo.body [1; 2] [4] [] [7] [] [12] [1])%N)) 2%N 1)) western forward
  ≡ₚ [1; 2]%N.
Proof.
  destruct (view_after_save (Demo.pool false [])
              (snd (Rosters.save (Demo.pool false []) 2%N 200%N 900 1
                      (Demo.body [1; 2] [4] [] [7] [] [12] [1])%N))
              2%N 200%N 900 1 (Demo.body [1; 2] [4] [] [7] [] [12] [1])%N
              _ 200%N ltac:(vm_compute; reflexivity) eq_refl) as [Hget Hall].
  - intros c r i Hi. destruct c, r; cbn in Hi; apply list_elem_of_In in Hi; simpl in Hi;
      repeat (destruct Hi as [<-|Hi]; [reflexivity|]); destruct Hi.
  - exact (proj1 (proj2 (Hall _ Hget)) western forward).
Defined.
